(** * WebGPUEngine: frame life cycle, pipeline cache and command surface

    A shallow embedding of [packages/core/src/WebGPUEngine.ts].

    The engine is a mutable object whose methods call into the WebGPU device.
    The embedding keeps the two apart:
    - the private fields of the class are the fields of the record [State];
    - every call the engine makes on a GPU object is appended, with its
      arguments and with the handle it returns, to the log [gpuLog];
    - what the browser answers while [init] runs, an adapter, a device and
      a canvas context or their refusal, is an argument of the call;
    - a method is a computation in the monad [Eng], which threads the state
      and stops at the first JavaScript exception.  A thrown exception keeps
      the state reached so far, as a [try]/[catch] around the call would see
      it.

    GPU objects are opaque: each one is a fresh [Handle].  Numbers that the
    engine only stores and forwards are integers, except colours, which are
    rationals.  The shader compiler (glslang) and the [compile*] methods that
    wrap it are outside the embedding. *)

From Stdlib Require Import ZArith List String Lia Bool.
From Stdlib Require QArith_base.
From Stdlib.Strings Require Import Byte.
From stdpp Require Import base option list gmap strings.

Local Open Scope Z_scope.
Local Open Scope string_scope.

(** ** Constants of [@webgpu/types/dist/constants] *)

Module WebGPUConstants.
Module TextureFormat.
Definition BGRA8Unorm : string := "bgra8unorm".
Definition Depth24PlusStencil8 : string := "depth24plus-stencil8".
End TextureFormat.
Module TextureDimension.
Definition E2d : string := "2d".
End TextureDimension.
Module TextureUsage.
Definition CopySrc : Z := 1.
Definition OutputAttachment : Z := 16.
End TextureUsage.
Module BufferUsage.
Definition CopySrc : Z := 4.
Definition CopyDst : Z := 8.
Definition Vertex : Z := 32.
Definition Uniform : Z := 64.
End BufferUsage.
Module LoadOp.
Definition Load : string := "load".
End LoadOp.
Module StoreOp.
Definition Store : string := "store".
End StoreOp.
Module FrontFace.
Definition CCW : string := "ccw".
End FrontFace.
Module CullMode.
Definition None : string := "none".
End CullMode.
Module CompareFunction.
Definition Always : string := "always".
End CompareFunction.
Module StencilOperation.
Definition Keep : string := "keep".
End StencilOperation.
Module BlendFactor.
Definition One : string := "one".
Definition Zero : string := "zero".
End BlendFactor.
Module BlendOperation.
Definition Add : string := "add".
End BlendOperation.
Module ColorWrite.
Definition All : Z := 15.
End ColorWrite.
End WebGPUConstants.

(** ** JavaScript helpers *)

(** [ToInt32], applied by the bitwise operators to their operands. *)
Definition toInt32 (z : Z) : Z := (z + 2 ^ 31) mod 2 ^ 32 - 2 ^ 31.

(** [a | b]. *)
Definition js_bitor (a b : Z) : Z := Z.lor (toInt32 a) (toInt32 b).

(** [arr[i] = v] on an array: writes in place, and pads with [undefined]
    when [i] is past the end. *)
Definition js_array_set {A} (i : nat) (v : A) (arr : list (option A))
  : list (option A) :=
  if decide (i < length arr)%nat then <[i := Some v]> arr
  else arr ++ replicate (i - length arr) None ++ [Some v].

(** Truthiness of an object that may be [null] or [undefined]. *)
Definition truthy {A} (o : option A) : bool :=
  match o with
  | Some _ => true
  | None => false
  end.

(** [a || b] on strings: the empty string is falsy. *)
Definition js_or_string (a : option string) (b : string) : string :=
  match a with
  | Some EmptyString => b
  | Some s => s
  | None => b
  end.

(** A property of a partial object: absent, present with the value
    [undefined], or present with a value. *)
Inductive Property (A : Type) :=
  | Absent
  | Undefined
  | Given (a : A).
Arguments Absent {A}.
Arguments Undefined {A}.
Arguments Given {A} a.

(** One property of an object spread [{...d, ...o}]: the right operand wins
    where it has the property, whatever its value, [undefined] included. *)
Definition spread {A} (d o : Property A) : Property A :=
  match o with
  | Absent => d
  | Undefined | Given _ => o
  end.

(** The names every object inherits from [Object.prototype]: the members
    the language defines for it. *)
Definition objectPrototypeNames : list string :=
  [ "constructor"; "hasOwnProperty"; "isPrototypeOf"; "propertyIsEnumerable";
    "toLocaleString"; "toString"; "valueOf"; "__proto__";
    "__defineGetter__"; "__defineSetter__"; "__lookupGetter__";
    "__lookupSetter__" ].

(** ** Data *)

Definition Handle := nat.

(** What [obj[name]] yields on an object literal [{}] that is used as a map
    from names to GPU objects: the object stored under the name, or else
    the member of [Object.prototype] of that name; both are truthy.
    [None] is [undefined]. *)
Inductive Member :=
  | Own (h : Handle)
  | Inherited (name : string).

Definition js_get (obj : gmap string Handle) (name : string)
  : option Member :=
  match obj !! name with
  | Some h => Some (Own h)
  | None =>
      if bool_decide (name ∈ objectPrototypeNames)
      then Some (Inherited name)
      else None
  end.
Definition GPUTextureFormat := string.
Definition GPUColor := list QArith_base.Q.

(** The colour [[0, 0, 0, 1]]. *)
Definition opaqueBlack : GPUColor :=
  map (fun z => QArith_base.Qmake z 1) [0; 0; 0; 1].

Record HTMLCanvasElement := {
  width : Z;
  height : Z
}.

(** [IWebGPUEngineOptions].  [powerPreference] and [deviceDescriptor] are
    declared but never read by the engine.  An absent boolean is falsy. *)
Record IWebGPUEngineOptions := {
  swapChainFormat : option GPUTextureFormat;
  antialiasing : bool;
  supportCompute : bool
}.

Record GPUExtent3D := {
  ext_width : Z;
  ext_height : Z;
  ext_depth : Z
}.

Record GPUTextureDescriptor := {
  tex_size : GPUExtent3D;
  tex_arrayLayerCount : Z;
  tex_mipLevelCount : Z;
  tex_sampleCount : Z;
  tex_dimension : string;
  tex_format : GPUTextureFormat;
  tex_usage : Z
}.

(** [loadValue] of a colour attachment: a colour to clear to, or a load op. *)
Inductive ColorLoadValue :=
  | ClearColor (c : GPUColor)
  | ColorLoadOp (op : string).

(** [depthLoadValue] and [stencilLoadValue]: a number, or a load op. *)
Inductive NumLoadValue :=
  | ClearNum (n : Z)
  | NumLoadOp (op : string).

Record GPURenderPassColorAttachmentDescriptor := {
  attachment : Handle;
  resolveTarget : option Handle;
  loadValue : ColorLoadValue;
  storeOp : string
}.

Record GPURenderPassDepthStencilAttachmentDescriptor := {
  ds_attachment : Handle;
  depthLoadValue : NumLoadValue;
  depthStoreOp : string;
  stencilLoadValue : NumLoadValue;
  stencilStoreOp : string
}.

Record GPUProgrammableStageDescriptor := {
  module : Handle;
  entryPoint : string
}.

(** Partial objects, property by property. *)
Record GPURasterizationStateDescriptor := {
  frontFace : Property string;
  cullMode : Property string;
  depthBias : Property Z;
  depthBiasSlopeScale : Property Z;
  depthBiasClamp : Property Z
}.

Record GPUStencilStateFaceDescriptor := {
  compare : string;
  depthFailOp : string;
  failOp : string;
  passOp : string
}.

Record GPUDepthStencilStateDescriptor := {
  depthWriteEnabled : Property bool;
  depthCompare : Property string;
  ds_format : Property GPUTextureFormat;
  stencilFront : Property GPUStencilStateFaceDescriptor;
  stencilBack : Property GPUStencilStateFaceDescriptor;
  stencilReadMask : Property Z;
  stencilWriteMask : Property Z
}.

Record GPUBlendDescriptor := {
  srcFactor : string;
  dstFactor : string;
  operation : string
}.

Record GPUColorStateDescriptor := {
  cs_format : option GPUTextureFormat;
  alphaBlend : GPUBlendDescriptor;
  colorBlend : GPUBlendDescriptor;
  writeMask : Z
}.

(** Forwarded to the device untouched. *)
Record GPUVertexStateDescriptor := {
  indexFormat : option string;
  vertexBufferStrides : list Z
}.

(** The descriptor a caller hands to [drawArraysType], [drawElementsType]
    and, through them, to [getRenderPipeline].  Every property may be absent
    at run time. *)
Record PipelineArgs := {
  primitiveTopology : option string;
  rasterizationState : option GPURasterizationStateDescriptor;
  depthStencilState : option GPUDepthStencilStateDescriptor;
  colorStates : option (list GPUColorStateDescriptor);
  vertexStage : option GPUProgrammableStageDescriptor;
  fragmentStage : option GPUProgrammableStageDescriptor;
  vertexState : option GPUVertexStateDescriptor;
  layout : option Handle
}.

(** The descriptor [getRenderPipeline] hands to [createRenderPipeline]. *)
Record GPURenderPipelineDescriptor := {
  rp_sampleCount : Z;
  rp_primitiveTopology : string;
  rp_rasterizationState : GPURasterizationStateDescriptor;
  rp_depthStencilState : GPUDepthStencilStateDescriptor;
  rp_colorStates : list GPUColorStateDescriptor;
  rp_layout : option Handle;
  rp_vertexStage : GPUProgrammableStageDescriptor;
  rp_fragmentStage : GPUProgrammableStageDescriptor;
  rp_vertexState : option GPUVertexStateDescriptor
}.

Record GPUComputePipelineDescriptor := {
  cp_layout : option Handle;
  computeStage : GPUProgrammableStageDescriptor
}.

(** An [ArrayBufferView]: a window of [byteLength] bytes, starting at
    [byteOffset], on the bytes of [buffer]. *)
Record ArrayBufferView := {
  buffer : list byte;
  byteOffset : Z;
  byteLength : Z
}.

(** [new Uint8Array(data)] for an [ArrayBuffer]: the view of all its bytes. *)
Definition Uint8Array_of (data : list byte) : ArrayBufferView :=
  {| buffer := data; byteOffset := 0; byteLength := Z.of_nat (length data) |}.

(** The [data] argument of [createVertexBuffer] and [createUniformBuffer].
    A [number[]] is given by the four bytes each element has once stored as
    a 32-bit float. *)
Inductive BufferData :=
  | DataArray (floats : list (byte * byte * byte * byte))
  | DataArrayBuffer (data : list byte)
  | DataView (view : ArrayBufferView).

(** [new Float32Array(data)]. *)
Definition Float32Array_of (floats : list (byte * byte * byte * byte))
  : ArrayBufferView :=
  Uint8Array_of (concat (map (fun '(a, b, c, d) => [a; b; c; d]) floats)).

Record VertexInputs := {
  indexBuffer : option Handle;
  indexOffset : Z;
  vertexStartSlot : Z;
  vertexBuffers : list (option Handle);
  vertexOffsets : list Z
}.

(** ** Calls on GPU objects *)

(** A call that may yield [null], or whose promise may be rejected, has
    an optional result. *)
Inductive Event :=
  | EvRequestAdapter (adapter : option Handle)
  | EvRequestDevice (adapter : Handle) (device : option Handle)
  | EvGetContext (context : option Handle)
  | EvConfigureSwapChain (context : Handle) (device : option Handle)
      (format : option GPUTextureFormat) (usage : Z) (swapChain : Handle)
  | EvCreateCommandEncoder (label : string) (encoder : Handle)
  | EvFinish (encoder commandBuffer : Handle)
  | EvSubmit (commandBuffers : list (option Handle))
  | EvBufferDestroy (buffer : Handle)
  | EvTextureDestroy (texture : Handle)
  | EvCreateRenderBundleEncoder (colorFormats : list GPUTextureFormat)
      (depthStencilFormat : GPUTextureFormat) (sampleCount : Z)
      (encoder : Handle)
  | EvBundleFinish (encoder bundle : Handle)
  | EvExecuteBundles (pass : Handle) (bundles : list Handle)
  | EvSetScissorRect (pass : Handle) (x y w h : Z)
  | EvCreateBufferMapped (size usage : Z) (buffer : Handle)
  | EvUnmap (buffer : Handle) (contents : list byte)
  | EvCopyBufferToBuffer (encoder src : Handle) (srcOffset : Z)
      (dst : Handle) (dstOffset size : Z)
  | EvCreateBuffer (size usage : Z) (buffer : Handle)
  | EvCreateTexture (descriptor : GPUTextureDescriptor) (texture : Handle)
  | EvCreateView (texture view : Handle)
  | EvGetCurrentTexture (swapChain texture : Handle)
  | EvBeginRenderPass (encoder : Handle)
      (colorAttachments : list GPURenderPassColorAttachmentDescriptor)
      (depthStencilAttachment :
         option GPURenderPassDepthStencilAttachmentDescriptor)
      (pass : Handle)
  | EvBeginComputePass (encoder pass : Handle)
  | EvEndPass (pass : Handle)
  | EvComputeEndPass (pass : Handle)
  | EvSetPipeline (target : Handle) (pipeline : Member)
  | EvDraw (target : Handle)
      (vertexCount instanceCount firstVertex firstInstance : Z)
  | EvDrawIndexed (target : Handle)
      (indexCount instanceCount firstIndex baseVertex firstInstance : Z)
  | EvSetBindGroup (target : Handle) (index : Z) (group : Handle)
  | EvSetIndexBuffer (target buffer : Handle) (offset : Z)
  | EvSetVertexBuffer (target : Handle) (slot : Z) (buffer : Handle)
      (offset : option Z)
  | EvDispatch (pass : Handle) (x : Z)
  | EvCreateRenderPipeline (descriptor : GPURenderPipelineDescriptor)
      (pipeline : Handle)
  | EvCreateComputePipeline (descriptor : GPUComputePipelineDescriptor)
      (pipeline : Handle).

(** ** The engine *)

(** The fields of the class, then the environment: whether [navigator.gpu]
    is present, the log of GPU calls and the next unused handle.  The two
    caches hold the own properties of the object literals [pipelines] and
    [computePipelines]; a name is looked up in them with [js_get], which
    also finds what every object inherits. *)
Record State := {
  canvas : HTMLCanvasElement;
  context : option Handle;
  adapter : option Handle;
  device : option Handle;
  swapChain : option Handle;
  pipelines : gmap string Handle;
  computePipelines : gmap string Handle;
  mainPassSampleCount : Z;
  mainTexture : option Handle;
  depthTexture : option Handle;
  mainColorAttachments : option (list GPURenderPassColorAttachmentDescriptor);
  mainTextureExtends : option GPUExtent3D;
  mainDepthAttachment : option GPURenderPassDepthStencilAttachmentDescriptor;
  uploadEncoder : option Handle;
  renderEncoder : option Handle;
  computeEncoder : option Handle;
  commandBuffers : list (option Handle);
  currentRenderPass : option Handle;
  currentComputePass : option Handle;
  bundleEncoder : option Handle;
  tempBuffers : list Handle;
  options : IWebGPUEngineOptions;
  navigatorGpu : bool;
  gpuLog : list Event;
  nextHandle : Handle
}.

Definition defaultSampleCount : Z := 4.
Definition clearDepthValue : Z := 1.
Definition clearStencilValue : Z := 0.
Definition uploadEncoderDescriptor : string := "upload".
Definition renderEncoderDescriptor : string := "render".
Definition computeEncoderDescriptor : string := "compute".

(** ** Field updates *)

Definition set_canvas v (s : State) : State :=
  Build_State v (context s) (adapter s) (device s) (swapChain s) (pipelines s)
    (computePipelines s) (mainPassSampleCount s) (mainTexture s)
    (depthTexture s) (mainColorAttachments s) (mainTextureExtends s)
    (mainDepthAttachment s) (uploadEncoder s) (renderEncoder s)
    (computeEncoder s) (commandBuffers s) (currentRenderPass s)
    (currentComputePass s) (bundleEncoder s) (tempBuffers s) (options s)
    (navigatorGpu s) (gpuLog s) (nextHandle s).

Definition set_context v (s : State) : State :=
  Build_State (canvas s) v (adapter s) (device s) (swapChain s) (pipelines s)
    (computePipelines s) (mainPassSampleCount s) (mainTexture s)
    (depthTexture s) (mainColorAttachments s) (mainTextureExtends s)
    (mainDepthAttachment s) (uploadEncoder s) (renderEncoder s)
    (computeEncoder s) (commandBuffers s) (currentRenderPass s)
    (currentComputePass s) (bundleEncoder s) (tempBuffers s) (options s)
    (navigatorGpu s) (gpuLog s) (nextHandle s).

Definition set_adapter v (s : State) : State :=
  Build_State (canvas s) (context s) v (device s) (swapChain s) (pipelines s)
    (computePipelines s) (mainPassSampleCount s) (mainTexture s)
    (depthTexture s) (mainColorAttachments s) (mainTextureExtends s)
    (mainDepthAttachment s) (uploadEncoder s) (renderEncoder s)
    (computeEncoder s) (commandBuffers s) (currentRenderPass s)
    (currentComputePass s) (bundleEncoder s) (tempBuffers s) (options s)
    (navigatorGpu s) (gpuLog s) (nextHandle s).

Definition set_device v (s : State) : State :=
  Build_State (canvas s) (context s) (adapter s) v (swapChain s) (pipelines s)
    (computePipelines s) (mainPassSampleCount s) (mainTexture s)
    (depthTexture s) (mainColorAttachments s) (mainTextureExtends s)
    (mainDepthAttachment s) (uploadEncoder s) (renderEncoder s)
    (computeEncoder s) (commandBuffers s) (currentRenderPass s)
    (currentComputePass s) (bundleEncoder s) (tempBuffers s) (options s)
    (navigatorGpu s) (gpuLog s) (nextHandle s).

Definition set_swapChain v (s : State) : State :=
  Build_State (canvas s) (context s) (adapter s) (device s) v (pipelines s)
    (computePipelines s) (mainPassSampleCount s) (mainTexture s)
    (depthTexture s) (mainColorAttachments s) (mainTextureExtends s)
    (mainDepthAttachment s) (uploadEncoder s) (renderEncoder s)
    (computeEncoder s) (commandBuffers s) (currentRenderPass s)
    (currentComputePass s) (bundleEncoder s) (tempBuffers s) (options s)
    (navigatorGpu s) (gpuLog s) (nextHandle s).

Definition set_pipelines v (s : State) : State :=
  Build_State (canvas s) (context s) (adapter s) (device s) (swapChain s) v
    (computePipelines s) (mainPassSampleCount s) (mainTexture s)
    (depthTexture s) (mainColorAttachments s) (mainTextureExtends s)
    (mainDepthAttachment s) (uploadEncoder s) (renderEncoder s)
    (computeEncoder s) (commandBuffers s) (currentRenderPass s)
    (currentComputePass s) (bundleEncoder s) (tempBuffers s) (options s)
    (navigatorGpu s) (gpuLog s) (nextHandle s).

Definition set_computePipelines v (s : State) : State :=
  Build_State (canvas s) (context s) (adapter s) (device s) (swapChain s)
    (pipelines s) v (mainPassSampleCount s) (mainTexture s) (depthTexture s)
    (mainColorAttachments s) (mainTextureExtends s) (mainDepthAttachment s)
    (uploadEncoder s) (renderEncoder s) (computeEncoder s) (commandBuffers s)
    (currentRenderPass s) (currentComputePass s) (bundleEncoder s)
    (tempBuffers s) (options s) (navigatorGpu s) (gpuLog s) (nextHandle s).

Definition set_mainTexture v (s : State) : State :=
  Build_State (canvas s) (context s) (adapter s) (device s) (swapChain s)
    (pipelines s) (computePipelines s) (mainPassSampleCount s) v
    (depthTexture s) (mainColorAttachments s) (mainTextureExtends s)
    (mainDepthAttachment s) (uploadEncoder s) (renderEncoder s)
    (computeEncoder s) (commandBuffers s) (currentRenderPass s)
    (currentComputePass s) (bundleEncoder s) (tempBuffers s) (options s)
    (navigatorGpu s) (gpuLog s) (nextHandle s).

Definition set_depthTexture v (s : State) : State :=
  Build_State (canvas s) (context s) (adapter s) (device s) (swapChain s)
    (pipelines s) (computePipelines s) (mainPassSampleCount s) (mainTexture s)
    v (mainColorAttachments s) (mainTextureExtends s) (mainDepthAttachment s)
    (uploadEncoder s) (renderEncoder s) (computeEncoder s) (commandBuffers s)
    (currentRenderPass s) (currentComputePass s) (bundleEncoder s)
    (tempBuffers s) (options s) (navigatorGpu s) (gpuLog s) (nextHandle s).

Definition set_mainColorAttachments v (s : State) : State :=
  Build_State (canvas s) (context s) (adapter s) (device s) (swapChain s)
    (pipelines s) (computePipelines s) (mainPassSampleCount s) (mainTexture s)
    (depthTexture s) v (mainTextureExtends s) (mainDepthAttachment s)
    (uploadEncoder s) (renderEncoder s) (computeEncoder s) (commandBuffers s)
    (currentRenderPass s) (currentComputePass s) (bundleEncoder s)
    (tempBuffers s) (options s) (navigatorGpu s) (gpuLog s) (nextHandle s).

Definition set_mainTextureExtends v (s : State) : State :=
  Build_State (canvas s) (context s) (adapter s) (device s) (swapChain s)
    (pipelines s) (computePipelines s) (mainPassSampleCount s) (mainTexture s)
    (depthTexture s) (mainColorAttachments s) v (mainDepthAttachment s)
    (uploadEncoder s) (renderEncoder s) (computeEncoder s) (commandBuffers s)
    (currentRenderPass s) (currentComputePass s) (bundleEncoder s)
    (tempBuffers s) (options s) (navigatorGpu s) (gpuLog s) (nextHandle s).

Definition set_mainDepthAttachment v (s : State) : State :=
  Build_State (canvas s) (context s) (adapter s) (device s) (swapChain s)
    (pipelines s) (computePipelines s) (mainPassSampleCount s) (mainTexture s)
    (depthTexture s) (mainColorAttachments s) (mainTextureExtends s) v
    (uploadEncoder s) (renderEncoder s) (computeEncoder s) (commandBuffers s)
    (currentRenderPass s) (currentComputePass s) (bundleEncoder s)
    (tempBuffers s) (options s) (navigatorGpu s) (gpuLog s) (nextHandle s).

Definition set_uploadEncoder v (s : State) : State :=
  Build_State (canvas s) (context s) (adapter s) (device s) (swapChain s)
    (pipelines s) (computePipelines s) (mainPassSampleCount s) (mainTexture s)
    (depthTexture s) (mainColorAttachments s) (mainTextureExtends s)
    (mainDepthAttachment s) v (renderEncoder s) (computeEncoder s)
    (commandBuffers s) (currentRenderPass s) (currentComputePass s)
    (bundleEncoder s) (tempBuffers s) (options s) (navigatorGpu s) (gpuLog s)
    (nextHandle s).

Definition set_renderEncoder v (s : State) : State :=
  Build_State (canvas s) (context s) (adapter s) (device s) (swapChain s)
    (pipelines s) (computePipelines s) (mainPassSampleCount s) (mainTexture s)
    (depthTexture s) (mainColorAttachments s) (mainTextureExtends s)
    (mainDepthAttachment s) (uploadEncoder s) v (computeEncoder s)
    (commandBuffers s) (currentRenderPass s) (currentComputePass s)
    (bundleEncoder s) (tempBuffers s) (options s) (navigatorGpu s) (gpuLog s)
    (nextHandle s).

Definition set_computeEncoder v (s : State) : State :=
  Build_State (canvas s) (context s) (adapter s) (device s) (swapChain s)
    (pipelines s) (computePipelines s) (mainPassSampleCount s) (mainTexture s)
    (depthTexture s) (mainColorAttachments s) (mainTextureExtends s)
    (mainDepthAttachment s) (uploadEncoder s) (renderEncoder s) v
    (commandBuffers s) (currentRenderPass s) (currentComputePass s)
    (bundleEncoder s) (tempBuffers s) (options s) (navigatorGpu s) (gpuLog s)
    (nextHandle s).

Definition set_commandBuffers v (s : State) : State :=
  Build_State (canvas s) (context s) (adapter s) (device s) (swapChain s)
    (pipelines s) (computePipelines s) (mainPassSampleCount s) (mainTexture s)
    (depthTexture s) (mainColorAttachments s) (mainTextureExtends s)
    (mainDepthAttachment s) (uploadEncoder s) (renderEncoder s)
    (computeEncoder s) v (currentRenderPass s) (currentComputePass s)
    (bundleEncoder s) (tempBuffers s) (options s) (navigatorGpu s) (gpuLog s)
    (nextHandle s).

Definition set_currentRenderPass v (s : State) : State :=
  Build_State (canvas s) (context s) (adapter s) (device s) (swapChain s)
    (pipelines s) (computePipelines s) (mainPassSampleCount s) (mainTexture s)
    (depthTexture s) (mainColorAttachments s) (mainTextureExtends s)
    (mainDepthAttachment s) (uploadEncoder s) (renderEncoder s)
    (computeEncoder s) (commandBuffers s) v (currentComputePass s)
    (bundleEncoder s) (tempBuffers s) (options s) (navigatorGpu s) (gpuLog s)
    (nextHandle s).

Definition set_currentComputePass v (s : State) : State :=
  Build_State (canvas s) (context s) (adapter s) (device s) (swapChain s)
    (pipelines s) (computePipelines s) (mainPassSampleCount s) (mainTexture s)
    (depthTexture s) (mainColorAttachments s) (mainTextureExtends s)
    (mainDepthAttachment s) (uploadEncoder s) (renderEncoder s)
    (computeEncoder s) (commandBuffers s) (currentRenderPass s) v
    (bundleEncoder s) (tempBuffers s) (options s) (navigatorGpu s) (gpuLog s)
    (nextHandle s).

Definition set_bundleEncoder v (s : State) : State :=
  Build_State (canvas s) (context s) (adapter s) (device s) (swapChain s)
    (pipelines s) (computePipelines s) (mainPassSampleCount s) (mainTexture s)
    (depthTexture s) (mainColorAttachments s) (mainTextureExtends s)
    (mainDepthAttachment s) (uploadEncoder s) (renderEncoder s)
    (computeEncoder s) (commandBuffers s) (currentRenderPass s)
    (currentComputePass s) v (tempBuffers s) (options s) (navigatorGpu s)
    (gpuLog s) (nextHandle s).

Definition set_tempBuffers v (s : State) : State :=
  Build_State (canvas s) (context s) (adapter s) (device s) (swapChain s)
    (pipelines s) (computePipelines s) (mainPassSampleCount s) (mainTexture s)
    (depthTexture s) (mainColorAttachments s) (mainTextureExtends s)
    (mainDepthAttachment s) (uploadEncoder s) (renderEncoder s)
    (computeEncoder s) (commandBuffers s) (currentRenderPass s)
    (currentComputePass s) (bundleEncoder s) v (options s) (navigatorGpu s)
    (gpuLog s) (nextHandle s).

Definition set_gpuLog v (s : State) : State :=
  Build_State (canvas s) (context s) (adapter s) (device s) (swapChain s)
    (pipelines s) (computePipelines s) (mainPassSampleCount s) (mainTexture s)
    (depthTexture s) (mainColorAttachments s) (mainTextureExtends s)
    (mainDepthAttachment s) (uploadEncoder s) (renderEncoder s)
    (computeEncoder s) (commandBuffers s) (currentRenderPass s)
    (currentComputePass s) (bundleEncoder s) (tempBuffers s) (options s)
    (navigatorGpu s) v (nextHandle s).

Definition set_nextHandle v (s : State) : State :=
  Build_State (canvas s) (context s) (adapter s) (device s) (swapChain s)
    (pipelines s) (computePipelines s) (mainPassSampleCount s) (mainTexture s)
    (depthTexture s) (mainColorAttachments s) (mainTextureExtends s)
    (mainDepthAttachment s) (uploadEncoder s) (renderEncoder s)
    (computeEncoder s) (commandBuffers s) (currentRenderPass s)
    (currentComputePass s) (bundleEncoder s) (tempBuffers s) (options s)
    (navigatorGpu s) (gpuLog s) v.

(** ** The monad of engine methods *)

(** The exceptions a caller can observe: [TypeError] for a property read or
    a method call on [null] or [undefined], [RangeError] for a typed-array
    [set] that does not fit, and the DOM's [InvalidStateError]. *)
Inductive JsError :=
  | TypeError
  | RangeError
  | InvalidStateError.

Inductive Result (A : Type) :=
  | Ok (a : A) (s : State)
  | Throw (e : JsError) (s : State).
Arguments Ok {A} a s.
Arguments Throw {A} e s.

Definition Eng (A : Type) : Type := State -> Result A.

#[global] Instance Eng_ret : MRet Eng := fun A a s => Ok a s.
#[global] Instance Eng_bind : MBind Eng := fun A B k m s =>
  match m s with
  | Ok a s' => k a s'
  | Throw e s' => Throw e s'
  end.

(** The state a computation leaves behind, thrown or not. *)
Definition after {A} (r : Result A) : State :=
  match r with
  | Ok _ s => s
  | Throw _ s => s
  end.

Definition gets {A} (f : State -> A) : Eng A := fun s => Ok (f s) s.
Definition modify (f : State -> State) : Eng unit := fun s => Ok tt (f s).
Definition throw {A} (e : JsError) : Eng A := fun s => Throw e s.

(** Reading a property of, or calling a method on, [o]. *)
Definition deref {A} (o : option A) : Eng A :=
  match o with
  | Some a => mret a
  | None => throw TypeError
  end.

(** [when c m]: [if (c) { m }]. *)
Definition when (c : bool) (m : Eng unit) : Eng unit :=
  if c then m else mret tt.

(** The identity of a newly created GPU object. *)
Definition freshHandle : Eng Handle := fun s =>
  Ok (nextHandle s) (set_nextHandle (S (nextHandle s)) s).

(** Record one call on a GPU object. *)
Definition emit (e : Event) : Eng unit :=
  modify (fun s => set_gpuLog (gpuLog s ++ [e]) s).

(** A call on a GPU object that returns a new object. *)
Definition create (e : Handle -> Event) : Eng Handle :=
  h ← freshHandle; emit (e h);; mret h.

(** [this.device], dereferenced. *)
Definition theDevice : Eng Handle := gets device ≫= deref.

(** ** Construction and initialisation *)

(** [new WebGPUEngine(canvas, options)], in an environment where
    [navigator.gpu] is present or not. *)
Definition constructor (cv : HTMLCanvasElement) (gpu : bool)
    (opts : IWebGPUEngineOptions) : State :=
  {| canvas := cv; context := None; adapter := None; device := None;
     swapChain := None; pipelines := ∅; computePipelines := ∅;
     mainPassSampleCount := if antialiasing opts then defaultSampleCount else 1;
     mainTexture := None; depthTexture := None;
     mainColorAttachments := None; mainTextureExtends := None;
     mainDepthAttachment := None;
     uploadEncoder := None; renderEncoder := None; computeEncoder := None;
     commandBuffers := replicate 3 None;
     currentRenderPass := None; currentComputePass := None;
     bundleEncoder := None; tempBuffers := [];
     options := opts; navigatorGpu := gpu; gpuLog := []; nextHandle := 0%nat |}.

(** What the browser answers while [init] runs: whether
    [requestAdapter()] resolves to an adapter or to [null], whether
    [requestDevice()] resolves to a device or is rejected, and whether
    [getContext('gpupresent')] returns a context or [null]. *)
Inductive DeviceAnswer :=
  | DeviceGranted
  | DeviceRejected (reason : JsError).

Record Browser := {
  adapterFound : bool;
  deviceAnswer : DeviceAnswer;
  contextFound : bool
}.

(** [initGlslang]; the shader compiler is taken to load.  Without
    [navigator.gpu] the optional chain yields [undefined] and no call is
    made.  The adapter is dereferenced unguarded, and a rejected
    [requestDevice()] is rethrown by [await] before the assignment. *)
Definition initGlslang (b : Browser) : Eng unit :=
  gpu ← gets navigatorGpu;
  (if gpu : bool
   then
     if adapterFound b
     then a ← create (fun h => EvRequestAdapter (Some h));
          modify (set_adapter (Some a))
     else emit (EvRequestAdapter None);; modify (set_adapter None)
   else modify (set_adapter None));;
  a ← gets adapter ≫= deref;
  match deviceAnswer b with
  | DeviceGranted =>
      d ← create (fun h => EvRequestDevice a (Some h));
      modify (set_device (Some d))
  | DeviceRejected reason => emit (EvRequestDevice a None);; throw reason
  end.

(** The context is stored as returned and dereferenced unguarded. *)
Definition initContextAndSwapChain (b : Browser) : Eng unit :=
  (if contextFound b
   then c ← create (fun h => EvGetContext (Some h));
        modify (set_context (Some c))
   else emit (EvGetContext None);; modify (set_context None));;
  c ← gets context ≫= deref;
  d ← gets device;
  fmt ← gets (fun s => swapChainFormat (options s));
  sc ← create (fun h =>
    EvConfigureSwapChain c d fmt
      (js_bitor WebGPUConstants.TextureUsage.OutputAttachment
                WebGPUConstants.TextureUsage.CopySrc) h);
  modify (set_swapChain (Some sc)).

(** [this.swapChain.getCurrentTexture().createView()]. *)
Definition currentTextureView : Eng Handle :=
  sc ← gets swapChain ≫= deref;
  t ← create (EvGetCurrentTexture sc);
  create (EvCreateView t).

(** [if (texture) { texture.destroy(); }]. *)
Definition destroyTexture (t : option Handle) : Eng unit :=
  match t with
  | Some h => emit (EvTextureDestroy h)
  | None => mret tt
  end.

Definition initMainAttachments : Eng unit :=
  cv ← gets canvas;
  let extends :=
    {| ext_width := width cv; ext_height := height cv; ext_depth := 1 |} in
  modify (set_mainTextureExtends (Some extends));;
  aa ← gets (fun s => antialiasing (options s));
  samples ← gets mainPassSampleCount;
  (if aa : bool then
     let mainTextureDescriptor :=
       {| tex_size := extends; tex_arrayLayerCount := 1;
          tex_mipLevelCount := 1; tex_sampleCount := samples;
          tex_dimension := WebGPUConstants.TextureDimension.E2d;
          tex_format := WebGPUConstants.TextureFormat.BGRA8Unorm;
          tex_usage := WebGPUConstants.TextureUsage.OutputAttachment |} in
     (gets mainTexture ≫= destroyTexture);;
     theDevice;;
     t ← create (EvCreateTexture mainTextureDescriptor);
     modify (set_mainTexture (Some t));;
     v ← create (EvCreateView t);
     modify (set_mainColorAttachments (Some
       [ {| attachment := v; resolveTarget := None;
            loadValue := ClearColor opaqueBlack;
            storeOp := WebGPUConstants.StoreOp.Store |} ]))
   else
     v ← currentTextureView;
     modify (set_mainColorAttachments (Some
       [ {| attachment := v; resolveTarget := None;
            loadValue := ClearColor opaqueBlack;
            storeOp := WebGPUConstants.StoreOp.Store |} ])));;
  let depthTextureDescriptor :=
    {| tex_size := extends; tex_arrayLayerCount := 1;
       tex_mipLevelCount := 1; tex_sampleCount := samples;
       tex_dimension := WebGPUConstants.TextureDimension.E2d;
       tex_format := WebGPUConstants.TextureFormat.Depth24PlusStencil8;
       tex_usage := WebGPUConstants.TextureUsage.OutputAttachment |} in
  (gets depthTexture ≫= destroyTexture);;
  theDevice;;
  t ← create (EvCreateTexture depthTextureDescriptor);
  modify (set_depthTexture (Some t));;
  v ← create (EvCreateView t);
  modify (set_mainDepthAttachment (Some
    {| ds_attachment := v;
       depthLoadValue := ClearNum clearDepthValue;
       depthStoreOp := WebGPUConstants.StoreOp.Store;
       stencilLoadValue := ClearNum clearStencilValue;
       stencilStoreOp := WebGPUConstants.StoreOp.Store |})).

Definition init (b : Browser) : Eng unit :=
  initGlslang b;; initContextAndSwapChain b;; initMainAttachments.

(** ** Passes *)

Definition endRenderPass : Eng unit :=
  p ← gets currentRenderPass;
  match p with
  | Some pass => emit (EvEndPass pass);; modify (set_currentRenderPass None)
  | None => mret tt
  end.

Definition endComputePass : Eng unit :=
  p ← gets currentComputePass;
  match p with
  | Some pass =>
      emit (EvComputeEndPass pass);; modify (set_currentComputePass None)
  | None => mret tt
  end.

Definition startComputePass : Eng unit :=
  p ← gets currentComputePass;
  when (truthy p) endComputePass;;
  e ← gets computeEncoder ≫= deref;
  pass ← create (EvBeginComputePass e);
  modify (set_currentComputePass (Some pass)).

(** [this.mainColorAttachments[0]], dereferenced for an assignment to one
    of its properties. *)
Definition firstColorAttachment
  : Eng (GPURenderPassColorAttachmentDescriptor *
         list GPURenderPassColorAttachmentDescriptor) :=
  atts ← gets mainColorAttachments ≫= deref;
  match atts with
  | a :: rest => mret (a, rest)
  | [] => throw TypeError
  end.

Definition startMainRenderPass : Eng unit :=
  p ← gets currentRenderPass;
  when (truthy p) endRenderPass;;
  aa ← gets (fun s => antialiasing (options s));
  (if aa : bool then
     '(a, rest) ← firstColorAttachment;
     v ← currentTextureView;
     modify (set_mainColorAttachments (Some
       ({| attachment := attachment a; resolveTarget := Some v;
           loadValue := loadValue a; storeOp := storeOp a |} :: rest)))
   else
     '(a, rest) ← firstColorAttachment;
     v ← currentTextureView;
     modify (set_mainColorAttachments (Some
       ({| attachment := v; resolveTarget := resolveTarget a;
           loadValue := loadValue a; storeOp := storeOp a |} :: rest))));;
  e ← gets renderEncoder ≫= deref;
  colors ← gets mainColorAttachments;
  depth ← gets mainDepthAttachment;
  pass ← create (EvBeginRenderPass e (default [] colors) depth);
  modify (set_currentRenderPass (Some pass)).

(** ** Frame life cycle *)

Definition createCommandEncoder (label : string) : Eng Handle :=
  theDevice;; create (EvCreateCommandEncoder label).

Definition beginFrame : Eng unit :=
  u ← createCommandEncoder uploadEncoderDescriptor;
  modify (set_uploadEncoder (Some u));;
  r ← createCommandEncoder renderEncoderDescriptor;
  modify (set_renderEncoder (Some r));;
  c ← createCommandEncoder computeEncoderDescriptor;
  modify (set_computeEncoder (Some c)).

(** [this.commandBuffers[i] = encoder.finish()]. *)
Definition finishInto (i : nat) (encoder : option Handle) : Eng unit :=
  e ← deref encoder;
  cb ← create (EvFinish e);
  modify (fun s => set_commandBuffers (js_array_set i cb (commandBuffers s)) s).

(** [buffers.forEach((buffer) => buffer.destroy())]. *)
Fixpoint destroyAll (buffers : list Handle) : Eng unit :=
  match buffers with
  | [] => mret tt
  | b :: rest => emit (EvBufferDestroy b);; destroyAll rest
  end.

Definition endFrame : Eng unit :=
  endRenderPass;;
  sc ← gets (fun s => supportCompute (options s));
  when sc endComputePass;;
  (gets uploadEncoder ≫= finishInto 0);;
  (gets renderEncoder ≫= finishInto 1);;
  (gets computeEncoder ≫= finishInto 2);;
  theDevice;;
  cbs ← gets commandBuffers;
  emit (EvSubmit cbs);;
  (gets tempBuffers ≫= destroyAll);;
  modify (set_tempBuffers []).

(** ** Bundles *)

Definition startRecordBundle : Eng unit :=
  theDevice;;
  samples ← gets mainPassSampleCount;
  b ← create (EvCreateRenderBundleEncoder
                [WebGPUConstants.TextureFormat.BGRA8Unorm]
                WebGPUConstants.TextureFormat.Depth24PlusStencil8
                samples);
  modify (set_bundleEncoder (Some b)).

Definition stopRecordBundle : Eng Handle :=
  e ← gets bundleEncoder ≫= deref;
  bundle ← create (EvBundleFinish e);
  modify (set_bundleEncoder None);;
  mret bundle.

Definition executeBundles (bundles : list Handle) : Eng unit :=
  p ← gets currentRenderPass;
  when (negb (truthy p)) startMainRenderPass;;
  p ← gets currentRenderPass;
  match p with
  | Some pass => emit (EvExecuteBundles pass bundles)
  | None => mret tt
  end.

(** ** Scissor, size, clear, dispose *)

Definition enableScissor (x y w h : Z) : Eng unit :=
  p ← gets currentRenderPass;
  when (negb (truthy p)) startMainRenderPass;;
  pass ← gets currentRenderPass ≫= deref;
  emit (EvSetScissorRect pass x y w h).

Definition disableScissor : Eng unit :=
  p ← gets currentRenderPass;
  when (negb (truthy p)) startMainRenderPass;;
  p ← gets currentRenderPass;
  match p with
  | Some pass =>
      cv ← gets canvas;
      emit (EvSetScissorRect pass 0 0 (width cv) (height cv))
  | None => mret tt
  end.

Definition setSize (w h : Z) : Eng unit := initMainAttachments.

Definition clear (color : GPUColor) (backBuffer depth : bool)
    (stencil : option bool) : Eng unit :=
  let stencil := default false stencil in
  '(a, rest) ← firstColorAttachment;
  modify (set_mainColorAttachments (Some
    ({| attachment := attachment a; resolveTarget := resolveTarget a;
        loadValue := if backBuffer then ClearColor color
                     else ColorLoadOp WebGPUConstants.LoadOp.Load;
        storeOp := storeOp a |} :: rest)));;
  d ← gets mainDepthAttachment ≫= deref;
  modify (set_mainDepthAttachment (Some
    {| ds_attachment := ds_attachment d;
       depthLoadValue := if depth then ClearNum clearDepthValue
                         else NumLoadOp WebGPUConstants.LoadOp.Load;
       depthStoreOp := depthStoreOp d;
       stencilLoadValue := stencilLoadValue d;
       stencilStoreOp := stencilStoreOp d |}));;
  d ← gets mainDepthAttachment ≫= deref;
  modify (set_mainDepthAttachment (Some
    {| ds_attachment := ds_attachment d;
       depthLoadValue := depthLoadValue d;
       depthStoreOp := depthStoreOp d;
       stencilLoadValue := if stencil then ClearNum clearStencilValue
                           else NumLoadOp WebGPUConstants.LoadOp.Load;
       stencilStoreOp := stencilStoreOp d |}));;
  startMainRenderPass;;
  sc ← gets (fun s => supportCompute (options s));
  when sc startComputePass.

Definition dispose : Eng unit :=
  (gets mainTexture ≫= destroyTexture);;
  (gets depthTexture ≫= destroyTexture).

(** ** Pipeline cache *)

Definition getDefaultRasterizationStateDescriptor
  : GPURasterizationStateDescriptor :=
  {| frontFace := Given WebGPUConstants.FrontFace.CCW;
     cullMode := Given WebGPUConstants.CullMode.None;
     depthBias := Given 0;
     depthBiasSlopeScale := Given 0;
     depthBiasClamp := Given 0 |}.

Definition getDefaultDepthStencilStateDescriptor
  : GPUDepthStencilStateDescriptor :=
  let stencilFrontBack :=
    {| compare := WebGPUConstants.CompareFunction.Always;
       depthFailOp := WebGPUConstants.StencilOperation.Keep;
       failOp := WebGPUConstants.StencilOperation.Keep;
       passOp := WebGPUConstants.StencilOperation.Keep |} in
  {| depthWriteEnabled := Given false;
     depthCompare := Given WebGPUConstants.CompareFunction.Always;
     ds_format := Given WebGPUConstants.TextureFormat.Depth24PlusStencil8;
     stencilFront := Given stencilFrontBack;
     stencilBack := Given stencilFrontBack;
     stencilReadMask := Given 4294967295;
     stencilWriteMask := Given 4294967295 |}.

Definition getDefaultColorStateDescriptors (opts : IWebGPUEngineOptions)
  : list GPUColorStateDescriptor :=
  [ {| cs_format := swapChainFormat opts;
       alphaBlend := {| srcFactor := WebGPUConstants.BlendFactor.One;
                        dstFactor := WebGPUConstants.BlendFactor.Zero;
                        operation := WebGPUConstants.BlendOperation.Add |};
       colorBlend := {| srcFactor := WebGPUConstants.BlendFactor.One;
                        dstFactor := WebGPUConstants.BlendFactor.Zero;
                        operation := WebGPUConstants.BlendOperation.Add |};
       writeMask := WebGPUConstants.ColorWrite.All |} ].

(** [{...defaults, ...rasterizationState}]; spreading [undefined] or [null]
    adds nothing. *)
Definition spreadRasterization
    (d : GPURasterizationStateDescriptor)
    (o : option GPURasterizationStateDescriptor)
  : GPURasterizationStateDescriptor :=
  match o with
  | None => d
  | Some o =>
      {| frontFace := spread (frontFace d) (frontFace o);
         cullMode := spread (cullMode d) (cullMode o);
         depthBias := spread (depthBias d) (depthBias o);
         depthBiasSlopeScale :=
           spread (depthBiasSlopeScale d) (depthBiasSlopeScale o);
         depthBiasClamp := spread (depthBiasClamp d) (depthBiasClamp o) |}
  end.

(** [{...defaults, ...depthStencilState}]. *)
Definition spreadDepthStencil
    (d : GPUDepthStencilStateDescriptor)
    (o : option GPUDepthStencilStateDescriptor)
  : GPUDepthStencilStateDescriptor :=
  match o with
  | None => d
  | Some o =>
      {| depthWriteEnabled :=
           spread (depthWriteEnabled d) (depthWriteEnabled o);
         depthCompare := spread (depthCompare d) (depthCompare o);
         ds_format := spread (ds_format d) (ds_format o);
         stencilFront := spread (stencilFront d) (stencilFront o);
         stencilBack := spread (stencilBack d) (stencilBack o);
         stencilReadMask := spread (stencilReadMask d) (stencilReadMask o);
         stencilWriteMask :=
           spread (stencilWriteMask d) (stencilWriteMask o) |}
  end.

(** The descriptor [getRenderPipeline] compiles for a caller's descriptor
    that has both stages. *)
Definition renderPipelineDescriptor (s : State) (descriptor : PipelineArgs)
    (vs fs : GPUProgrammableStageDescriptor) : GPURenderPipelineDescriptor :=
  {| rp_sampleCount := mainPassSampleCount s;
     rp_primitiveTopology :=
       js_or_string (primitiveTopology descriptor) "triangle-list";
     rp_rasterizationState :=
       spreadRasterization getDefaultRasterizationStateDescriptor
         (rasterizationState descriptor);
     rp_depthStencilState :=
       spreadDepthStencil getDefaultDepthStencilStateDescriptor
         (depthStencilState descriptor);
     rp_colorStates :=
       default (getDefaultColorStateDescriptors (options s))
         (colorStates descriptor);
     rp_layout := layout descriptor;
     rp_vertexStage := vs;
     rp_fragmentStage := fs;
     rp_vertexState := vertexState descriptor |}.

(** [this.pipelines[name]] is read on a plain object, so a name that
    [Object.prototype] defines is found too, and returned. *)
Definition getRenderPipeline (name : string) (descriptor : PipelineArgs)
  : Eng (option Member) :=
  cached ← gets (fun s => js_get (pipelines s) name);
  match cached with
  | Some p => mret (Some p)
  | None =>
      match vertexStage descriptor, fragmentStage descriptor with
      | Some vs, Some fs =>
          theDevice;;
          full ← gets (fun s => renderPipelineDescriptor s descriptor vs fs);
          renderPipeline ← create (EvCreateRenderPipeline full);
          modify (fun s =>
            set_pipelines (<[name := renderPipeline]> (pipelines s)) s);;
          mret (Some (Own renderPipeline))
      | _, _ => mret None
      end
  end.

(** [this.bundleEncoder || this.currentRenderPass!]. *)
Definition renderTarget (s : State) : option Handle :=
  match bundleEncoder s with
  | Some b => Some b
  | None => currentRenderPass s
  end.

Definition setRenderPipeline (name : string) (descriptor : PipelineArgs)
  : Eng unit :=
  renderPass ← gets renderTarget;
  pipeline ← getRenderPipeline name descriptor;
  match pipeline with
  | Some p => t ← deref renderPass; emit (EvSetPipeline t p)
  | None => mret tt
  end.

Definition setComputePipeline (computePipelineName : string)
    (descriptor : GPUComputePipelineDescriptor) : Eng unit :=
  cached ← gets (fun s => js_get (computePipelines s) computePipelineName);
  when (negb (truthy cached))
    (theDevice;;
     computePipeline ← create (EvCreateComputePipeline descriptor);
     modify (fun s => set_computePipelines
       (<[computePipelineName := computePipeline]> (computePipelines s)) s));;
  pass ← gets currentComputePass;
  match pass with
  | Some p =>
      pipeline ← gets (fun s =>
                   js_get (computePipelines s) computePipelineName)
                 ≫= deref;
      emit (EvSetPipeline p pipeline)
  | None => mret tt
  end.

(** ** Draw calls *)

Definition drawElementsType (pipelineName : string)
    (descriptor : PipelineArgs) (indexStart indexCount : Z)
    (instancesCount : option Z) : Eng unit :=
  let instancesCount := default 1 instancesCount in
  renderPass ← gets renderTarget;
  setRenderPipeline pipelineName descriptor;;
  t ← deref renderPass;
  emit (EvDrawIndexed t indexCount instancesCount indexStart 0 0).

Definition drawArraysType (pipelineName : string)
    (descriptor : PipelineArgs) (verticesStart verticesCount : Z)
    (instancesCount : option Z) : Eng unit :=
  let instancesCount := default 1 instancesCount in
  renderPass ← gets renderTarget;
  setRenderPipeline pipelineName descriptor;;
  t ← deref renderPass;
  emit (EvDraw t verticesCount instancesCount verticesStart 0).

(** ** Buffers *)

(** [new Uint8Array(target).set(new Uint8Array(source))]: the source is
    written at the start of the target and must fit. *)
Definition typedArraySet (target source : list byte) : Eng (list byte) :=
  if decide (length source ≤ length target)%nat
  then mret (source ++ drop (length source) target)%list
  else throw RangeError.

Definition setSubData (destBuffer : Handle) (destOffset : Z)
    (srcArrayBuffer : ArrayBufferView) : Eng unit :=
  let byteCount := byteLength srcArrayBuffer in
  theDevice;;
  srcBuffer ← create (EvCreateBufferMapped byteCount
                        WebGPUConstants.BufferUsage.CopySrc);
  let arrayBuffer := replicate (Z.to_nat byteCount) x00 in
  written ← typedArraySet arrayBuffer (buffer srcArrayBuffer);
  emit (EvUnmap srcBuffer written);;
  u ← gets uploadEncoder ≫= deref;
  emit (EvCopyBufferToBuffer u srcBuffer 0 destBuffer destOffset byteCount);;
  modify (fun s => set_tempBuffers (tempBuffers s ++ [srcBuffer]) s).

Definition createBuffer (view : ArrayBufferView) (flags : Z) : Eng Handle :=
  let padding := Z.rem (byteLength view) 4 in
  theDevice;;
  buffer ← create (EvCreateBuffer (byteLength view + padding) flags);
  setSubData buffer 0 view;;
  mret buffer.

Definition viewOf (data : BufferData) : ArrayBufferView :=
  match data with
  | DataArray floats => Float32Array_of floats
  | DataArrayBuffer bytes => Uint8Array_of bytes
  | DataView view => view
  end.

Definition createVertexBuffer (data : BufferData) (usage : option Z)
  : Eng Handle :=
  let usage := default 0 usage in
  createBuffer (viewOf data)
    (js_bitor (js_bitor WebGPUConstants.BufferUsage.Vertex
                        WebGPUConstants.BufferUsage.CopyDst) usage).

Definition createUniformBuffer (data : BufferData) : Eng Handle :=
  createBuffer (viewOf data)
    (js_bitor WebGPUConstants.BufferUsage.Uniform
              WebGPUConstants.BufferUsage.CopyDst).

(** ** Bindings *)

(** [for (i...) target.setBindGroup(i, bindGroups[i])], from index [i]. *)
Fixpoint setBindGroupsFrom (target : option Handle) (i : Z)
    (bindGroups : list Handle) : Eng unit :=
  match bindGroups with
  | [] => mret tt
  | g :: rest =>
      t ← deref target;
      emit (EvSetBindGroup t i g);;
      setBindGroupsFrom target (i + 1) rest
  end.

Definition setRenderBindGroups (bindGroups : list Handle) : Eng unit :=
  renderPass ← gets renderTarget;
  setBindGroupsFrom renderPass 0 bindGroups.

Definition setComputeBindGroups (bindGroups : list Handle) : Eng unit :=
  pass ← gets currentComputePass;
  match pass with
  | Some p => setBindGroupsFrom (Some p) 0 bindGroups
  | None => mret tt
  end.

(** The loop of [bindVertexInputs] over [vertexBuffers], from index [i]. *)
Fixpoint setVertexBuffersFrom (target : option Handle) (startSlot : Z)
    (offsets : list Z) (i : nat) (buffers : list (option Handle))
  : Eng unit :=
  match buffers with
  | [] => mret tt
  | buf :: rest =>
      match buf with
      | Some b =>
          t ← deref target;
          emit (EvSetVertexBuffer t (startSlot + Z.of_nat i) b (offsets !! i))
      | None => mret tt
      end;;
      setVertexBuffersFrom target startSlot offsets (S i) rest
  end.

Definition bindVertexInputs (vertexInputs : VertexInputs) : Eng unit :=
  renderPass ← gets renderTarget;
  match indexBuffer vertexInputs with
  | Some ib =>
      t ← deref renderPass;
      emit (EvSetIndexBuffer t ib (indexOffset vertexInputs))
  | None => mret tt
  end;;
  setVertexBuffersFrom renderPass (vertexStartSlot vertexInputs)
    (vertexOffsets vertexInputs) 0 (vertexBuffers vertexInputs).

(** ** Compute *)

Definition dispatch (num : Z) : Eng unit :=
  pass ← gets currentComputePass;
  match pass with
  | Some p => emit (EvDispatch p num)
  | None => mret tt
  end.

(** ** Programs of calls *)

(** One call on the engine from its user, or a resize of the canvas by the
    page. *)
Inductive Call :=
  | CInit (browser : Browser)
  | CBeginFrame
  | CEndFrame
  | CStartRecordBundle
  | CStopRecordBundle
  | CExecuteBundles (bundles : list Handle)
  | CEnableScissor (x y w h : Z)
  | CDisableScissor
  | CSetSize (w h : Z)
  | CClear (color : GPUColor) (backBuffer depth : bool)
      (stencil : option bool)
  | CDispose
  | CDrawElementsType (name : string) (descriptor : PipelineArgs)
      (indexStart indexCount : Z) (instancesCount : option Z)
  | CDrawArraysType (name : string) (descriptor : PipelineArgs)
      (verticesStart verticesCount : Z) (instancesCount : option Z)
  | CCreateVertexBuffer (data : BufferData) (usage : option Z)
  | CCreateUniformBuffer (data : BufferData)
  | CSetRenderBindGroups (bindGroups : list Handle)
  | CSetComputeBindGroups (bindGroups : list Handle)
  | CSetComputePipeline (name : string)
      (descriptor : GPUComputePipelineDescriptor)
  | CSetSubData (destBuffer : Handle) (destOffset : Z)
      (src : ArrayBufferView)
  | CBindVertexInputs (vertexInputs : VertexInputs)
  | CDispatch (num : Z)
  | CResizeCanvas (w h : Z).

(** Drop the value a method returns. *)
Definition void {A} (m : Eng A) : Eng unit := m;; mret tt.

Definition exec (c : Call) : Eng unit :=
  match c with
  | CInit browser => init browser
  | CBeginFrame => beginFrame
  | CEndFrame => endFrame
  | CStartRecordBundle => startRecordBundle
  | CStopRecordBundle => void stopRecordBundle
  | CExecuteBundles bundles => executeBundles bundles
  | CEnableScissor x y w h => enableScissor x y w h
  | CDisableScissor => disableScissor
  | CSetSize w h => setSize w h
  | CClear color backBuffer depth stencil =>
      clear color backBuffer depth stencil
  | CDispose => dispose
  | CDrawElementsType name d i n k => drawElementsType name d i n k
  | CDrawArraysType name d i n k => drawArraysType name d i n k
  | CCreateVertexBuffer data usage => void (createVertexBuffer data usage)
  | CCreateUniformBuffer data => void (createUniformBuffer data)
  | CSetRenderBindGroups groups => setRenderBindGroups groups
  | CSetComputeBindGroups groups => setComputeBindGroups groups
  | CSetComputePipeline name d => setComputePipeline name d
  | CSetSubData dest off src => setSubData dest off src
  | CBindVertexInputs inputs => bindVertexInputs inputs
  | CDispatch num => dispatch num
  | CResizeCanvas w h =>
      modify (set_canvas {| width := w; height := h |})
  end.

(** The state after a call, whether it returned or threw. *)
Definition step (s : State) (c : Call) : State := after (exec c s).

(** The state after a program of calls; the caller catches what is thrown
    and goes on. *)
Definition steps (cs : list Call) (s : State) : State := fold_left step cs s.

(** The states an engine can be in. *)
Definition reachable (s : State) : Prop :=
  ∃ cv gpu opts cs, s = steps cs (constructor cv gpu opts).

(** * Vocabulary of the properties *)

Local Open Scope list_scope.
Local Open Scope Z_scope.

(** ** What the log says *)

(** The render passes begun and not yet ended, oldest first. *)
Definition passStep (open : list Handle) (e : Event) : list Handle :=
  match e with
  | EvBeginRenderPass _ _ _ p => open ++ [p]
  | EvEndPass p => filter (fun q => q ≠ p) open
  | _ => open
  end.

Definition openRenderPasses (log : list Event) : list Handle :=
  fold_left passStep log [].

(** Events other than the submission of a frame and the destruction of a
    buffer. *)
Definition isQuiet (e : Event) : bool :=
  match e with
  | EvSubmit _ | EvBufferDestroy _ => false
  | _ => true
  end.

(** Events that end a pass of either kind. *)
Definition isEndPass (e : Event) : bool :=
  match e with
  | EvEndPass _ | EvComputeEndPass _ => true
  | _ => false
  end.

(** [e] creates no texture of another size than [extent]. *)
Definition sizedBy (extent : GPUExtent3D) (e : Event) : Prop :=
  match e with
  | EvCreateTexture d _ => tex_size d = extent
  | _ => True
  end.

(** [e] creates the texture [t], of format [format] and size [extent]. *)
Definition createsTexture (format : GPUTextureFormat) (extent : GPUExtent3D)
    (t : Handle) (e : Event) : Prop :=
  match e with
  | EvCreateTexture d t' =>
      t' = t ∧ tex_format d = format ∧ tex_size d = extent
  | _ => False
  end.

(** ** Kinds of call *)

Definition isEndFrame (c : Call) : bool :=
  match c with
  | CEndFrame => true
  | _ => false
  end.

(** The calls that neither open nor close a bundle. *)
Definition keepsBundle (c : Call) : bool :=
  match c with
  | CStartRecordBundle | CStopRecordBundle => false
  | _ => true
  end.

(** ** Relations between the state before and after *)

(** [m] takes every state to an [R]-related one, thrown or not. *)
Definition preserves (R : State -> State -> Prop) {A} (m : Eng A) : Prop :=
  ∀ s, R s (after (m s)).

(** [Keeps I]: a state that satisfies [I] is taken to one that does. *)
Definition Keeps (I : State -> Prop) (s s' : State) : Prop := I s -> I s'.

(** [s'] extends [s]: the log grew by quiet events only and the registry of
    staging buffers grew at its end. *)
Definition Ext (s s' : State) : Prop :=
  (∃ evs, gpuLog s' = gpuLog s ++ evs ∧ forallb isQuiet evs = true) ∧
  (∃ added, tempBuffers s' = tempBuffers s ++ added).

(** [s'] records on the bundle [s] records on, if any, and has a device if
    [s] has one. *)
Definition SameBundle (s s' : State) : Prop :=
  bundleEncoder s' = bundleEncoder s ∧
  (is_Some (device s) -> is_Some (device s')).

(** ** Properties of states *)

(** The open render pass, if any, was created before now. *)
Definition PassBelow (s : State) : Prop :=
  ∀ p, currentRenderPass s = Some p -> (p < nextHandle s)%nat.

(** [b] was created before now and is not the open render pass. *)
Definition NotLivePass (b : Handle) (s : State) : Prop :=
  (b < nextHandle s)%nat ∧ currentRenderPass s ≠ Some b.

(** A frame has been begun: the device and the three encoders exist. *)
Definition FrameOpen (s : State) : Prop :=
  is_Some (device s) ∧ is_Some (uploadEncoder s) ∧
  is_Some (renderEncoder s) ∧ is_Some (computeEncoder s).

(** An open render pass was begun on an encoder, with a swap chain and a
    colour attachment at hand. *)
Definition PassInv (s : State) : Prop :=
  is_Some (currentRenderPass s) ->
  is_Some (renderEncoder s) ∧ is_Some (swapChain s) ∧
  ∃ a rest, mainColorAttachments s = Some (a :: rest).

(** At every moment of the log, at most one render pass was open. *)
Definition atMostOneOpen (log : list Event) : Prop :=
  ∀ l, l `prefix_of` log -> (length (openRenderPasses l) ≤ 1)%nat.

(** What holds of every state the engine reaches: the array of command
    buffers has its three slots, [PassInv], the open render passes of the
    log are the one in [currentRenderPass], if any, and there never was
    more than one. *)
Definition WF (s : State) : Prop :=
  length (commandBuffers s) = 3%nat ∧
  PassInv s ∧
  openRenderPasses (gpuLog s) = option_list (currentRenderPass s) ∧
  atMostOneOpen (gpuLog s).

(** The sample count is the one the constructor chose. *)
Definition Configured (s : State) : Prop :=
  mainPassSampleCount s =
  if antialiasing (options s) then defaultSampleCount else 1.

(** The passes [endFrame] ends before it finishes the encoders. *)
Definition closingEvents (s : State) : list Event :=
  match currentRenderPass s with
  | Some p => [EvEndPass p]
  | None => []
  end ++
  if supportCompute (options s)
  then match currentComputePass s with
       | Some p => [EvComputeEndPass p]
       | None => []
       end
  else [].

(** The calls [setRenderPipeline] makes for the name and the descriptor of
    a draw that records on [t]: the binding of what the mapping resolves
    the name to; or, for a name it resolves to nothing, the compilation of
    a descriptor with both stages and the binding of the new pipeline; or
    nothing. *)
Definition pipelineEvents (s : State) (t : Handle) (name : string)
    (d : PipelineArgs) : list Event :=
  match js_get (pipelines s) name with
  | Some v => [EvSetPipeline t v]
  | None =>
      match vertexStage d, fragmentStage d with
      | Some vs, Some fs =>
          [EvCreateRenderPipeline (renderPipelineDescriptor s d vs fs)
             (nextHandle s);
           EvSetPipeline t (Own (nextHandle s))]
      | _, _ => []
      end
  end.


(** The extent of the canvas as it is now. *)
Definition canvasExtent (s : State) : GPUExtent3D :=
  {| ext_width := width (canvas s); ext_height := height (canvas s);
     ext_depth := 1 |}.

(** A view that spans the whole of its buffer, as [new Float32Array(data)]
    and [new Uint8Array(data)] make them. *)
Definition spansBuffer (view : ArrayBufferView) : Prop :=
  byteOffset view = 0 ∧ byteLength view = Z.of_nat (length (buffer view)).

(** [n] rounded up to a multiple of four. *)
Definition roundUp4 (n : Z) : Z := (n + 3) / 4 * 4.

(** ** Sample engines *)

(** A browser that grants everything [init] asks for, and one where the
    canvas gives no context. *)
Definition cooperative : Browser :=
  {| adapterFound := true; deviceAnswer := DeviceGranted;
     contextFound := true |}.

Definition noContext : Browser :=
  {| adapterFound := true; deviceAnswer := DeviceGranted;
     contextFound := false |}.

Definition sampleCanvas : HTMLCanvasElement :=
  {| width := 800; height := 600 |}.

(** Multisampled, with compute, on a swap chain that is not BGRA. *)
Definition sampleOptions : IWebGPUEngineOptions :=
  {| swapChainFormat := Some "rgba8unorm"; antialiasing := true;
     supportCompute := true |}.

(** Just constructed; initialised; in a frame; in a frame with the render
    and compute passes that [clear] opens. *)
Definition sampleNew : State := constructor sampleCanvas true sampleOptions.
Definition sampleReady : State := steps [CInit cooperative] sampleNew.
Definition sampleFrame : State := steps [CBeginFrame] sampleReady.
Definition sampleDrawing : State :=
  steps [CClear opaqueBlack true true None] sampleFrame.

Definition sampleStage : GPUProgrammableStageDescriptor :=
  {| module := 100%nat; entryPoint := "main" |}.

(** A descriptor with both stages, and one without a fragment stage. *)
Definition fullArgs : PipelineArgs :=
  {| primitiveTopology := None; rasterizationState := None;
     depthStencilState := None; colorStates := None;
     vertexStage := Some sampleStage; fragmentStage := Some sampleStage;
     vertexState := None; layout := None |}.

Definition vertexOnlyArgs : PipelineArgs :=
  {| primitiveTopology := None; rasterizationState := None;
     depthStencilState := None; colorStates := None;
     vertexStage := Some sampleStage; fragmentStage := None;
     vertexState := None; layout := None |}.

Definition sampleCompute (entry : string) : GPUComputePipelineDescriptor :=
  {| cp_layout := None;
     computeStage := {| module := 101%nat; entryPoint := entry |} |}.

(** Five bytes, and eight. *)
Definition fiveBytes : ArrayBufferView :=
  Uint8Array_of [x01; x02; x03; x04; x05].

Definition eightBytes : ArrayBufferView :=
  Uint8Array_of [x01; x02; x03; x04; x05; x06; x07; x08].

(** * More vocabulary *)

(** The engine has been initialised: the device, the swap chain and the
    attachments of the main pass exist. *)
Definition Ready (s : State) : Prop :=
  is_Some (device s) ∧ is_Some (swapChain s) ∧
  (∃ a rest, mainColorAttachments s = Some (a :: rest)) ∧
  is_Some (mainDepthAttachment s).

(** The compute passes begun and not yet ended, oldest first. *)
Definition computeStep (open : list Handle) (e : Event) : list Handle :=
  match e with
  | EvBeginComputePass _ p => open ++ [p]
  | EvComputeEndPass p => filter (fun q => q ≠ p) open
  | _ => open
  end.

Definition openComputePasses (log : list Event) : list Handle :=
  fold_left computeStep log [].

(** The open compute passes of the log are the one in
    [currentComputePass], if any, and there is none on an engine without
    [supportCompute]. *)
Definition ComputeInv (s : State) : Prop :=
  openComputePasses (gpuLog s) = option_list (currentComputePass s) ∧
  (supportCompute (options s) = false -> currentComputePass s = None).

(** At every moment of the log, at most one compute pass was open. *)
Definition atMostOneComputeOpen (log : list Event) : Prop :=
  ∀ l, l `prefix_of` log -> (length (openComputePasses l) ≤ 1)%nat.

(** The open compute passes of the log are the one in
    [currentComputePass], if any, and there never was more than one. *)
Definition ComputeOnce (s : State) : Prop :=
  openComputePasses (gpuLog s) = option_list (currentComputePass s) ∧
  atMostOneComputeOpen (gpuLog s).

(** The property [f] of the caller's partial state [o] laid over the
    default [dflt]: the default where the state or its property is absent,
    and the caller's property where it is present, with a value or with
    [undefined]. *)
Definition overDefault {R A} (dflt : A) (f : R -> Property A)
    (o : option R) : Property A :=
  match o with
  | None => Given dflt
  | Some r =>
      match f r with
      | Absent => Given dflt
      | Undefined => Undefined
      | Given a => Given a
      end
  end.

(** The destroy calls of [dispose]. *)
Definition disposeEvents (s : State) : list Event :=
  option_list (EvTextureDestroy <$> mainTexture s) ++
  option_list (EvTextureDestroy <$> depthTexture s).

(** The [setBindGroup] calls for [groups], at the slots from 0 on. *)
Definition bindGroupEvents (t : Handle) (groups : list Handle)
  : list Event :=
  imap (fun k g => EvSetBindGroup t (Z.of_nat k) g) groups.

(** The [setVertexBuffer] calls for the buffers that are present, each at
    the slot and with the offset of its position. *)
Definition vertexBufferEvents (t : Handle) (v : VertexInputs) : list Event :=
  omap id
    (imap (fun k buf =>
             (fun b => EvSetVertexBuffer t (vertexStartSlot v + Z.of_nat k) b
                         (vertexOffsets v !! k)) <$> buf)
          (vertexBuffers v)).

(** A window of four bytes in the middle of a buffer of twelve. *)
Definition windowView : ArrayBufferView :=
  {| buffer := [x01; x02; x03; x04; x05; x06; x07; x08; x09; x0a; x0b; x0c];
     byteOffset := 4; byteLength := 4 |}.

(** A descriptor with both stages whose rasterization state has the
    property [frontFace] with the value [undefined], a cull mode, and
    nothing else. *)
Definition partialArgs : PipelineArgs :=
  {| primitiveTopology := Some "";
     rasterizationState :=
       Some {| frontFace := Undefined; cullMode := Given "back";
               depthBias := Absent; depthBiasSlopeScale := Absent;
               depthBiasClamp := Absent |};
     depthStencilState := None; colorStates := None;
     vertexStage := Some sampleStage; fragmentStage := Some sampleStage;
     vertexState := None; layout := None |}.

(** A just constructed engine where [navigator.gpu] is absent. *)
Definition sampleNoGpu : State := constructor sampleCanvas false sampleOptions.

(** An engine without antialiasing and without compute, in a frame. *)
Definition plainOptions : IWebGPUEngineOptions :=
  {| swapChainFormat := Some "bgra8unorm"; antialiasing := false;
     supportCompute := false |}.

Definition plainFrame : State :=
  steps [CInit cooperative; CBeginFrame]
    (constructor sampleCanvas true plainOptions).

(** * Proof tools *)

(** ** Relations every step of a method preserves *)

Section Preserves.
Context (R : State -> State -> Prop) `{!PreOrder R}.

Lemma preserves_ret {A} (a : A) : preserves R (mret a).
Proof. intros s. reflexivity. Qed.

Lemma preserves_throw {A} e : preserves R (@throw A e).
Proof. intros s. reflexivity. Qed.

Lemma preserves_gets {A} (f : State -> A) : preserves R (gets f).
Proof. intros s. reflexivity. Qed.

Lemma preserves_deref {A} (o : option A) : preserves R (deref o).
Proof. destruct o; [apply preserves_ret | apply preserves_throw]. Qed.

Lemma preserves_bind {A B} (m : Eng A) (k : A -> Eng B) :
  preserves R m -> (∀ a, preserves R (k a)) -> preserves R (m ≫= k).
Proof.
  intros Hm Hk s. unfold mbind, Eng_bind.
  specialize (Hm s). destruct (m s) as [a s'|e s']; simpl in *.
  - etransitivity; [exact Hm | apply Hk].
  - exact Hm.
Qed.

Lemma preserves_when c m : preserves R m -> preserves R (when c m).
Proof. destruct c; simpl; [trivial | intros _; apply preserves_ret]. Qed.

Lemma preserves_modify f : (∀ s, R s (f s)) -> preserves R (modify f).
Proof. intros H s. apply H. Qed.

Lemma preserves_freshHandle :
  (∀ s, R s (set_nextHandle (S (nextHandle s)) s)) ->
  preserves R freshHandle.
Proof. intros H s. apply H. Qed.

Lemma preserves_emit e :
  (∀ s, R s (set_gpuLog (gpuLog s ++ [e]) s)) -> preserves R (emit e).
Proof. intros H. apply preserves_modify, H. Qed.

Lemma preserves_void {A} (m : Eng A) : preserves R m -> preserves R (void m).
Proof.
  intros H. unfold void. apply preserves_bind; [exact H |].
  intros _. apply preserves_ret.
Qed.

(** A program of calls preserves what each call preserves. *)
Lemma preserves_steps :
  (∀ c, preserves R (exec c)) -> ∀ cs s, R s (steps cs s).
Proof.
  intros H cs. induction cs as [|c cs IH]; intros s; simpl.
  - reflexivity.
  - etransitivity; [apply (H c s) | apply IH].
Qed.
End Preserves.

#[global] Instance Keeps_preorder I : PreOrder (Keeps I).
Proof. split; unfold Keeps; [intros s; tauto | intros s1 s2 s3; tauto]. Qed.

#[global] Instance Ext_preorder : PreOrder Ext.
Proof.
  split.
  - intros s. split; exists []; rewrite app_nil_r; auto.
  - intros s1 s2 s3 [[e1 [H1 Q1]] [a1 T1]] [[e2 [H2 Q2]] [a2 T2]]. split.
    + exists (e1 ++ e2). rewrite H2, H1, app_assoc, forallb_app, Q1, Q2. auto.
    + exists (a1 ++ a2). rewrite T2, T1, app_assoc. auto.
Qed.

(** The head constant of a term. *)
Ltac head_of t :=
  lazymatch t with
  | ?f _ => head_of f
  | _ => t
  end.

(** Walk through a method, leaving the field updates and the GPU calls to
    [leaf] and the methods that need an argument of their own to [known]. *)
Ltac preserve_with known leaf :=
  repeat first
    [ progress intros
    | lazymatch goal with |- PreOrder _ => exact _ end
    | solve [known]
    | apply preserves_ret
    | apply preserves_throw
    | apply preserves_gets
    | apply preserves_deref
    | apply preserves_bind
    | apply preserves_when
    | apply preserves_void
    | apply preserves_modify; solve [leaf]
    | apply preserves_freshHandle; solve [leaf]
    | apply preserves_emit; solve [leaf]
    | lazymatch goal with
      | |- preserves _ (match ?x with _ => _ end) => destruct x
      end
    | lazymatch goal with
      | |- preserves _ ?m => let h := head_of m in progress unfold h
      end ].

(** ** Running a method on a symbolic state *)

(** Unfold the monad, then compute the fields of the updated states. *)
Ltac eng_unfold :=
  unfold void, theDevice, create, when, deref, truthy;
  unfold emit, freshHandle; unfold gets, modify, throw;
  unfold mbind, mret, Eng_bind, Eng_ret.

Ltac eng_fields :=
  cbn [after negb
       canvas context adapter device swapChain pipelines computePipelines
       mainPassSampleCount mainTexture depthTexture mainColorAttachments
       mainTextureExtends mainDepthAttachment uploadEncoder renderEncoder
       computeEncoder commandBuffers currentRenderPass currentComputePass
       bundleEncoder tempBuffers options navigatorGpu gpuLog nextHandle
       set_canvas set_context set_adapter set_device set_swapChain
       set_pipelines set_computePipelines set_mainTexture set_depthTexture
       set_mainColorAttachments set_mainTextureExtends
       set_mainDepthAttachment set_uploadEncoder set_renderEncoder
       set_computeEncoder set_commandBuffers set_currentRenderPass
       set_currentComputePass set_bundleEncoder set_tempBuffers set_gpuLog
       set_nextHandle].

Ltac eng_run := eng_unfold; eng_fields.

(** Split on whatever the run is stuck on, unless it is known. *)
Ltac eng_case :=
  match goal with
  | H : ?x = _ |- context [match ?x with _ => _ end] => rewrite H
  | |- context [match ?x with _ => _ end] =>
      lazymatch x with
      | context [match _ with _ => _ end] => fail
      | _ => destruct x eqn:?
      end
  end.

Ltac eng_cases := repeat (eng_case; eng_fields).

(** Replace the fields that are known. *)
Ltac use_eqs :=
  repeat match goal with
         | H : ?f ?s = _ |- context [?f ?s] => rewrite H
         end.

(** * Invariants *)

(** ** The log is only extended, quietly, outside [endFrame] *)

(** An update that leaves the log and the registry alone, a quiet event, or
    one more registered buffer. *)
Ltac ext_leaf :=
  intros; split;
  [ first [ exists []; simpl; rewrite app_nil_r; split; reflexivity
          | eexists; simpl; split; reflexivity ]
  | first [ exists []; simpl; rewrite app_nil_r; reflexivity
          | eexists; simpl; reflexivity ] ].

Lemma Ext_setBindGroupsFrom target groups :
  ∀ i, preserves Ext (setBindGroupsFrom target i groups).
Proof.
  induction groups as [|g rest IH]; intros i; simpl;
    preserve_with ltac:(apply IH) ext_leaf.
Qed.

Lemma Ext_setVertexBuffersFrom target slot offsets buffers :
  ∀ i, preserves Ext (setVertexBuffersFrom target slot offsets i buffers).
Proof.
  induction buffers as [|b rest IH]; intros i; simpl;
    preserve_with ltac:(apply IH) ext_leaf.
Qed.

Lemma Ext_exec c : c ≠ CEndFrame -> preserves Ext (exec c).
Proof.
  intros Hc. destruct c; try congruence; simpl;
    preserve_with
      ltac:(first [ apply Ext_setBindGroupsFrom
                  | apply Ext_setVertexBuffersFrom ])
      ext_leaf.
Qed.

Lemma Ext_steps cs : ∀ s,
  forallb (fun c => negb (isEndFrame c)) cs = true -> Ext s (steps cs s).
Proof.
  induction cs as [|c cs IH]; intros s H; simpl in *.
  - reflexivity.
  - apply andb_prop in H as [Hc Hcs]. etransitivity.
    + apply (Ext_exec c). intros ->. discriminate.
    + apply IH, Hcs.
Qed.

(** ** A frame stays open *)

Ltac frame_leaf :=
  intros; unfold Keeps, FrameOpen; simpl; intuition eauto.

Lemma FrameOpen_destroyAll buffers :
  preserves (Keeps FrameOpen) (destroyAll buffers).
Proof.
  induction buffers as [|b rest IH]; simpl;
    preserve_with ltac:(apply IH) frame_leaf.
Qed.

Lemma FrameOpen_setBindGroupsFrom target groups :
  ∀ i, preserves (Keeps FrameOpen) (setBindGroupsFrom target i groups).
Proof.
  induction groups as [|g rest IH]; intros i; simpl;
    preserve_with ltac:(apply IH) frame_leaf.
Qed.

Lemma FrameOpen_setVertexBuffersFrom target slot offsets buffers :
  ∀ i, preserves (Keeps FrameOpen)
         (setVertexBuffersFrom target slot offsets i buffers).
Proof.
  induction buffers as [|b rest IH]; intros i; simpl;
    preserve_with ltac:(apply IH) frame_leaf.
Qed.

Lemma FrameOpen_exec c : preserves (Keeps FrameOpen) (exec c).
Proof.
  destruct c; simpl;
    preserve_with
      ltac:(first [ apply FrameOpen_destroyAll
                  | apply FrameOpen_setBindGroupsFrom
                  | apply FrameOpen_setVertexBuffersFrom ])
      frame_leaf.
Qed.

Lemma FrameOpen_steps cs s : FrameOpen s -> FrameOpen (steps cs s).
Proof. apply (preserves_steps (Keeps FrameOpen) FrameOpen_exec cs). Qed.

(** A frame is open once [beginFrame] has returned. *)
Lemma beginFrame_opens s s' : beginFrame s = Ok tt s' -> FrameOpen s'.
Proof.
  unfold beginFrame, createCommandEncoder, FrameOpen. eng_run. eng_cases.
  - intros [= <-]. eng_fields. rewrite Heqo. eauto.
  - discriminate.
Qed.

(** ** The sample count is the configured one *)

Ltac configured_leaf := intros; unfold Keeps, Configured; eng_fields; auto.

Lemma Configured_destroyAll buffers :
  preserves (Keeps Configured) (destroyAll buffers).
Proof.
  induction buffers as [|b rest IH]; simpl;
    preserve_with ltac:(apply IH) configured_leaf.
Qed.

Lemma Configured_setBindGroupsFrom target groups :
  ∀ i, preserves (Keeps Configured) (setBindGroupsFrom target i groups).
Proof.
  induction groups as [|g rest IH]; intros i; simpl;
    preserve_with ltac:(apply IH) configured_leaf.
Qed.

Lemma Configured_setVertexBuffersFrom target slot offsets buffers :
  ∀ i, preserves (Keeps Configured)
         (setVertexBuffersFrom target slot offsets i buffers).
Proof.
  induction buffers as [|b rest IH]; intros i; simpl;
    preserve_with ltac:(apply IH) configured_leaf.
Qed.

Lemma Configured_exec c : preserves (Keeps Configured) (exec c).
Proof.
  destruct c; simpl;
    preserve_with
      ltac:(first [ apply Configured_destroyAll
                  | apply Configured_setBindGroupsFrom
                  | apply Configured_setVertexBuffersFrom ])
      configured_leaf.
Qed.

Lemma reachable_Configured s : reachable s -> Configured s.
Proof.
  intros (cv & gpu & opts & cs & ->).
  apply (preserves_steps (Keeps Configured) Configured_exec cs).
  reflexivity.
Qed.

(** ** Reachable states are well formed *)

Lemma openRenderPasses_snoc log e :
  openRenderPasses (log ++ [e]) = passStep (openRenderPasses log) e.
Proof. unfold openRenderPasses. rewrite fold_left_app. reflexivity. Qed.

Lemma passStep_end p : passStep [p] (EvEndPass p) = [].
Proof. unfold passStep. rewrite filter_cons_False by naive_solver. done. Qed.

Lemma js_array_set_length {A} i (v : A) arr :
  (i < length arr)%nat -> length (js_array_set i v arr) = length arr.
Proof.
  intros H. unfold js_array_set. destruct (decide (i < length arr)%nat).
  - apply length_insert.
  - contradiction.
Qed.

Lemma js_array_set_three {A} (x y z : A) c0 c1 c2 :
  js_array_set 2 z (js_array_set 1 y (js_array_set 0 x [c0; c1; c2])) =
  [Some x; Some y; Some z].
Proof. reflexivity. Qed.

Lemma atMostOneOpen_nil : atMostOneOpen [].
Proof.
  intros l Hl. apply prefix_nil_inv in Hl. subst l. simpl. lia.
Qed.

Lemma atMostOneOpen_snoc log e :
  atMostOneOpen log ->
  (length (openRenderPasses (log ++ [e])) ≤ 1)%nat ->
  atMostOneOpen (log ++ [e]).
Proof.
  intros Hlog He l [k Hk]. destruct k as [|x k _] using rev_ind.
  - rewrite app_nil_r in Hk. subst l. exact He.
  - rewrite app_assoc in Hk. apply app_inj_tail in Hk as [-> _].
    apply Hlog. exists k. reflexivity.
Qed.

(** The open passes of a log that grew by a few known events. *)
Ltac open_passes :=
  rewrite ?openRenderPasses_snoc; use_eqs; unfold option_list;
  cbn [passStep option_rect];
  rewrite ?filter_cons_False by naive_solver; rewrite ?filter_nil;
  reflexivity.

(** A log that grew by a few known events never had two passes open. *)
Ltac at_most_one H :=
  repeat (apply atMostOneOpen_snoc;
          [| rewrite ?openRenderPasses_snoc; use_eqs;
             try match goal with
                 | |- context [option_list ?o] =>
                     lazymatch o with
                     | Some _ => fail
                     | None => fail
                     | _ => destruct o
                     end
                 end;
             unfold option_list; cbn [passStep option_rect];
             rewrite ?filter_cons_False by naive_solver;
             rewrite ?filter_nil; simpl; lia ]);
  exact H.

Ltac wf_leaf :=
  intros; unfold Keeps, WF, PassInv; eng_fields;
  intros (Hcb & Hpass & Hopen & Hone);
  split; [ first [assumption | rewrite js_array_set_length; lia] | split ];
  [ first [ exact Hpass
          | intros [? ?]; discriminate
          | intros Hp; destruct (Hpass Hp) as (? & ? & ? & ? & ?); eauto 6 ]
  | split; [ first [assumption | open_passes]
           | first [assumption | at_most_one Hone] ] ].

Lemma WF_endRenderPass : preserves (Keeps WF) endRenderPass.
Proof.
  intros s (Hcb & Hpass & Hopen & Hone). unfold endRenderPass, WF, PassInv.
  eng_run. destruct (currentRenderPass s) as [p|] eqn:E; eng_fields.
  - split; [assumption | split; [intros [? [=]] | split]].
    + rewrite openRenderPasses_snoc, Hopen. apply passStep_end.
    + at_most_one Hone.
  - rewrite E. split; [assumption |]. split; [intros [? [=]] |].
    split; assumption.
Qed.

Lemma WF_startMainRenderPass : preserves (Keeps WF) startMainRenderPass.
Proof.
  intros s (Hcb & Hpass & Hopen & Hone).
  unfold startMainRenderPass, endRenderPass, firstColorAttachment,
    currentTextureView, WF, PassInv.
  eng_run. eng_cases.
  all: split; [assumption | split; [| split; [open_passes |]]].
  all: try (use_eqs; first [ intros [? ?]; discriminate
                           | intros _; solve [eauto 6] ]).
  all: first [assumption | at_most_one Hone].
Qed.

Lemma WF_destroyAll buffers : preserves (Keeps WF) (destroyAll buffers).
Proof.
  induction buffers as [|b rest IH]; simpl;
    preserve_with ltac:(apply IH) wf_leaf.
Qed.

Lemma WF_setBindGroupsFrom target groups :
  ∀ i, preserves (Keeps WF) (setBindGroupsFrom target i groups).
Proof.
  induction groups as [|g rest IH]; intros i; simpl;
    preserve_with ltac:(apply IH) wf_leaf.
Qed.

Lemma WF_setVertexBuffersFrom target slot offsets buffers :
  ∀ i, preserves (Keeps WF)
         (setVertexBuffersFrom target slot offsets i buffers).
Proof.
  induction buffers as [|b rest IH]; intros i; simpl;
    preserve_with ltac:(apply IH) wf_leaf.
Qed.

Lemma WF_exec c : preserves (Keeps WF) (exec c).
Proof.
  destruct c; simpl;
    preserve_with
      ltac:(first [ apply WF_endRenderPass
                  | apply WF_startMainRenderPass
                  | apply WF_destroyAll
                  | apply WF_setBindGroupsFrom
                  | apply WF_setVertexBuffersFrom ])
      wf_leaf.
Qed.

Lemma WF_constructor cv gpu opts : WF (constructor cv gpu opts).
Proof.
  split; [reflexivity | split; [intros [? [=]] | split]].
  - reflexivity.
  - apply atMostOneOpen_nil.
Qed.

Lemma reachable_WF s : reachable s -> WF s.
Proof.
  intros (cv & gpu & opts & cs & ->).
  apply (preserves_steps (Keeps WF) WF_exec cs), WF_constructor.
Qed.

Lemma reachable_steps cs s : reachable s -> reachable (steps cs s).
Proof.
  intros (cv & gpu & opts & cs0 & ->). exists cv, gpu, opts, (cs0 ++ cs).
  unfold steps. rewrite fold_left_app. reflexivity.
Qed.

(** The state [beginFrame] returns is reachable if the one it ran on is. *)
Lemma reachable_beginFrame s s' :
  reachable s -> beginFrame s = Ok tt s' -> reachable s'.
Proof.
  intros Hreach Hbegin.
  replace s' with (steps [CBeginFrame] s)
    by (unfold steps, step; simpl; rewrite Hbegin; reflexivity).
  apply reachable_steps, Hreach.
Qed.

Lemma reachable_constructor cv gpu opts : reachable (constructor cv gpu opts).
Proof. exists cv, gpu, opts, []. reflexivity. Qed.

Lemma sampleReady_reachable : reachable sampleReady.
Proof. apply reachable_steps, reachable_constructor. Qed.

Lemma sampleFrame_reachable : reachable sampleFrame.
Proof. apply reachable_steps, sampleReady_reachable. Qed.

Lemma sampleDrawing_reachable : reachable sampleDrawing.
Proof. apply reachable_steps, sampleFrame_reachable. Qed.

(** * The end of a frame *)

Lemma destroyAll_run buffers : ∀ s,
  destroyAll buffers s =
  Ok tt (set_gpuLog (gpuLog s ++ map EvBufferDestroy buffers) s).
Proof.
  induction buffers as [|b rest IH]; intros s; simpl.
  - rewrite app_nil_r. destruct s; reflexivity.
  - eng_run. rewrite IH. eng_fields. rewrite <- app_assoc. reflexivity.
Qed.

Lemma closingEvents_endPass s : forallb isEndPass (closingEvents s) = true.
Proof.
  unfold closingEvents.
  destruct (currentRenderPass s), (supportCompute (options s)),
    (currentComputePass s); reflexivity.
Qed.

Lemma closingEvents_quiet s : forallb isQuiet (closingEvents s) = true.
Proof.
  unfold closingEvents.
  destruct (currentRenderPass s), (supportCompute (options s)),
    (currentComputePass s); reflexivity.
Qed.

(** What [endFrame] does once a frame is open. *)
Lemma endFrame_run s u r c :
  is_Some (device s) ->
  uploadEncoder s = Some u ->
  renderEncoder s = Some r ->
  computeEncoder s = Some c ->
  length (commandBuffers s) = 3%nat ->
  let n := nextHandle s in
  let cbs := [Some n; Some (S n); Some (S (S n))] in
  ∃ s',
    endFrame s = Ok tt s' ∧
    gpuLog s' =
      gpuLog s ++ closingEvents s ++
      [EvFinish u n; EvFinish r (S n); EvFinish c (S (S n)); EvSubmit cbs] ++
      map EvBufferDestroy (tempBuffers s) ∧
    commandBuffers s' = cbs ∧
    tempBuffers s' = [] ∧
    currentRenderPass s' = None.
Proof.
  intros [d Hd] Hu Hr Hc Hlen n cbs. subst n cbs.
  destruct (commandBuffers s) as [|c0 [|c1 [|c2 [|]]]] eqn:Hcb;
    try discriminate.
  unfold endFrame, endRenderPass, endComputePass, finishInto, closingEvents.
  eng_run.
  repeat (first [rewrite destroyAll_run | eng_case]; eng_fields).
  all: eexists; split; [reflexivity |]; eng_fields; rewrite Hcb.
  all: rewrite js_array_set_three, <- ?app_assoc; auto.
Qed.

(** C1.  For every frame -- a [beginFrame] that returned on a reachable
    engine, followed by any calls, none at all included -- [endFrame]
    returns; it finishes the upload, render and compute encoders into three
    new command buffers, stored in slots 0, 1 and 2 of [commandBuffers] in
    that order, and submits that array in a single [submit] call.  Before
    the three [finish] calls it only ends the open passes. *)
Theorem endFrame_submits_three_command_buffers s0 s1 cs :
  reachable s0 ->
  beginFrame s0 = Ok tt s1 ->
  let s := steps cs s1 in
  let n := nextHandle s in
  let cbs := [Some n; Some (S n); Some (S (S n))] in
  ∃ u r c s',
    uploadEncoder s = Some u ∧ renderEncoder s = Some r ∧
    computeEncoder s = Some c ∧
    endFrame s = Ok tt s' ∧
    commandBuffers s' = cbs ∧
    gpuLog s' =
      gpuLog s ++ closingEvents s ++
      [EvFinish u n; EvFinish r (S n); EvFinish c (S (S n)); EvSubmit cbs] ++
      map EvBufferDestroy (tempBuffers s) ∧
    forallb isEndPass (closingEvents s) = true.
Proof.
  intros Hreach Hbegin s n cbs.
  assert (Hopen : FrameOpen s)
    by (apply FrameOpen_steps, (beginFrame_opens s0), Hbegin).
  assert (Hwf : WF s)
    by (apply reachable_WF, reachable_steps,
          (reachable_beginFrame s0); assumption).
  destruct Hopen as (Hd & [u Hu] & [r Hr] & [c Hc]).
  destruct Hwf as (Hlen & _).
  destruct (endFrame_run s u r c Hd Hu Hr Hc Hlen) as (s' & He & Hl & Hb & _).
  exists u, r, c, s'. repeat split; auto using closingEvents_endPass.
Qed.

Lemma endFrame_submits_three_command_buffers_witness :
  ∃ s', endFrame sampleFrame = Ok tt s' ∧
        commandBuffers s' = [Some 11%nat; Some 12%nat; Some 13%nat].
Proof.
  assert (Hbegin : beginFrame sampleReady = Ok tt sampleFrame)
    by (vm_compute; reflexivity).
  assert (Hs : steps [] sampleFrame = sampleFrame) by reflexivity.
  assert (Hn : nextHandle sampleFrame = 11%nat) by (vm_compute; reflexivity).
  destruct (endFrame_submits_three_command_buffers
              sampleReady sampleFrame [] sampleReady_reachable Hbegin)
    as (u & r & c & s' & _ & _ & _ & He & Hcb & _).
  rewrite Hs in He, Hcb. rewrite Hn in Hcb.
  exists s'. split; [exact He | exact Hcb].
Defined.

(** * Staging buffers *)

(** C3.  In every frame, the calls between [beginFrame] and [endFrame]
    destroy no buffer and submit nothing, and every staging buffer they
    register stays in [tempBuffers]; [endFrame] then returns, and after
    its single [submit] it destroys every registered buffer, once each and
    in order, and leaves the registry empty. *)
Theorem staging_buffers_destroyed_after_submit s0 s1 cs :
  reachable s0 ->
  beginFrame s0 = Ok tt s1 ->
  forallb (fun c => negb (isEndFrame c)) cs = true ->
  let s := steps cs s1 in
  ∃ during added before cbs s',
    gpuLog s = gpuLog s1 ++ during ∧
    forallb isQuiet during = true ∧
    tempBuffers s = tempBuffers s1 ++ added ∧
    endFrame s = Ok tt s' ∧
    gpuLog s' =
      gpuLog s ++ before ++ [EvSubmit cbs] ++
      map EvBufferDestroy (tempBuffers s) ∧
    forallb isQuiet before = true ∧
    tempBuffers s' = [].
Proof.
  intros Hreach Hbegin Hcs s.
  destruct (Ext_steps cs s1 Hcs) as [(during & Hlog & Hquiet) [added Hadd]].
  assert (Hopen : FrameOpen s)
    by (apply FrameOpen_steps, (beginFrame_opens s0), Hbegin).
  assert (Hwf : WF s)
    by (apply reachable_WF, reachable_steps,
          (reachable_beginFrame s0); assumption).
  destruct Hopen as (Hd & [u Hu] & [r Hr] & [c Hc]).
  destruct Hwf as (Hlen & _).
  destruct (endFrame_run s u r c Hd Hu Hr Hc Hlen)
    as (s' & He & Hl & _ & Ht & _).
  exists during, added.
  exists (closingEvents s ++
          [EvFinish u (nextHandle s); EvFinish r (S (nextHandle s));
           EvFinish c (S (S (nextHandle s)))]).
  eexists. exists s'. repeat split; auto.
  - rewrite Hl, <- !app_assoc. reflexivity.
  - rewrite forallb_app, closingEvents_quiet. reflexivity.
Qed.

Lemma staging_buffers_destroyed_after_submit_witness :
  ∃ before cbs s',
    endFrame (steps [CCreateUniformBuffer (DataView eightBytes)] sampleFrame)
      = Ok tt s' ∧
    gpuLog s' =
      gpuLog (steps [CCreateUniformBuffer (DataView eightBytes)] sampleFrame)
      ++ before ++ [EvSubmit cbs] ++ map EvBufferDestroy [12%nat] ∧
    forallb isQuiet before = true ∧
    tempBuffers s' = [].
Proof.
  assert (Hbegin : beginFrame sampleReady = Ok tt sampleFrame)
    by (vm_compute; reflexivity).
  assert (Ht : tempBuffers
                 (steps [CCreateUniformBuffer (DataView eightBytes)]
                    sampleFrame) = [12%nat])
    by (vm_compute; reflexivity).
  destruct (staging_buffers_destroyed_after_submit
              sampleReady sampleFrame
              [CCreateUniformBuffer (DataView eightBytes)]
              sampleReady_reachable Hbegin eq_refl)
    as (during & added & before & cbs & s' & _ & _ & _ & He & Hl & Hq & He').
  rewrite Ht in Hl.
  exists before, cbs, s'. split; [exact He |].
  split; [exact Hl |]. split; [exact Hq | exact He'].
Defined.

(** * Switching render passes *)

(** C4.  On a reachable engine with a render pass open,
    [startMainRenderPass] returns without an error; it ends the open pass
    with one [endPass] call, after which no render pass is open, and only
    then begins the new pass, which becomes the only open one; at no
    moment of the log were two render passes open. *)
Theorem startMainRenderPass_closes_open_pass s p :
  reachable s ->
  currentRenderPass s = Some p ->
  ∃ e sc colors s', let n := nextHandle s in
    renderEncoder s = Some e ∧ swapChain s = Some sc ∧
    startMainRenderPass s = Ok tt s' ∧
    gpuLog s' =
      gpuLog s ++
      [EvEndPass p; EvGetCurrentTexture sc n; EvCreateView n (S n);
       EvBeginRenderPass e colors (mainDepthAttachment s) (S (S n))] ∧
    currentRenderPass s' = Some (S (S n)) ∧
    openRenderPasses (gpuLog s) = [p] ∧
    openRenderPasses (gpuLog s ++ [EvEndPass p]) = [] ∧
    openRenderPasses (gpuLog s') = [S (S n)] ∧
    atMostOneOpen (gpuLog s').
Proof.
  intros Hreach Hp.
  destruct (reachable_WF s Hreach) as (_ & Hpass & Hopen & Hone).
  destruct Hpass as ([e He] & [sc Hsc] & a & rest & Ha);
    [rewrite Hp; eauto |].
  rewrite Hp in Hopen. exists e, sc.
  unfold startMainRenderPass, endRenderPass, firstColorAttachment,
    currentTextureView.
  eng_run. rewrite Hp. eng_fields. rewrite Hp. eng_fields.
  destruct (antialiasing (options s)); eng_fields;
    rewrite Ha; eng_fields; rewrite Hsc; eng_fields; rewrite He; eng_fields.
  all: do 2 eexists; cbv zeta; split_and!.
  all: first
    [ assumption
    | reflexivity
    | eng_fields; rewrite <- !app_assoc; reflexivity
    | eng_fields; rewrite ?openRenderPasses_snoc, Hopen;
      unfold option_list; cbn [passStep option_rect];
      rewrite ?filter_cons_False by naive_solver; reflexivity
    | eng_fields; at_most_one Hone ].
Qed.

Lemma startMainRenderPass_closes_open_pass_witness :
  ∃ s', startMainRenderPass sampleDrawing = Ok tt s' ∧
        currentRenderPass s' = Some 17%nat ∧
        openRenderPasses (gpuLog s') = [17%nat].
Proof.
  assert (Hp : currentRenderPass sampleDrawing = Some 13%nat)
    by (vm_compute; reflexivity).
  assert (Hn : nextHandle sampleDrawing = 15%nat)
    by (vm_compute; reflexivity).
  destruct (startMainRenderPass_closes_open_pass
              sampleDrawing 13%nat sampleDrawing_reachable Hp)
    as (e & sc & colors & s' & _ & _ & Hs & _ & Hc & _ & _ & Ho & _).
  rewrite Hn in Hc, Ho.
  exists s'. split; [exact Hs |]. split; [exact Hc | exact Ho].
Defined.

(** * The pipeline cache *)

(** ** Lookups on the object literals *)

Lemma js_get_own obj name h :
  obj !! name = Some h -> js_get obj name = Some (Own h).
Proof. intros H. unfold js_get. rewrite H. reflexivity. Qed.

Lemma js_get_None obj name : js_get obj name = None -> obj !! name = None.
Proof. unfold js_get. destruct (obj !! name); [discriminate | reflexivity]. Qed.


Lemma js_get_inherited obj name :
  obj !! name = None ->
  name ∈ objectPrototypeNames ->
  js_get obj name = Some (Inherited name).
Proof.
  intros H Hin. unfold js_get. rewrite H.
  rewrite bool_decide_eq_true_2 by exact Hin. reflexivity.
Qed.

(** ** The two getters *)

(** A name the mapping resolves is answered with what it resolves to,
    whatever the descriptor. *)
Lemma getRenderPipeline_cached name d s v :
  js_get (pipelines s) name = Some v ->
  getRenderPipeline name d s = Ok (Some v) s.
Proof.
  intros H. unfold getRenderPipeline. eng_run. rewrite H. reflexivity.
Qed.

(** A new name with both stages is compiled and cached. *)
Lemma getRenderPipeline_compile name d s vs fs :
  js_get (pipelines s) name = None ->
  vertexStage d = Some vs ->
  fragmentStage d = Some fs ->
  is_Some (device s) ->
  let h := nextHandle s in
  getRenderPipeline name d s =
  Ok (Some (Own h))
     (set_pipelines (<[name := h]> (pipelines s))
        (set_gpuLog
           (gpuLog s ++
            [EvCreateRenderPipeline (renderPipelineDescriptor s d vs fs) h])
           (set_nextHandle (S h) s))).
Proof.
  intros H Hv Hf [dv Hd] h. unfold getRenderPipeline. eng_run.
  rewrite H, Hv, Hf, Hd. reflexivity.
Qed.

(** A new name with a stage missing is not compiled. *)
Lemma getRenderPipeline_not_ready name d s :
  js_get (pipelines s) name = None ->
  vertexStage d = None ∨ fragmentStage d = None ->
  getRenderPipeline name d s = Ok None s.
Proof.
  intros H Hd. unfold getRenderPipeline. eng_run. rewrite H.
  destruct Hd as [-> | ->]; [reflexivity |].
  destruct (vertexStage d); reflexivity.
Qed.






(** * Draws with a stage missing *)

Lemma setRenderPipeline_not_ready name d s :
  js_get (pipelines s) name = None ->
  vertexStage d = None ∨ fragmentStage d = None ->
  setRenderPipeline name d s = Ok tt s.
Proof.
  intros H Hd. unfold setRenderPipeline. eng_run.
  rewrite (getRenderPipeline_not_ready name d s H Hd). reflexivity.
Qed.

(** C5, as stated, fails: with the render pass open, an empty cache and a
    descriptor without a fragment stage, [drawArraysType] still records the
    draw on the pass. *)
Lemma draw_recorded_without_pipeline :
  pipelines sampleDrawing !! "basic" = None ∧
  fragmentStage vertexOnlyArgs = None ∧
  ∃ s', drawArraysType "basic" vertexOnlyArgs 0 3 None sampleDrawing
          = Ok tt s' ∧
        gpuLog s' = gpuLog sampleDrawing ++ [EvDraw 13%nat 3 1 0 0].
Proof.
  split; [vm_compute; reflexivity |]. split; [reflexivity |].
  eexists. split; vm_compute; reflexivity.
Qed.

(** C5, as amended.  For a name the render mapping resolves to nothing,
    neither to a cached entry nor to a member every object inherits, and a
    descriptor that lacks the vertex or the fragment stage:
    [getRenderPipeline] returns no pipeline and changes nothing, and
    [setRenderPipeline] binds nothing and raises no error, whether there
    is something to draw on or not; with a bundle or a render pass to draw
    on, [drawArraysType] and [drawElementsType] return without an error
    and record their draw command on it, that command and nothing else. *)
Theorem not_ready_pipeline_skips_bind_not_draw s name d :
  js_get (pipelines s) name = None ->
  vertexStage d = None ∨ fragmentStage d = None ->
  getRenderPipeline name d s = Ok None s ∧
  setRenderPipeline name d s = Ok tt s ∧
  (∀ t first count instances,
     renderTarget s = Some t ->
     drawArraysType name d first count instances s =
     Ok tt (set_gpuLog
              (gpuLog s ++ [EvDraw t count (default 1 instances) first 0])
              s)) ∧
  (∀ t first count instances,
     renderTarget s = Some t ->
     drawElementsType name d first count instances s =
     Ok tt (set_gpuLog
              (gpuLog s ++
               [EvDrawIndexed t count (default 1 instances) first 0 0])
              s)).
Proof.
  intros H Hd.
  pose proof (getRenderPipeline_not_ready name d s H Hd) as Hget.
  pose proof (setRenderPipeline_not_ready name d s H Hd) as Hset.
  split_and!; auto; intros t first count instances Ht.
  - unfold drawArraysType. cbv zeta. unfold mbind at 1, Eng_bind, gets.
    unfold mbind at 1. rewrite Hset, Ht. reflexivity.
  - unfold drawElementsType. cbv zeta. unfold mbind at 1, Eng_bind, gets.
    unfold mbind at 1. rewrite Hset, Ht. reflexivity.
Qed.

Lemma not_ready_pipeline_skips_bind_not_draw_witness :
  getRenderPipeline "basic" vertexOnlyArgs sampleDrawing
    = Ok None sampleDrawing ∧
  setRenderPipeline "basic" vertexOnlyArgs sampleDrawing
    = Ok tt sampleDrawing ∧
  getRenderPipeline "basic" vertexOnlyArgs sampleNew = Ok None sampleNew ∧
  ∃ s', drawElementsType "basic" vertexOnlyArgs 0 6 None sampleDrawing
          = Ok tt s' ∧
        gpuLog s' = gpuLog sampleDrawing ++ [EvDrawIndexed 13%nat 6 1 0 0 0].
Proof.
  assert (Hp : js_get (pipelines sampleDrawing) "basic" = None)
    by (vm_compute; reflexivity).
  assert (Hq : js_get (pipelines sampleNew) "basic" = None)
    by (vm_compute; reflexivity).
  assert (Ht : renderTarget sampleDrawing = Some 13%nat)
    by (vm_compute; reflexivity).
  destruct (not_ready_pipeline_skips_bind_not_draw
              sampleDrawing "basic" vertexOnlyArgs Hp (or_intror eq_refl))
    as (Hget & Hset & _ & Hdraw).
  destruct (not_ready_pipeline_skips_bind_not_draw
              sampleNew "basic" vertexOnlyArgs Hq (or_intror eq_refl))
    as (Hnew & _).
  split; [exact Hget |]. split; [exact Hset |]. split; [exact Hnew |].
  eexists. split; [exact (Hdraw 13%nat 0 6 None Ht) |]. reflexivity.
Defined.

(** * Uploads *)

Lemma roundUp4_padding len :
  0 ≤ len -> len mod 4 = 0 ∨ len mod 4 = 2 ->
  len + len mod 4 = roundUp4 len.
Proof. intros Hnn Hm. unfold roundUp4. Z.div_mod_to_equations. lia. Qed.

Lemma typedArraySet_fits (source : list byte) s :
  typedArraySet (replicate (length source) x00) source s = Ok source s.
Proof.
  unfold typedArraySet. rewrite length_replicate.
  destruct (decide (length source ≤ length source)%nat); [| lia].
  rewrite drop_replicate, Nat.sub_diag. simpl. rewrite app_nil_r. reflexivity.
Qed.

(** What [setSubData] does with a view that spans its buffer, once a frame
    is open. *)
Lemma setSubData_run dest off view s u :
  is_Some (device s) ->
  uploadEncoder s = Some u ->
  spansBuffer view ->
  let b := nextHandle s in
  setSubData dest off view s =
  Ok tt
    (set_tempBuffers (tempBuffers s ++ [b])
       (set_gpuLog
          (gpuLog s ++
           [EvCreateBufferMapped (byteLength view)
              WebGPUConstants.BufferUsage.CopySrc b;
            EvUnmap b (buffer view);
            EvCopyBufferToBuffer u b 0 dest off (byteLength view)])
          (set_nextHandle (S b) s))).
Proof.
  intros [dv Hd] Hu [_ Hlen] b. unfold setSubData. cbv zeta.
  rewrite Hlen, Nat2Z.id. eng_run. rewrite Hd.
  rewrite typedArraySet_fits. eng_fields. rewrite Hu. eng_fields.
  rewrite <- !app_assoc. reflexivity.
Qed.

(** C6, as stated, fails: for a view of five bytes [createBuffer] asks for
    a buffer of six bytes and [setSubData] for a staging buffer of five,
    where five rounded up to a multiple of four is eight. *)
Lemma five_bytes_are_not_rounded_to_eight :
  roundUp4 (byteLength fiveBytes) = 8 ∧
  ∃ s', createBuffer fiveBytes 72 sampleFrame = Ok 11%nat s' ∧
        gpuLog s' =
          gpuLog sampleFrame ++
          [EvCreateBuffer 6 72 11%nat;
           EvCreateBufferMapped 5 4 12%nat;
           EvUnmap 12%nat [x01; x02; x03; x04; x05];
           EvCopyBufferToBuffer 8%nat 12%nat 0 11%nat 0 5].
Proof.
  split; [reflexivity |]. eexists. split; vm_compute; reflexivity.
Qed.

(** C6, as amended.  In a frame, for a view that spans its buffer:
    [setSubData] creates a staging buffer of exactly the view's byte
    length, fills it with the view's bytes, records the copy of that many
    bytes and registers the buffer for release; [createBuffer] creates a
    destination buffer at least as long as the view and uploads the view
    into it the same way; the destination's size is the length rounded up
    to a multiple of four when the length leaves remainder 0 or 2. *)
Theorem staging_buffer_has_requested_length s u view flags dest off :
  is_Some (device s) ->
  uploadEncoder s = Some u ->
  spansBuffer view ->
  let len := byteLength view in
  let n := nextHandle s in
  (∃ s', setSubData dest off view s = Ok tt s' ∧
         gpuLog s' =
           gpuLog s ++
           [EvCreateBufferMapped len 4 n; EvUnmap n (buffer view);
            EvCopyBufferToBuffer u n 0 dest off len] ∧
         tempBuffers s' = tempBuffers s ++ [n]) ∧
  (∃ size s', createBuffer view flags s = Ok n s' ∧
         gpuLog s' =
           gpuLog s ++
           [EvCreateBuffer size flags n;
            EvCreateBufferMapped len 4 (S n); EvUnmap (S n) (buffer view);
            EvCopyBufferToBuffer u (S n) 0 n 0 len] ∧
         tempBuffers s' = tempBuffers s ++ [S n] ∧
         len ≤ size ∧
         (len mod 4 = 0 ∨ len mod 4 = 2 -> size = roundUp4 len)).
Proof.
  intros Hd Hu Hv len n. split.
  - eexists. rewrite (setSubData_run dest off view s u Hd Hu Hv).
    split; [reflexivity |]. eng_fields. auto.
  - exists (len + Z.rem len 4). unfold createBuffer. cbv zeta.
    destruct Hd as [dv Hd]. unfold mbind at 1, Eng_bind, theDevice.
    unfold mbind at 1, Eng_bind, gets, deref. rewrite Hd.
    cbn [mret Eng_ret]. unfold mbind at 1, Eng_bind, create.
    unfold mbind at 1, Eng_bind, freshHandle.
    unfold mbind at 1, Eng_bind, emit, modify. cbn [mret Eng_ret].
    unfold mbind at 1, Eng_bind.
    rewrite (setSubData_run n 0 view _ u); [| eng_fields; eauto ..].
    eexists. split; [reflexivity |]. eng_fields.
    rewrite <- !app_assoc. split; [reflexivity |]. split; [reflexivity |].
    assert (Hnn : 0 ≤ len) by (unfold len; destruct Hv as [_ ->]; lia).
    rewrite Z.rem_mod_nonneg by lia.
    split; [pose proof (Z.mod_pos_bound len 4); lia |].
    intros Hm. apply roundUp4_padding; assumption.
Qed.

Lemma staging_buffer_has_requested_length_witness :
  ∃ size s', createBuffer eightBytes 72 sampleFrame = Ok 11%nat s' ∧
             tempBuffers s' = [12%nat] ∧
             size = 8.
Proof.
  assert (Hd : is_Some (device sampleFrame)) by (vm_compute; eauto).
  assert (Hu : uploadEncoder sampleFrame = Some 8%nat)
    by (vm_compute; reflexivity).
  assert (Hn : nextHandle sampleFrame = 11%nat) by (vm_compute; reflexivity).
  assert (Ht : tempBuffers sampleFrame = []) by (vm_compute; reflexivity).
  assert (Hv : spansBuffer eightBytes) by (split; reflexivity).
  destruct (staging_buffer_has_requested_length
              sampleFrame 8%nat eightBytes 72 0%nat 0 Hd Hu Hv)
    as [_ (size & s' & Hc & _ & Htemp & _ & Hsize)].
  rewrite Hn in Hc, Htemp. rewrite Ht in Htemp.
  exists size, s'. split; [exact Hc |]. split; [exact Htemp |].
  apply Hsize. left. reflexivity.
Defined.

(** * Bundles *)

(** ** What the render commands record *)

Lemma set_gpuLog_set_gpuLog l1 l2 s :
  set_gpuLog l2 (set_gpuLog l1 s) = set_gpuLog l2 s.
Proof. reflexivity. Qed.

Lemma setBindGroupsFrom_run t groups : ∀ i s,
  setBindGroupsFrom (Some t) i groups s =
  Ok tt (set_gpuLog
           (gpuLog s ++
            imap (fun k g => EvSetBindGroup t (i + Z.of_nat k) g) groups)
           s).
Proof.
  induction groups as [|g rest IH]; intros i s; simpl.
  - rewrite app_nil_r. destruct s; reflexivity.
  - eng_run. rewrite IH. eng_fields.
    rewrite set_gpuLog_set_gpuLog, <- app_assoc. simpl. rewrite Z.add_0_r.
    assert (Hext :
      imap (fun k g0 => EvSetBindGroup t (i + 1 + Z.of_nat k) g0) rest =
      imap ((fun k g0 => EvSetBindGroup t (i + Z.of_nat k) g0) ∘ S) rest).
    { apply imap_ext. intros k x _. simpl. f_equal. lia. }
    rewrite Hext. reflexivity.
Qed.

Lemma setVertexBuffersFrom_run t slot offsets buffers : ∀ i s,
  setVertexBuffersFrom (Some t) slot offsets i buffers s =
  Ok tt (set_gpuLog
           (gpuLog s ++
            omap id
              (imap (fun k buf =>
                       (fun b => EvSetVertexBuffer t
                                   (slot + Z.of_nat (i + k)) b
                                   (offsets !! (i + k)%nat)) <$> buf)
                    buffers))
           s).
Proof.
  induction buffers as [|buf rest IH]; intros i s; simpl.
  - rewrite app_nil_r. destruct s; reflexivity.
  - assert (Hext :
      imap ((fun k buf =>
               (fun b => EvSetVertexBuffer t (slot + Z.of_nat (i + k)) b
                           (offsets !! (i + k)%nat)) <$> buf) ∘ S) rest =
      imap (fun k buf =>
              (fun b => EvSetVertexBuffer t (slot + Z.of_nat (S i + k)) b
                          (offsets !! (S i + k)%nat)) <$> buf) rest).
    { apply imap_ext. intros k x _. simpl.
      replace (i + S k)%nat with (S (i + k)) by lia. reflexivity. }
    rewrite Hext. rewrite Nat.add_0_r.
    destruct buf as [b|]; eng_run; rewrite IH; eng_fields.
    + rewrite set_gpuLog_set_gpuLog, <- app_assoc. reflexivity.
    + reflexivity.
Qed.

Lemma setRenderBindGroups_on s t groups :
  renderTarget s = Some t ->
  setRenderBindGroups groups s =
  Ok tt (set_gpuLog (gpuLog s ++ bindGroupEvents t groups) s).
Proof.
  intros Ht. unfold setRenderBindGroups, bindGroupEvents.
  unfold mbind, Eng_bind, gets. rewrite Ht.
  rewrite setBindGroupsFrom_run. reflexivity.
Qed.

Lemma bindVertexInputs_on s t v :
  renderTarget s = Some t ->
  bindVertexInputs v s =
  Ok tt (set_gpuLog
           (gpuLog s ++
            option_list
              ((fun ib => EvSetIndexBuffer t ib (indexOffset v))
                 <$> indexBuffer v) ++
            vertexBufferEvents t v)
           s).
Proof.
  intros Ht. unfold bindVertexInputs, vertexBufferEvents.
  unfold mbind at 1, Eng_bind, gets. rewrite Ht.
  destruct (indexBuffer v) as [ib|]; eng_run;
    rewrite setVertexBuffersFrom_run; eng_fields;
    rewrite ?set_gpuLog_set_gpuLog, <- ?app_assoc; reflexivity.
Qed.

(** With something to record on, and a device to compile with,
    [setRenderPipeline] returns and makes the calls of [pipelineEvents]. *)
Lemma setRenderPipeline_on s t name d :
  renderTarget s = Some t ->
  is_Some (device s) ->
  ∃ s', setRenderPipeline name d s = Ok tt s' ∧
        gpuLog s' = gpuLog s ++ pipelineEvents s t name d ∧
        bundleEncoder s' = bundleEncoder s ∧
        currentRenderPass s' = currentRenderPass s.
Proof.
  intros Ht Hd. unfold setRenderPipeline, pipelineEvents.
  unfold mbind at 1, Eng_bind, gets. rewrite Ht. unfold mbind at 1, Eng_bind.
  destruct (js_get (pipelines s) name) as [v|] eqn:Hg.
  - rewrite (getRenderPipeline_cached name d s v Hg). eng_run.
    eexists. split; [reflexivity |]. eng_fields. auto.
  - destruct (vertexStage d) as [vs|] eqn:Hv;
      [destruct (fragmentStage d) as [fs|] eqn:Hf |].
    + rewrite (getRenderPipeline_compile name d s vs fs Hg Hv Hf Hd).
      eng_run. eexists. split; [reflexivity |]. eng_fields.
      rewrite <- app_assoc. auto.
    + rewrite (getRenderPipeline_not_ready name d s Hg (or_intror Hf)).
      exists s. rewrite app_nil_r. auto.
    + rewrite (getRenderPipeline_not_ready name d s Hg (or_introl Hv)).
      exists s. rewrite app_nil_r. auto.
Qed.

Lemma drawArraysType_on s t name d first count instances :
  renderTarget s = Some t ->
  is_Some (device s) ->
  ∃ s', drawArraysType name d first count instances s = Ok tt s' ∧
        gpuLog s' =
          gpuLog s ++ pipelineEvents s t name d ++
          [EvDraw t count (default 1 instances) first 0] ∧
        bundleEncoder s' = bundleEncoder s.
Proof.
  intros Ht Hd.
  destruct (setRenderPipeline_on s t name d Ht Hd)
    as (s1 & Hset & Hlog & Hb & _).
  unfold drawArraysType. cbv zeta. unfold mbind at 1, Eng_bind, gets.
  unfold mbind at 1, Eng_bind. rewrite Hset, Ht. eng_run.
  eexists. split; [reflexivity |]. eng_fields.
  rewrite Hlog, <- app_assoc. auto.
Qed.

Lemma drawElementsType_on s t name d first count instances :
  renderTarget s = Some t ->
  is_Some (device s) ->
  ∃ s', drawElementsType name d first count instances s = Ok tt s' ∧
        gpuLog s' =
          gpuLog s ++ pipelineEvents s t name d ++
          [EvDrawIndexed t count (default 1 instances) first 0 0] ∧
        bundleEncoder s' = bundleEncoder s.
Proof.
  intros Ht Hd.
  destruct (setRenderPipeline_on s t name d Ht Hd)
    as (s1 & Hset & Hlog & Hb & _).
  unfold drawElementsType. cbv zeta. unfold mbind at 1, Eng_bind, gets.
  unfold mbind at 1, Eng_bind. rewrite Hset, Ht. eng_run.
  eexists. split; [reflexivity |]. eng_fields.
  rewrite Hlog, <- app_assoc. auto.
Qed.

(** ** An open bundle stays open *)

#[global] Instance SameBundle_preorder : PreOrder SameBundle.
Proof.
  split.
  - intros s. split; [reflexivity | tauto].
  - intros s1 s2 s3 [H1 D1] [H2 D2]. split; [congruence | tauto].
Qed.

Ltac bundle_leaf :=
  intros; unfold SameBundle; eng_fields;
  split; [reflexivity | first [tauto | intros _; eexists; reflexivity]].

Lemma SameBundle_destroyAll buffers :
  preserves SameBundle (destroyAll buffers).
Proof.
  induction buffers as [|b rest IH]; simpl;
    preserve_with ltac:(apply IH) bundle_leaf.
Qed.

Lemma SameBundle_setBindGroupsFrom target groups :
  ∀ i, preserves SameBundle (setBindGroupsFrom target i groups).
Proof.
  induction groups as [|g rest IH]; intros i; simpl;
    preserve_with ltac:(apply IH) bundle_leaf.
Qed.

Lemma SameBundle_setVertexBuffersFrom target slot offsets buffers :
  ∀ i, preserves SameBundle
         (setVertexBuffersFrom target slot offsets i buffers).
Proof.
  induction buffers as [|b rest IH]; intros i; simpl;
    preserve_with ltac:(apply IH) bundle_leaf.
Qed.

Lemma SameBundle_exec c :
  keepsBundle c = true -> preserves SameBundle (exec c).
Proof.
  destruct c; try discriminate; intros _; simpl;
    preserve_with
      ltac:(idtac; lazymatch goal with
            | |- preserves _ (destroyAll _) => apply SameBundle_destroyAll
            | |- preserves _ (setBindGroupsFrom _ _ _) =>
                apply SameBundle_setBindGroupsFrom
            | |- preserves _ (setVertexBuffersFrom _ _ _ _ _) =>
                apply SameBundle_setVertexBuffersFrom
            end)
      bundle_leaf.
Qed.

Lemma SameBundle_steps cs : ∀ s,
  forallb keepsBundle cs = true -> SameBundle s (steps cs s).
Proof.
  induction cs as [|c cs IH]; intros s Hcs; simpl.
  - reflexivity.
  - simpl in Hcs. apply andb_prop in Hcs as [Hc Hcs].
    etransitivity; [apply (SameBundle_exec c Hc s) | apply IH, Hcs].
Qed.

(** ** The bundle is not the live pass *)

Ltac notlive_leaf :=
  intros; unfold Keeps, NotLivePass; eng_fields;
  intros [Hlt Hne];
  split; [ first [assumption | lia] | first [assumption | discriminate] ].

Lemma NotLivePass_startMainRenderPass b :
  preserves (Keeps (NotLivePass b)) startMainRenderPass.
Proof.
  intros s [Hlt Hne].
  unfold startMainRenderPass, endRenderPass, firstColorAttachment,
    currentTextureView, NotLivePass.
  eng_run. eng_cases.
  all: split; [lia |].
  all: first [assumption | discriminate | congruence | intros [= E]; lia].
Qed.

Lemma NotLivePass_destroyAll b buffers :
  preserves (Keeps (NotLivePass b)) (destroyAll buffers).
Proof.
  induction buffers as [|x rest IH]; simpl;
    preserve_with ltac:(apply IH) notlive_leaf.
Qed.

Lemma NotLivePass_setBindGroupsFrom b target groups :
  ∀ i, preserves (Keeps (NotLivePass b)) (setBindGroupsFrom target i groups).
Proof.
  induction groups as [|g rest IH]; intros i; simpl;
    preserve_with ltac:(apply IH) notlive_leaf.
Qed.

Lemma NotLivePass_setVertexBuffersFrom b target slot offsets buffers :
  ∀ i, preserves (Keeps (NotLivePass b))
         (setVertexBuffersFrom target slot offsets i buffers).
Proof.
  induction buffers as [|x rest IH]; intros i; simpl;
    preserve_with ltac:(apply IH) notlive_leaf.
Qed.

Lemma NotLivePass_exec b c : preserves (Keeps (NotLivePass b)) (exec c).
Proof.
  destruct c; simpl;
    preserve_with
      ltac:(idtac; lazymatch goal with
            | |- preserves _ startMainRenderPass =>
                apply NotLivePass_startMainRenderPass
            | |- preserves _ (destroyAll _) => apply NotLivePass_destroyAll
            | |- preserves _ (setBindGroupsFrom _ _ _) =>
                apply NotLivePass_setBindGroupsFrom
            | |- preserves _ (setVertexBuffersFrom _ _ _ _ _) =>
                apply NotLivePass_setVertexBuffersFrom
            end)
      notlive_leaf.
Qed.

(** On a reachable engine the open render pass was created before now. *)
Lemma PassBelow_startMainRenderPass :
  preserves (Keeps PassBelow) startMainRenderPass.
Proof.
  intros s Hs.
  unfold startMainRenderPass, endRenderPass, firstColorAttachment,
    currentTextureView, PassBelow in *.
  eng_run. eng_cases.
  all: intros p Hp; first [congruence | injection Hp as <-; lia].
Qed.

Ltac below_leaf :=
  intros; unfold Keeps, PassBelow; eng_fields;
  intros Hs p Hp;
  first [ discriminate | specialize (Hs p Hp); lia ].

Lemma PassBelow_destroyAll buffers :
  preserves (Keeps PassBelow) (destroyAll buffers).
Proof.
  induction buffers as [|x rest IH]; simpl;
    preserve_with ltac:(apply IH) below_leaf.
Qed.

Lemma PassBelow_setBindGroupsFrom target groups :
  ∀ i, preserves (Keeps PassBelow) (setBindGroupsFrom target i groups).
Proof.
  induction groups as [|g rest IH]; intros i; simpl;
    preserve_with ltac:(apply IH) below_leaf.
Qed.

Lemma PassBelow_setVertexBuffersFrom target slot offsets buffers :
  ∀ i, preserves (Keeps PassBelow)
         (setVertexBuffersFrom target slot offsets i buffers).
Proof.
  induction buffers as [|x rest IH]; intros i; simpl;
    preserve_with ltac:(apply IH) below_leaf.
Qed.

Lemma PassBelow_exec c : preserves (Keeps PassBelow) (exec c).
Proof.
  destruct c; simpl;
    preserve_with
      ltac:(idtac; lazymatch goal with
            | |- preserves _ startMainRenderPass =>
                apply PassBelow_startMainRenderPass
            | |- preserves _ (destroyAll _) => apply PassBelow_destroyAll
            | |- preserves _ (setBindGroupsFrom _ _ _) =>
                apply PassBelow_setBindGroupsFrom
            | |- preserves _ (setVertexBuffersFrom _ _ _ _ _) =>
                apply PassBelow_setVertexBuffersFrom
            end)
      below_leaf.
Qed.

Lemma reachable_PassBelow s : reachable s -> PassBelow s.
Proof.
  intros (cv & gpu & opts & cs & ->).
  apply (preserves_steps (Keeps PassBelow) PassBelow_exec cs).
  intros p Hp. discriminate.
Qed.

(** C7, as stated, fails: on an engine configured with the swap-chain
    format rgba8unorm, the bundle encoder is still created for
    bgra8unorm. *)
Lemma bundle_color_format_is_not_the_configured_one :
  swapChainFormat (options sampleReady) = Some "rgba8unorm" ∧
  ∃ s', startRecordBundle sampleReady = Ok tt s' ∧
        gpuLog s' =
          gpuLog sampleReady ++
          [EvCreateRenderBundleEncoder ["bgra8unorm"]
             "depth24plus-stencil8" 4 8%nat].
Proof.
  split; [reflexivity |]. eexists. split; vm_compute; reflexivity.
Qed.

(** C7, as amended.  On an initialised engine [startRecordBundle] creates
    a bundle encoder for the fixed colour format bgra8unorm, the fixed
    depth-stencil format depth24plus-stencil8 and the configured sample
    count (4 with antialiasing, 1 without).  The bundle stays open through
    any calls other than [startRecordBundle] and [stopRecordBundle], it is
    never the live render pass, and while it is open it is what the render
    commands record on, whether a render pass is open or not:
    [setRenderBindGroups] records one [setBindGroup] per group on the
    bundle, [bindVertexInputs] its index and vertex buffers, and
    [drawArraysType] and [drawElementsType] what [setRenderPipeline]
    records, on the bundle too, followed by their draw command on the
    bundle. *)
Theorem startRecordBundle_fixed_formats_and_bundle_target s cs :
  reachable s ->
  is_Some (device s) ->
  forallb keepsBundle cs = true ->
  ∃ s', let b := nextHandle s in
    let s2 := steps cs s' in
    startRecordBundle s = Ok tt s' ∧
    gpuLog s' =
      gpuLog s ++
      [EvCreateRenderBundleEncoder ["bgra8unorm"] "depth24plus-stencil8"
         (if antialiasing (options s) then 4 else 1) b] ∧
    bundleEncoder s' = Some b ∧
    bundleEncoder s2 = Some b ∧
    renderTarget s2 = Some b ∧
    currentRenderPass s2 ≠ Some b ∧
    (∀ groups,
       ∃ s3, setRenderBindGroups groups s2 = Ok tt s3 ∧
             gpuLog s3 = gpuLog s2 ++ bindGroupEvents b groups) ∧
    (∀ v,
       ∃ s3, bindVertexInputs v s2 = Ok tt s3 ∧
             gpuLog s3 =
               gpuLog s2 ++
               option_list
                 ((fun ib => EvSetIndexBuffer b ib (indexOffset v))
                    <$> indexBuffer v) ++
               vertexBufferEvents b v) ∧
    (∀ name d first count instances,
       ∃ s3, drawArraysType name d first count instances s2 = Ok tt s3 ∧
             gpuLog s3 =
               gpuLog s2 ++ pipelineEvents s2 b name d ++
               [EvDraw b count (default 1 instances) first 0]) ∧
    (∀ name d first count instances,
       ∃ s3, drawElementsType name d first count instances s2 = Ok tt s3 ∧
             gpuLog s3 =
               gpuLog s2 ++ pipelineEvents s2 b name d ++
               [EvDrawIndexed b count (default 1 instances) first 0 0]).
Proof.
  intros Hreach [dv Hd] Hcs.
  pose proof (reachable_Configured s Hreach) as Hconf.
  pose proof (reachable_PassBelow s Hreach) as Hbelow.
  unfold startRecordBundle. eng_run. rewrite Hd. eng_fields.
  eexists. split; [reflexivity |]. eng_fields. rewrite Hconf.
  split; [reflexivity |]. split; [reflexivity |].
  match goal with
  | |- context [steps cs ?st] => set (s1 := st)
  end.
  destruct (SameBundle_steps cs s1 Hcs) as [Hb Hdev].
  assert (Hb2 : bundleEncoder (steps cs s1) = Some (nextHandle s))
    by (rewrite Hb; reflexivity).
  assert (Hd2 : is_Some (device (steps cs s1)))
    by (apply Hdev; subst s1; eng_fields; eauto).
  assert (Ht2 : renderTarget (steps cs s1) = Some (nextHandle s))
    by (unfold renderTarget; rewrite Hb2; reflexivity).
  assert (Hlive : NotLivePass (nextHandle s) (steps cs s1)).
  { apply (preserves_steps (Keeps (NotLivePass (nextHandle s)))
             (NotLivePass_exec (nextHandle s)) cs).
    subst s1. unfold NotLivePass. eng_fields. split; [lia |].
    intros Hp. specialize (Hbelow _ Hp). lia. }
  split; [exact Hb2 |]. split; [exact Ht2 |]. split; [apply Hlive |].
  split_and!.
  - intros groups. rewrite (setRenderBindGroups_on _ _ groups Ht2).
    eexists. split; reflexivity.
  - intros v. rewrite (bindVertexInputs_on _ _ v Ht2).
    eexists. split; reflexivity.
  - intros name d first count instances.
    destruct (drawArraysType_on _ _ name d first count instances Ht2 Hd2)
      as (s3 & H3 & Hl3 & _).
    exists s3. split; assumption.
  - intros name d first count instances.
    destruct (drawElementsType_on _ _ name d first count instances Ht2 Hd2)
      as (s3 & H3 & Hl3 & _).
    exists s3. split; assumption.
Qed.

Lemma startRecordBundle_fixed_formats_and_bundle_target_witness :
  ∃ s' s3,
    startRecordBundle sampleDrawing = Ok tt s' ∧
    bundleEncoder s' = Some 15%nat ∧
    currentRenderPass (steps [CSetRenderBindGroups [40%nat]] s')
      = Some 13%nat ∧
    drawArraysType "basic" vertexOnlyArgs 0 3 None
      (steps [CSetRenderBindGroups [40%nat]] s') = Ok tt s3 ∧
    gpuLog s3 =
      gpuLog (steps [CSetRenderBindGroups [40%nat]] s') ++
      [EvDraw 15%nat 3 1 0 0].
Proof.
  assert (Hd : is_Some (device sampleDrawing)) by (vm_compute; eauto).
  assert (Hn : nextHandle sampleDrawing = 15%nat)
    by (vm_compute; reflexivity).
  assert (Hrun : startRecordBundle sampleDrawing =
                 Ok tt (steps [CStartRecordBundle] sampleDrawing))
    by (vm_compute; reflexivity).
  assert (Hp : currentRenderPass
                 (steps [CSetRenderBindGroups [40%nat]]
                    (steps [CStartRecordBundle] sampleDrawing))
               = Some 13%nat)
    by (vm_compute; reflexivity).
  assert (He : pipelineEvents
                 (steps [CSetRenderBindGroups [40%nat]]
                    (steps [CStartRecordBundle] sampleDrawing))
                 15%nat "basic" vertexOnlyArgs = [])
    by (vm_compute; reflexivity).
  destruct (startRecordBundle_fixed_formats_and_bundle_target
              sampleDrawing [CSetRenderBindGroups [40%nat]]
              sampleDrawing_reachable Hd eq_refl)
    as (s' & Hs & _ & Hb & _ & _ & _ & _ & _ & Hdraw & _).
  destruct (Hdraw "basic" vertexOnlyArgs 0 3 None) as (s3 & H3 & Hl3).
  rewrite Hn in Hb, Hl3.
  assert (Hs' : s' = steps [CStartRecordBundle] sampleDrawing)
    by (rewrite Hrun in Hs; congruence).
  rewrite Hs' in Hb, H3, Hl3. rewrite He in Hl3.
  exists (steps [CStartRecordBundle] sampleDrawing), s3.
  split; [exact Hrun |]. split; [exact Hb |].
  split; [exact Hp |]. split; [exact H3 | exact Hl3].
Defined.

(** C8, as stated, fails: with no bundle open the call throws the
    [TypeError] of a method call on an absent encoder, not an
    [InvalidStateError]. *)
Lemma stopRecordBundle_throws_TypeError :
  bundleEncoder sampleFrame = None ∧
  stopRecordBundle sampleFrame = Throw TypeError sampleFrame ∧
  stopRecordBundle sampleFrame ≠ Throw InvalidStateError sampleFrame.
Proof.
  assert (H : stopRecordBundle sampleFrame = Throw TypeError sampleFrame)
    by (vm_compute; reflexivity).
  split; [vm_compute; reflexivity |]. split; [exact H |].
  rewrite H. discriminate.
Qed.

(** C8, as amended.  With a bundle open, [stopRecordBundle] finishes the
    encoder, returns the bundle and clears the bundle context, so that
    the render target is the live pass again; with no bundle open it
    throws a [TypeError] at once and changes nothing. *)
Theorem stopRecordBundle_finishes_or_throws_TypeError s :
  match bundleEncoder s with
  | Some b =>
      ∃ s', stopRecordBundle s = Ok (nextHandle s) s' ∧
            gpuLog s' = gpuLog s ++ [EvBundleFinish b (nextHandle s)] ∧
            bundleEncoder s' = None ∧
            renderTarget s' = currentRenderPass s
  | None => stopRecordBundle s = Throw TypeError s
  end.
Proof.
  unfold stopRecordBundle. eng_run.
  destruct (bundleEncoder s) eqn:E; eng_fields; [| reflexivity].
  eexists. split; [reflexivity |]. unfold renderTarget. eng_fields. auto.
Qed.

(** * Compute *)

(** C9.  With no compute pass open, [dispatch] returns without an error
    and leaves the whole state, log of GPU calls included, as it was. *)
Theorem dispatch_without_compute_pass_is_noop s num :
  currentComputePass s = None ->
  dispatch num s = Ok tt s.
Proof. intros H. unfold dispatch. eng_run. rewrite H. reflexivity. Qed.

Lemma dispatch_without_compute_pass_is_noop_witness :
  dispatch 64 sampleFrame = Ok tt sampleFrame.
Proof.
  assert (H : currentComputePass sampleFrame = None)
    by (vm_compute; reflexivity).
  exact (dispatch_without_compute_pass_is_noop sampleFrame 64 H).
Defined.

(** * Resizing *)

(** C10.  On an initialised engine, [setSize] gives the same result for
    any two pairs of arguments; it returns, sets the extent to the
    canvas's current width and height, creates no texture of another
    size, and creates the depth texture, and with antialiasing the colour
    texture, of that size. *)
Theorem setSize_ignores_its_arguments s w1 h1 w2 h2 :
  is_Some (device s) ->
  is_Some (swapChain s) ->
  setSize w1 h1 s = setSize w2 h2 s ∧
  ∃ evs s',
    setSize w1 h1 s = Ok tt s' ∧
    gpuLog s' = gpuLog s ++ evs ∧
    mainTextureExtends s' = Some (canvasExtent s) ∧
    Forall (sizedBy (canvasExtent s)) evs ∧
    (∃ t, depthTexture s' = Some t ∧
          Exists (createsTexture "depth24plus-stencil8" (canvasExtent s) t)
            evs) ∧
    if antialiasing (options s)
    then ∃ t, mainTexture s' = Some t ∧
              Exists (createsTexture "bgra8unorm" (canvasExtent s) t) evs
    else mainTexture s' = mainTexture s.
Proof.
  intros [dv Hd] [sc Hsc]. split; [reflexivity |].
  unfold setSize, initMainAttachments, currentTextureView, destroyTexture,
    canvasExtent.
  eng_run. rewrite ?Hd, ?Hsc.
  destruct (antialiasing (options s)) eqn:Haa; eng_fields;
    rewrite ?Hd, ?Hsc; eng_fields;
    destruct (mainTexture s) eqn:Hm; eng_fields; rewrite ?Hd; eng_fields;
    destruct (depthTexture s) eqn:Hdt; eng_fields; rewrite ?Hd; eng_fields.
  all: do 2 eexists; split; [reflexivity |]; eng_fields.
  all: rewrite <- ?app_assoc; split; [reflexivity |]; simpl.
  all: split; [reflexivity |].
  all: split; [repeat constructor |].
  all: split; [eexists; split; [reflexivity |] |].
  all: try (eexists; split; [reflexivity |]).
  all: try assumption.
  all: unfold createsTexture;
    repeat first [ solve [apply Exists_cons_hd; simpl; auto]
                 | apply Exists_cons_tl ].
Qed.

Lemma setSize_ignores_its_arguments_witness :
  setSize 400 300 (steps [CResizeCanvas 640 480] sampleReady) =
  setSize 1 1 (steps [CResizeCanvas 640 480] sampleReady) ∧
  ∃ s', setSize 400 300 (steps [CResizeCanvas 640 480] sampleReady)
          = Ok tt s' ∧
        mainTextureExtends s' =
          Some {| ext_width := 640; ext_height := 480; ext_depth := 1 |}.
Proof.
  assert (Hd : is_Some (device (steps [CResizeCanvas 640 480] sampleReady)))
    by (vm_compute; eauto).
  assert (Hs : is_Some
                 (swapChain (steps [CResizeCanvas 640 480] sampleReady)))
    by (vm_compute; eauto).
  assert (He : canvasExtent (steps [CResizeCanvas 640 480] sampleReady) =
               {| ext_width := 640; ext_height := 480; ext_depth := 1 |})
    by (vm_compute; reflexivity).
  destruct (setSize_ignores_its_arguments
              (steps [CResizeCanvas 640 480] sampleReady) 400 300 1 1 Hd Hs)
    as (Heq & evs & s' & Hrun & _ & Hext & _).
  rewrite He in Hext.
  split; [exact Heq |]. exists s'. split; [exact Hrun | exact Hext].
Defined.

(** * Beginning a frame *)

(** X1.  [beginFrame] on an engine without a device throws a TypeError and
    changes nothing.  With a device it creates three command encoders,
    labelled upload, render and compute in that order, and stores them
    over whatever encoders were there; the open passes and the registered
    staging buffers are left as they are. *)
Theorem beginFrame_replaces_encoders s :
  match device s with
  | None => beginFrame s = Throw TypeError s
  | Some _ =>
      ∃ s', let n := nextHandle s in
        beginFrame s = Ok tt s' ∧
        gpuLog s' =
          gpuLog s ++
          [EvCreateCommandEncoder "upload" n;
           EvCreateCommandEncoder "render" (S n);
           EvCreateCommandEncoder "compute" (S (S n))] ∧
        uploadEncoder s' = Some n ∧ renderEncoder s' = Some (S n) ∧
        computeEncoder s' = Some (S (S n)) ∧
        currentRenderPass s' = currentRenderPass s ∧
        currentComputePass s' = currentComputePass s ∧
        tempBuffers s' = tempBuffers s
  end.
Proof.
  unfold beginFrame, createCommandEncoder. eng_run.
  destruct (device s) eqn:Hd; eng_fields; [| reflexivity].
  rewrite Hd. eng_fields. rewrite Hd. eng_fields.
  eexists. split; [reflexivity |]. eng_fields.
  rewrite <- !app_assoc. repeat split; reflexivity.
Qed.

(** * Dispose *)

Lemma dispose_run s :
  ∃ s', dispose s = Ok tt s' ∧
        gpuLog s' = gpuLog s ++ disposeEvents s ∧
        mainTexture s' = mainTexture s ∧ depthTexture s' = depthTexture s.
Proof.
  unfold dispose, destroyTexture, disposeEvents. eng_run.
  destruct (mainTexture s) eqn:Hm, (depthTexture s) eqn:Hd; eng_fields.
  all: rewrite ?Hd; eexists; split; [reflexivity |]; eng_fields.
  all: rewrite <- ?app_assoc, ?app_nil_r; simpl; auto.
Qed.

(** X2.  [dispose] destroys the main texture and the depth texture when they
    exist, and keeps both handles in the engine: a second [dispose] returns
    too and issues the same destroy calls once more. *)
Theorem dispose_keeps_the_handles s :
  ∃ s1 s2,
    dispose s = Ok tt s1 ∧ dispose s1 = Ok tt s2 ∧
    gpuLog s1 = gpuLog s ++ disposeEvents s ∧
    mainTexture s1 = mainTexture s ∧ depthTexture s1 = depthTexture s ∧
    gpuLog s2 = gpuLog s ++ disposeEvents s ++ disposeEvents s.
Proof.
  destruct (dispose_run s) as (s1 & H1 & Hl1 & Hm1 & Hd1).
  destruct (dispose_run s1) as (s2 & H2 & Hl2 & _).
  exists s1, s2. repeat split; auto.
  rewrite Hl2, Hl1, <- app_assoc. unfold disposeEvents.
  rewrite Hm1, Hd1. reflexivity.
Qed.

(** * The registry of staging buffers *)

(** X3.  [setSubData] registers its staging buffer for release, at the end
    of the registry, only when it returns; whenever it throws, the registry
    is what it was. *)
Theorem setSubData_registers_only_on_return dest off view s :
  match setSubData dest off view s with
  | Ok _ s' => tempBuffers s' = tempBuffers s ++ [nextHandle s]
  | Throw _ s' => tempBuffers s' = tempBuffers s
  end.
Proof.
  unfold setSubData, typedArraySet. cbv zeta. eng_run. eng_cases; reflexivity.
Qed.

(** X4.  When the view passed to [setSubData] is a window on a buffer that
    is longer than the view's byte length, the whole underlying buffer is
    copied into the staging buffer and does not fit: the call throws a
    RangeError after the staging buffer was created, and the buffer is
    neither unmapped, copied from nor registered for release. *)
Theorem setSubData_window_throws_RangeError dest off view s :
  is_Some (device s) ->
  (Z.to_nat (byteLength view) < length (buffer view))%nat ->
  ∃ s', setSubData dest off view s = Throw RangeError s' ∧
        gpuLog s' =
          gpuLog s ++ [EvCreateBufferMapped (byteLength view) 4 (nextHandle s)] ∧
        tempBuffers s' = tempBuffers s.
Proof.
  intros [dv Hd] Hlen. unfold setSubData, typedArraySet. cbv zeta.
  eng_run. rewrite Hd. eng_fields. rewrite length_replicate.
  destruct (decide _) as [Hle|_]; [lia |].
  eexists. split; [reflexivity |]. eng_fields. auto.
Qed.

Lemma setSubData_window_throws_RangeError_witness :
  ∃ s', setSubData 99%nat 0 windowView sampleFrame = Throw RangeError s' ∧
        tempBuffers s' = tempBuffers sampleFrame.
Proof.
  assert (Hd : is_Some (device sampleFrame)) by (vm_compute; eauto).
  assert (Hl : (Z.to_nat (byteLength windowView)
                < length (buffer windowView))%nat) by (vm_compute; lia).
  destruct (setSubData_window_throws_RangeError
              99%nat 0 windowView sampleFrame Hd Hl) as (s' & H & _ & Ht).
  exists s'. split; [exact H | exact Ht].
Defined.

(** * Draws without a target *)



(** * Bindings *)

(** X6.  [setRenderBindGroups] binds the [k]-th group of its list at slot
    [k] of the bundle or render pass being recorded, in order.  With no
    target it throws a TypeError at the first group, and returns without
    effect for an empty list. *)
Theorem setRenderBindGroups_binds_consecutive_slots groups s :
  match renderTarget s with
  | Some t =>
      ∃ s', setRenderBindGroups groups s = Ok tt s' ∧
            gpuLog s' = gpuLog s ++ bindGroupEvents t groups
  | None =>
      match groups with
      | [] => setRenderBindGroups groups s = Ok tt s
      | _ :: _ => setRenderBindGroups groups s = Throw TypeError s
      end
  end.
Proof.
  unfold setRenderBindGroups, bindGroupEvents. unfold mbind, Eng_bind, gets.
  destruct (renderTarget s) as [t|].
  - rewrite setBindGroupsFrom_run. eexists. split; [reflexivity |].
    eng_fields. reflexivity.
  - destruct groups; reflexivity.
Qed.

(** X7.  [setComputeBindGroups] binds the [k]-th group at slot [k] of the
    open compute pass, and does nothing at all, without an error, when no
    compute pass is open. *)
Theorem setComputeBindGroups_needs_a_compute_pass groups s :
  match currentComputePass s with
  | Some p =>
      ∃ s', setComputeBindGroups groups s = Ok tt s' ∧
            gpuLog s' = gpuLog s ++ bindGroupEvents p groups
  | None => setComputeBindGroups groups s = Ok tt s
  end.
Proof.
  unfold setComputeBindGroups, bindGroupEvents. unfold mbind, Eng_bind, gets.
  destruct (currentComputePass s) as [p|]; [| reflexivity].
  rewrite setBindGroupsFrom_run. eexists. split; [reflexivity |].
  eng_fields. reflexivity.
Qed.

(** X8.  [bindVertexInputs] sets the index buffer when there is one, then
    one vertex buffer per entry that is present: an absent entry is skipped
    but still counts for the slot, which is the start slot plus the entry's
    position, and for the offset, which is the one at that position. *)
Theorem bindVertexInputs_skips_absent_buffers v s t :
  renderTarget s = Some t ->
  ∃ s', bindVertexInputs v s = Ok tt s' ∧
        gpuLog s' =
          gpuLog s ++
          option_list
            ((fun ib => EvSetIndexBuffer t ib (indexOffset v))
               <$> indexBuffer v) ++
          vertexBufferEvents t v.
Proof.
  intros Ht. unfold bindVertexInputs, vertexBufferEvents.
  unfold mbind at 1, Eng_bind, gets. rewrite Ht.
  destruct (indexBuffer v) as [ib|]; eng_run;
    rewrite setVertexBuffersFrom_run; eng_fields;
    (eexists; split; [reflexivity |]); eng_fields;
    rewrite <- ?app_assoc; reflexivity.
Qed.

Lemma bindVertexInputs_skips_absent_buffers_witness :
  ∃ s', bindVertexInputs
          {| indexBuffer := None; indexOffset := 0; vertexStartSlot := 2;
             vertexBuffers := [Some 50%nat; None; Some 51%nat];
             vertexOffsets := [0; 16] |} sampleDrawing = Ok tt s' ∧
        gpuLog s' =
          gpuLog sampleDrawing ++
          [EvSetVertexBuffer 13%nat 2 50%nat (Some 0);
           EvSetVertexBuffer 13%nat 4 51%nat None].
Proof.
  assert (Ht : renderTarget sampleDrawing = Some 13%nat)
    by (vm_compute; reflexivity).
  destruct (bindVertexInputs_skips_absent_buffers
              {| indexBuffer := None; indexOffset := 0; vertexStartSlot := 2;
                 vertexBuffers := [Some 50%nat; None; Some 51%nat];
                 vertexOffsets := [0; 16] |} sampleDrawing 13%nat Ht)
    as (s' & H & Hl).
  exists s'. split; [exact H | exact Hl].
Defined.

(** * Buffers from arrays of numbers *)

Lemma createBuffer_run view flags s u :
  is_Some (device s) ->
  uploadEncoder s = Some u ->
  spansBuffer view ->
  let len := byteLength view in
  let n := nextHandle s in
  ∃ s', createBuffer view flags s = Ok n s' ∧
        gpuLog s' =
          gpuLog s ++
          [EvCreateBuffer (len + Z.rem len 4) flags n;
           EvCreateBufferMapped len 4 (S n); EvUnmap (S n) (buffer view);
           EvCopyBufferToBuffer u (S n) 0 n 0 len] ∧
        tempBuffers s' = tempBuffers s ++ [S n].
Proof.
  intros Hd Hu Hv len n. unfold createBuffer. cbv zeta.
  destruct Hd as [dv Hd]. unfold mbind at 1, Eng_bind, theDevice.
  unfold mbind at 1, Eng_bind, gets, deref. rewrite Hd.
  cbn [mret Eng_ret]. unfold mbind at 1, Eng_bind, create.
  unfold mbind at 1, Eng_bind, freshHandle.
  unfold mbind at 1, Eng_bind, emit, modify. cbn [mret Eng_ret].
  unfold mbind at 1, Eng_bind.
  rewrite (setSubData_run n 0 view _ u); [| eng_fields; eauto ..].
  eexists. split; [reflexivity |]. eng_fields.
  rewrite <- !app_assoc. split; reflexivity.
Qed.

Lemma Float32Array_of_length floats :
  length (buffer (Float32Array_of floats)) = (4 * length floats)%nat.
Proof.
  unfold Float32Array_of, Uint8Array_of. cbn [buffer].
  induction floats as [|[[[a b] c] d] rest IH]; simpl; [reflexivity |].
  rewrite IH. lia.
Qed.

Lemma Float32Array_of_spans floats : spansBuffer (Float32Array_of floats).
Proof. split; reflexivity. Qed.

Lemma vertex_flags usage :
  let flags :=
    js_bitor (js_bitor WebGPUConstants.BufferUsage.Vertex
                       WebGPUConstants.BufferUsage.CopyDst) usage in
  Z.testbit flags 5 = true ∧ Z.testbit flags 3 = true.
Proof.
  cbv zeta.
  change (js_bitor WebGPUConstants.BufferUsage.Vertex
                   WebGPUConstants.BufferUsage.CopyDst) with 40.
  unfold js_bitor. change (toInt32 40) with 40.
  rewrite !Z.lor_spec. split; reflexivity.
Qed.

(** X9.  For an array of numbers, [createVertexBuffer] and
    [createUniformBuffer] convert it to 32-bit floats: the buffer created
    and the upload both have four bytes per number, so the size needs no
    padding.  A vertex buffer always has the Vertex and CopyDst usages,
    whatever usage was asked for; a uniform buffer has Uniform and
    CopyDst. *)
Theorem createVertexBuffer_of_numbers s u floats usage :
  is_Some (device s) ->
  uploadEncoder s = Some u ->
  let len := 4 * Z.of_nat (length floats) in
  let bytes := buffer (Float32Array_of floats) in
  let n := nextHandle s in
  (∃ flags s',
     createVertexBuffer (DataArray floats) usage s = Ok n s' ∧
     gpuLog s' =
       gpuLog s ++
       [EvCreateBuffer len flags n; EvCreateBufferMapped len 4 (S n);
        EvUnmap (S n) bytes; EvCopyBufferToBuffer u (S n) 0 n 0 len] ∧
     Z.testbit flags 5 = true ∧ Z.testbit flags 3 = true) ∧
  (∃ s',
     createUniformBuffer (DataArray floats) s = Ok n s' ∧
     gpuLog s' =
       gpuLog s ++
       [EvCreateBuffer len 72 n; EvCreateBufferMapped len 4 (S n);
        EvUnmap (S n) bytes; EvCopyBufferToBuffer u (S n) 0 n 0 len]).
Proof.
  intros Hd Hu len bytes n.
  assert (Hlen : byteLength (Float32Array_of floats) = len).
  { unfold len. change (byteLength (Float32Array_of floats))
      with (Z.of_nat (length (buffer (Float32Array_of floats)))).
    rewrite Float32Array_of_length. lia. }
  assert (Hrem : len + Z.rem len 4 = len).
  { unfold len. rewrite Z.mul_comm, Z.rem_mul by lia. lia. }
  split.
  - unfold createVertexBuffer. cbv zeta. cbn [viewOf].
    destruct (createBuffer_run (Float32Array_of floats)
                (js_bitor (js_bitor WebGPUConstants.BufferUsage.Vertex
                                    WebGPUConstants.BufferUsage.CopyDst)
                          (default 0 usage))
                s u Hd Hu (Float32Array_of_spans floats))
      as (s' & Hrun & Hlog & _).
    rewrite Hlen, Hrem in Hlog.
    eexists. exists s'. split; [exact Hrun |]. split; [exact Hlog |].
    apply vertex_flags.
  - unfold createUniformBuffer. cbn [viewOf].
    destruct (createBuffer_run (Float32Array_of floats)
                (js_bitor WebGPUConstants.BufferUsage.Uniform
                          WebGPUConstants.BufferUsage.CopyDst)
                s u Hd Hu (Float32Array_of_spans floats))
      as (s' & Hrun & Hlog & _).
    rewrite Hlen, Hrem in Hlog.
    exists s'. split; [exact Hrun | exact Hlog].
Qed.

Lemma createVertexBuffer_of_numbers_witness :
  ∃ flags s',
    createVertexBuffer
      (DataArray [(x00, x00, x80, x3f); (x00, x00, x00, x40);
                  (x00, x00, x40, x40)]) None sampleFrame = Ok 11%nat s' ∧
    gpuLog s' =
      gpuLog sampleFrame ++
      [EvCreateBuffer 12 flags 11%nat; EvCreateBufferMapped 12 4 12%nat;
       EvUnmap 12%nat
         [x00; x00; x80; x3f; x00; x00; x00; x40; x00; x00; x40; x40];
       EvCopyBufferToBuffer 8%nat 12%nat 0 11%nat 0 12].
Proof.
  assert (Hd : is_Some (device sampleFrame)) by (vm_compute; eauto).
  assert (Hu : uploadEncoder sampleFrame = Some 8%nat)
    by (vm_compute; reflexivity).
  assert (Hn : nextHandle sampleFrame = 11%nat) by (vm_compute; reflexivity).
  destruct (createVertexBuffer_of_numbers sampleFrame 8%nat
              [(x00, x00, x80, x3f); (x00, x00, x00, x40);
               (x00, x00, x40, x40)] None Hd Hu)
    as [(flags & s' & Hrun & Hlog & _) _].
  rewrite Hn in Hrun, Hlog.
  exists flags, s'. split; [exact Hrun | exact Hlog].
Defined.

(** * Defaults of a compiled pipeline *)

Lemma spreadRasterization_complete o :
  let r := spreadRasterization getDefaultRasterizationStateDescriptor o in
  frontFace r = overDefault "ccw" frontFace o ∧
  cullMode r = overDefault "none" cullMode o ∧
  depthBias r = overDefault 0 depthBias o ∧
  depthBiasSlopeScale r = overDefault 0 depthBiasSlopeScale o ∧
  depthBiasClamp r = overDefault 0 depthBiasClamp o.
Proof.
  destruct o as [[[| |?] [| |?] [| |?] [| |?] [| |?]]|];
    repeat split; reflexivity.
Qed.

Lemma spreadDepthStencil_complete o :
  let r := spreadDepthStencil getDefaultDepthStencilStateDescriptor o in
  let keep :=
    {| compare := "always"; depthFailOp := "keep"; failOp := "keep";
       passOp := "keep" |} in
  depthWriteEnabled r = overDefault false depthWriteEnabled o ∧
  depthCompare r = overDefault "always" depthCompare o ∧
  ds_format r = overDefault "depth24plus-stencil8" ds_format o ∧
  stencilFront r = overDefault keep stencilFront o ∧
  stencilBack r = overDefault keep stencilBack o ∧
  stencilReadMask r = overDefault 4294967295 stencilReadMask o ∧
  stencilWriteMask r = overDefault 4294967295 stencilWriteMask o.
Proof.
  destruct o as [[dw dc df sf sb rm wm]|]; [| repeat split; reflexivity].
  cbv zeta. unfold spreadDepthStencil, overDefault. simpl.
  split_and!.
  - destruct dw; reflexivity.
  - destruct dc; reflexivity.
  - destruct df; reflexivity.
  - destruct sf; reflexivity.
  - destruct sb; reflexivity.
  - destruct rm; reflexivity.
  - destruct wm; reflexivity.
Qed.

(** X10.  For a name the mapping resolves to nothing, the descriptor
    [getRenderPipeline] compiles takes the sample count of the main pass,
    the two stages, the layout and the vertex state from the caller; the
    topology defaults to triangle-list, also for an empty string; the
    colour states default to the engine's; and every property of the
    rasterization and depth-stencil states is the default where the
    caller's state or its property is absent, and the caller's where the
    property is present, also when its value is [undefined], which then
    replaces the default. *)
Theorem compiled_pipeline_fills_defaults s name d vs fs :
  is_Some (device s) ->
  js_get (pipelines s) name = None ->
  vertexStage d = Some vs ->
  fragmentStage d = Some fs ->
  ∃ full s', let h := nextHandle s in
    let keep :=
      {| compare := "always"; depthFailOp := "keep"; failOp := "keep";
         passOp := "keep" |} in
    let r := rp_rasterizationState full in
    let ds := rp_depthStencilState full in
    let rs := rasterizationState d in
    let dss := depthStencilState d in
    getRenderPipeline name d s = Ok (Some (Own h)) s' ∧
    gpuLog s' = gpuLog s ++ [EvCreateRenderPipeline full h] ∧
    pipelines s' = <[name := h]> (pipelines s) ∧
    rp_sampleCount full = mainPassSampleCount s ∧
    rp_vertexStage full = vs ∧ rp_fragmentStage full = fs ∧
    rp_layout full = layout d ∧ rp_vertexState full = vertexState d ∧
    rp_primitiveTopology full =
      match primitiveTopology d with
      | Some t => if decide (t = "") then "triangle-list" else t
      | None => "triangle-list"
      end ∧
    rp_colorStates full =
      default (getDefaultColorStateDescriptors (options s)) (colorStates d) ∧
    frontFace r = overDefault "ccw" frontFace rs ∧
    cullMode r = overDefault "none" cullMode rs ∧
    depthBias r = overDefault 0 depthBias rs ∧
    depthBiasSlopeScale r = overDefault 0 depthBiasSlopeScale rs ∧
    depthBiasClamp r = overDefault 0 depthBiasClamp rs ∧
    depthWriteEnabled ds = overDefault false depthWriteEnabled dss ∧
    depthCompare ds = overDefault "always" depthCompare dss ∧
    ds_format ds = overDefault "depth24plus-stencil8" ds_format dss ∧
    stencilFront ds = overDefault keep stencilFront dss ∧
    stencilBack ds = overDefault keep stencilBack dss ∧
    stencilReadMask ds = overDefault 4294967295 stencilReadMask dss ∧
    stencilWriteMask ds = overDefault 4294967295 stencilWriteMask dss.
Proof.
  intros Hd Hp Hv Hf.
  exists (renderPipelineDescriptor s d vs fs). eexists. cbv zeta.
  rewrite (getRenderPipeline_compile name d s vs fs Hp Hv Hf Hd).
  split; [reflexivity |]. eng_fields.
  do 7 (split; [reflexivity |]).
  split.
  { unfold renderPipelineDescriptor. cbn [rp_primitiveTopology].
    destruct (primitiveTopology d) as [[|c t]|]; reflexivity. }
  split; [reflexivity |].
  unfold renderPipelineDescriptor.
  cbn [rp_rasterizationState rp_depthStencilState].
  pose proof (spreadRasterization_complete (rasterizationState d)) as Hr.
  pose proof (spreadDepthStencil_complete (depthStencilState d)) as Hs.
  cbv zeta in Hr, Hs. intuition.
Qed.

Lemma compiled_pipeline_fills_defaults_witness :
  ∃ full s',
    getRenderPipeline "basic" partialArgs sampleFrame
      = Ok (Some (Own 11%nat)) s' ∧
    gpuLog s' = gpuLog sampleFrame ++ [EvCreateRenderPipeline full 11%nat] ∧
    rp_primitiveTopology full = "triangle-list" ∧
    frontFace (rp_rasterizationState full) = Undefined ∧
    cullMode (rp_rasterizationState full) = Given "back" ∧
    depthBias (rp_rasterizationState full) = Given 0 ∧
    depthCompare (rp_depthStencilState full) = Given "always" ∧
    stencilWriteMask (rp_depthStencilState full) = Given 4294967295.
Proof.
  assert (Hd : is_Some (device sampleFrame)) by (vm_compute; eauto).
  assert (Hp : js_get (pipelines sampleFrame) "basic" = None)
    by (vm_compute; reflexivity).
  assert (Hn : nextHandle sampleFrame = 11%nat) by (vm_compute; reflexivity).
  destruct (compiled_pipeline_fills_defaults
              sampleFrame "basic" partialArgs sampleStage sampleStage
              Hd Hp eq_refl eq_refl)
    as (full & s' & H).
  cbv zeta in H. rewrite Hn in H.
  destruct H as (Hrun & Hlog & _ & _ & _ & _ & _ & _ & Htopo & _ &
                 Hff & Hcull & Hbias & _ & _ & _ & Hcmp & _ & _ & _ & _ &
                 Hmask).
  exists full, s'. split_and!; assumption.
Defined.

(** * The caches never lose an entry *)

Ltac cached_leaf := intros; unfold Keeps; eng_fields; auto.

Lemma cached_getRenderPipeline name h n d :
  preserves (Keeps (fun s => pipelines s !! name = Some h))
    (getRenderPipeline n d).
Proof.
  intros s Hs. unfold getRenderPipeline. eng_run.
  destruct (js_get (pipelines s) n) eqn:Hg; eng_fields; [exact Hs |].
  apply js_get_None in Hg. eng_cases; auto.
  rewrite lookup_insert_ne; [exact Hs |]. intros ->. congruence.
Qed.

Lemma cached_destroyAll name h buffers :
  preserves (Keeps (fun s => pipelines s !! name = Some h))
    (destroyAll buffers).
Proof.
  induction buffers as [|b rest IH]; simpl;
    preserve_with ltac:(apply IH) cached_leaf.
Qed.

Lemma cached_setBindGroupsFrom name h target groups :
  ∀ i, preserves (Keeps (fun s => pipelines s !! name = Some h))
         (setBindGroupsFrom target i groups).
Proof.
  induction groups as [|g rest IH]; intros i; simpl;
    preserve_with ltac:(apply IH) cached_leaf.
Qed.

Lemma cached_setVertexBuffersFrom name h target slot offsets buffers :
  ∀ i, preserves (Keeps (fun s => pipelines s !! name = Some h))
         (setVertexBuffersFrom target slot offsets i buffers).
Proof.
  induction buffers as [|b rest IH]; intros i; simpl;
    preserve_with ltac:(apply IH) cached_leaf.
Qed.

Lemma cached_exec name h c :
  preserves (Keeps (fun s => pipelines s !! name = Some h)) (exec c).
Proof.
  destruct c; simpl;
    preserve_with
      ltac:(idtac; lazymatch goal with
            | |- preserves _ (getRenderPipeline _ _) =>
                apply cached_getRenderPipeline
            | |- preserves _ (destroyAll _) => apply cached_destroyAll
            | |- preserves _ (setBindGroupsFrom _ _ _) =>
                apply cached_setBindGroupsFrom
            | |- preserves _ (setVertexBuffersFrom _ _ _ _ _) =>
                apply cached_setVertexBuffersFrom
            end)
      cached_leaf.
Qed.

Lemma computeCached_setComputePipeline name h n d :
  preserves (Keeps (fun s => computePipelines s !! name = Some h))
    (setComputePipeline n d).
Proof.
  intros s Hs. unfold setComputePipeline. eng_run.
  destruct (js_get (computePipelines s) n) eqn:Hg; eng_fields.
  - eng_cases; auto.
  - apply js_get_None in Hg. eng_cases; auto.
    all: rewrite lookup_insert_ne; [exact Hs |]; intros ->; congruence.
Qed.

Lemma computeCached_destroyAll name h buffers :
  preserves (Keeps (fun s => computePipelines s !! name = Some h))
    (destroyAll buffers).
Proof.
  induction buffers as [|b rest IH]; simpl;
    preserve_with ltac:(apply IH) cached_leaf.
Qed.

Lemma computeCached_setBindGroupsFrom name h target groups :
  ∀ i, preserves (Keeps (fun s => computePipelines s !! name = Some h))
         (setBindGroupsFrom target i groups).
Proof.
  induction groups as [|g rest IH]; intros i; simpl;
    preserve_with ltac:(apply IH) cached_leaf.
Qed.

Lemma computeCached_setVertexBuffersFrom name h target slot offsets buffers :
  ∀ i, preserves (Keeps (fun s => computePipelines s !! name = Some h))
         (setVertexBuffersFrom target slot offsets i buffers).
Proof.
  induction buffers as [|b rest IH]; intros i; simpl;
    preserve_with ltac:(apply IH) cached_leaf.
Qed.

Lemma computeCached_exec name h c :
  preserves (Keeps (fun s => computePipelines s !! name = Some h)) (exec c).
Proof.
  destruct c; simpl;
    preserve_with
      ltac:(idtac; lazymatch goal with
            | |- preserves _ (setComputePipeline _ _) =>
                apply computeCached_setComputePipeline
            | |- preserves _ (destroyAll _) => apply computeCached_destroyAll
            | |- preserves _ (setBindGroupsFrom _ _ _) =>
                apply computeCached_setBindGroupsFrom
            | |- preserves _ (setVertexBuffersFrom _ _ _ _ _) =>
                apply computeCached_setVertexBuffersFrom
            end)
      cached_leaf.
Qed.

(** X11.  An entry of the render-pipeline cache is never replaced or
    removed: whatever calls follow, [dispose] and a second [init] included,
    the name stays bound to the same pipeline. *)
Theorem cached_render_pipeline_is_never_replaced s cs name h :
  pipelines s !! name = Some h ->
  pipelines (steps cs s) !! name = Some h.
Proof.
  apply (preserves_steps
           (Keeps (fun s => pipelines s !! name = Some h))
           (cached_exec name h) cs).
Qed.

(** X12.  An entry of the compute-pipeline cache is never replaced or
    removed, whatever calls follow. *)
Theorem cached_compute_pipeline_is_never_replaced s cs name h :
  computePipelines s !! name = Some h ->
  computePipelines (steps cs s) !! name = Some h.
Proof.
  apply (preserves_steps
           (Keeps (fun s => computePipelines s !! name = Some h))
           (computeCached_exec name h) cs).
Qed.

Lemma cached_render_pipeline_is_never_replaced_witness :
  pipelines
    (steps [CDrawArraysType "basic" vertexOnlyArgs 0 3 None; CEndFrame;
            CDispose; CInit cooperative; CBeginFrame]
       (steps [CDrawArraysType "basic" fullArgs 0 3 None] sampleDrawing))
    !! "basic" = Some 15%nat.
Proof.
  apply cached_render_pipeline_is_never_replaced.
  vm_compute. reflexivity.
Defined.

Lemma cached_compute_pipeline_is_never_replaced_witness :
  computePipelines
    (steps [CSetComputePipeline "blur" (sampleCompute "other"); CEndFrame;
            CDispose; CInit cooperative; CBeginFrame]
       (steps [CSetComputePipeline "blur" (sampleCompute "main")]
          sampleDrawing))
    !! "blur" = Some 15%nat.
Proof.
  apply cached_compute_pipeline_is_never_replaced.
  vm_compute. reflexivity.
Defined.

(** * Compute passes *)

Lemma openComputePasses_snoc log e :
  openComputePasses (log ++ [e]) = computeStep (openComputePasses log) e.
Proof. unfold openComputePasses. rewrite fold_left_app. reflexivity. Qed.

Ltac compute_leaf :=
  intros; unfold Keeps, ComputeInv; eng_fields;
  intros [Hopen Hsup];
  split;
  [ first [assumption | rewrite openComputePasses_snoc; exact Hopen]
  | assumption ].

(** The open compute passes of a log that grew by a few known events. *)
Ltac open_compute :=
  rewrite ?openComputePasses_snoc; use_eqs; unfold option_list;
  cbn [computeStep option_rect];
  rewrite ?filter_cons_False by naive_solver; rewrite ?filter_nil;
  reflexivity.

Lemma ComputeInv_endComputePass : preserves (Keeps ComputeInv) endComputePass.
Proof.
  intros s [Hopen Hsup]. unfold endComputePass, ComputeInv.
  eng_run. destruct (currentComputePass s) as [p|] eqn:E; eng_fields.
  - split; [open_compute | reflexivity].
  - rewrite E. split; assumption.
Qed.

Lemma ComputeInv_guarded_startComputePass :
  preserves (Keeps ComputeInv)
    (gets (fun s => supportCompute (options s))
     ≫= (fun sc => when sc startComputePass)).
Proof.
  intros s [Hopen Hsup]. unfold startComputePass, endComputePass, ComputeInv.
  eng_run. eng_cases.
  all: split; [open_compute | first [congruence | use_eqs; assumption]].
Qed.

Lemma ComputeInv_destroyAll buffers :
  preserves (Keeps ComputeInv) (destroyAll buffers).
Proof.
  induction buffers as [|b rest IH]; simpl;
    preserve_with ltac:(apply IH) compute_leaf.
Qed.

Lemma ComputeInv_setBindGroupsFrom target groups :
  ∀ i, preserves (Keeps ComputeInv) (setBindGroupsFrom target i groups).
Proof.
  induction groups as [|g rest IH]; intros i; simpl;
    preserve_with ltac:(apply IH) compute_leaf.
Qed.

Lemma ComputeInv_setVertexBuffersFrom target slot offsets buffers :
  ∀ i, preserves (Keeps ComputeInv)
         (setVertexBuffersFrom target slot offsets i buffers).
Proof.
  induction buffers as [|b rest IH]; intros i; simpl;
    preserve_with ltac:(apply IH) compute_leaf.
Qed.

Lemma ComputeInv_exec c : preserves (Keeps ComputeInv) (exec c).
Proof.
  destruct c; simpl;
    preserve_with
      ltac:(idtac; lazymatch goal with
            | |- preserves _ endComputePass =>
                apply ComputeInv_endComputePass
            | |- preserves _ (gets _ ≫= (fun sc => when sc startComputePass)) =>
                apply ComputeInv_guarded_startComputePass
            | |- preserves _ (destroyAll _) => apply ComputeInv_destroyAll
            | |- preserves _ (setBindGroupsFrom _ _ _) =>
                apply ComputeInv_setBindGroupsFrom
            | |- preserves _ (setVertexBuffersFrom _ _ _ _ _) =>
                apply ComputeInv_setVertexBuffersFrom
            end)
      compute_leaf.
Qed.

Lemma reachable_ComputeInv s : reachable s -> ComputeInv s.
Proof.
  intros (cv & gpu & opts & cs & ->).
  apply (preserves_steps (Keeps ComputeInv) ComputeInv_exec cs).
  split; [reflexivity | intros _; reflexivity].
Qed.

(** ** Never two compute passes at once *)

Lemma atMostOneComputeOpen_nil : atMostOneComputeOpen [].
Proof.
  intros l Hl. apply prefix_nil_inv in Hl. subst l. simpl. lia.
Qed.

Lemma atMostOneComputeOpen_snoc log e :
  atMostOneComputeOpen log ->
  (length (openComputePasses (log ++ [e])) ≤ 1)%nat ->
  atMostOneComputeOpen (log ++ [e]).
Proof.
  intros Hlog He l [k Hk]. destruct k as [|x k _] using rev_ind.
  - rewrite app_nil_r in Hk. subst l. exact He.
  - rewrite app_assoc in Hk. apply app_inj_tail in Hk as [-> _].
    apply Hlog. exists k. reflexivity.
Qed.

(** A log that grew by a few known events never had two compute passes
    open. *)
Ltac at_most_one_compute H :=
  repeat (apply atMostOneComputeOpen_snoc;
          [| rewrite ?openComputePasses_snoc; use_eqs;
             try match goal with
                 | |- context [option_list ?o] =>
                     lazymatch o with
                     | Some _ => fail
                     | None => fail
                     | _ => destruct o
                     end
                 end;
             unfold option_list; cbn [computeStep option_rect];
             rewrite ?filter_cons_False by naive_solver;
             rewrite ?filter_nil; simpl; lia ]);
  exact H.

Ltac once_leaf :=
  intros; unfold Keeps, ComputeOnce; eng_fields;
  intros [Hopen Hone];
  split;
  [ first [assumption | rewrite openComputePasses_snoc; exact Hopen]
  | first [assumption | at_most_one_compute Hone] ].

Lemma ComputeOnce_endComputePass :
  preserves (Keeps ComputeOnce) endComputePass.
Proof.
  intros s [Hopen Hone]. unfold endComputePass, ComputeOnce.
  eng_run. destruct (currentComputePass s) as [p|] eqn:E; eng_fields.
  - split; [open_compute | at_most_one_compute Hone].
  - rewrite E. split; assumption.
Qed.

Lemma ComputeOnce_startComputePass :
  preserves (Keeps ComputeOnce) startComputePass.
Proof.
  intros s [Hopen Hone]. unfold startComputePass, endComputePass, ComputeOnce.
  eng_run. eng_cases.
  all: split; [open_compute | at_most_one_compute Hone].
Qed.

Lemma ComputeOnce_destroyAll buffers :
  preserves (Keeps ComputeOnce) (destroyAll buffers).
Proof.
  induction buffers as [|b rest IH]; simpl;
    preserve_with ltac:(apply IH) once_leaf.
Qed.

Lemma ComputeOnce_setBindGroupsFrom target groups :
  ∀ i, preserves (Keeps ComputeOnce) (setBindGroupsFrom target i groups).
Proof.
  induction groups as [|g rest IH]; intros i; simpl;
    preserve_with ltac:(apply IH) once_leaf.
Qed.

Lemma ComputeOnce_setVertexBuffersFrom target slot offsets buffers :
  ∀ i, preserves (Keeps ComputeOnce)
         (setVertexBuffersFrom target slot offsets i buffers).
Proof.
  induction buffers as [|b rest IH]; intros i; simpl;
    preserve_with ltac:(apply IH) once_leaf.
Qed.

Lemma ComputeOnce_exec c : preserves (Keeps ComputeOnce) (exec c).
Proof.
  destruct c; simpl;
    preserve_with
      ltac:(idtac; lazymatch goal with
            | |- preserves _ endComputePass =>
                apply ComputeOnce_endComputePass
            | |- preserves _ startComputePass =>
                apply ComputeOnce_startComputePass
            | |- preserves _ (destroyAll _) => apply ComputeOnce_destroyAll
            | |- preserves _ (setBindGroupsFrom _ _ _) =>
                apply ComputeOnce_setBindGroupsFrom
            | |- preserves _ (setVertexBuffersFrom _ _ _ _ _) =>
                apply ComputeOnce_setVertexBuffersFrom
            end)
      once_leaf.
Qed.

Lemma reachable_ComputeOnce s : reachable s -> ComputeOnce s.
Proof.
  intros (cv & gpu & opts & cs & ->).
  apply (preserves_steps (Keeps ComputeOnce) ComputeOnce_exec cs).
  split; [reflexivity | apply atMostOneComputeOpen_nil].
Qed.

(** X13.  On every reachable engine the compute passes begun and not yet
    ended in the log of GPU calls are exactly the one held in
    [currentComputePass], and at no moment of the log, between two GPU
    calls of one method as well as between two methods, were two compute
    passes open: an open pass is ended before the next one is begun. *)
Theorem one_compute_pass_at_most s :
  reachable s ->
  openComputePasses (gpuLog s) = option_list (currentComputePass s) ∧
  ∀ l, l `prefix_of` gpuLog s -> (length (openComputePasses l) ≤ 1)%nat.
Proof.
  intros Hreach. destruct (reachable_ComputeOnce s Hreach) as [Hopen Hone].
  split; [exact Hopen | exact Hone].
Qed.

Lemma one_compute_pass_at_most_witness :
  openComputePasses (gpuLog sampleDrawing) = [14%nat] ∧
  (length (openComputePasses (gpuLog sampleFrame)) ≤ 1)%nat.
Proof.
  assert (Hc : currentComputePass sampleDrawing = Some 14%nat)
    by (vm_compute; reflexivity).
  assert (Hpre : gpuLog sampleFrame `prefix_of` gpuLog sampleDrawing).
  { destruct (Ext_steps [CClear opaqueBlack true true None] sampleFrame
                eq_refl) as [(evs & Hevs & _) _].
    exists evs. unfold sampleDrawing. exact Hevs. }
  destruct (one_compute_pass_at_most sampleDrawing sampleDrawing_reachable)
    as [Hopen Hone].
  rewrite Hc in Hopen. split; [exact Hopen | exact (Hone _ Hpre)].
Defined.

(** X14.  On an engine configured without [supportCompute] no compute pass
    is ever open, so [dispatch] and [setComputeBindGroups] never reach the
    GPU. *)
Theorem no_compute_without_supportCompute s num groups :
  reachable s ->
  supportCompute (options s) = false ->
  currentComputePass s = None ∧
  openComputePasses (gpuLog s) = [] ∧
  dispatch num s = Ok tt s ∧
  setComputeBindGroups groups s = Ok tt s.
Proof.
  intros Hreach Hsup.
  destruct (reachable_ComputeInv s Hreach) as [Hopen Hnone].
  specialize (Hnone Hsup). rewrite Hnone in Hopen.
  split; [exact Hnone |]. split; [exact Hopen |].
  unfold dispatch, setComputeBindGroups. eng_run. rewrite Hnone.
  split; reflexivity.
Qed.

Lemma plainFrame_reachable : reachable plainFrame.
Proof. apply reachable_steps, reachable_constructor. Qed.

Lemma no_compute_without_supportCompute_witness :
  dispatch 64
    (steps [CClear opaqueBlack true true None; CEndFrame; CBeginFrame]
       plainFrame) =
  Ok tt
    (steps [CClear opaqueBlack true true None; CEndFrame; CBeginFrame]
       plainFrame).
Proof.
  assert (Hs : supportCompute
                 (options
                    (steps [CClear opaqueBlack true true None; CEndFrame;
                            CBeginFrame] plainFrame)) = false)
    by (vm_compute; reflexivity).
  destruct (no_compute_without_supportCompute
              (steps [CClear opaqueBlack true true None; CEndFrame;
                      CBeginFrame] plainFrame) 64 []
              (reachable_steps _ _ plainFrame_reachable) Hs)
    as (_ & _ & Hd & _).
  exact Hd.
Defined.

(** * Initialised engines stay initialised *)

Ltac ready_leaf :=
  intros; unfold Keeps, Ready; eng_fields;
  intros (? & ? & (? & ? & ?) & ?); split_and!; eauto.

Lemma Ready_destroyAll buffers : preserves (Keeps Ready) (destroyAll buffers).
Proof.
  induction buffers as [|b rest IH]; simpl;
    preserve_with ltac:(apply IH) ready_leaf.
Qed.

Lemma Ready_setBindGroupsFrom target groups :
  ∀ i, preserves (Keeps Ready) (setBindGroupsFrom target i groups).
Proof.
  induction groups as [|g rest IH]; intros i; simpl;
    preserve_with ltac:(apply IH) ready_leaf.
Qed.

Lemma Ready_setVertexBuffersFrom target slot offsets buffers :
  ∀ i, preserves (Keeps Ready)
         (setVertexBuffersFrom target slot offsets i buffers).
Proof.
  induction buffers as [|b rest IH]; intros i; simpl;
    preserve_with ltac:(apply IH) ready_leaf.
Qed.

Lemma Ready_exec c : preserves (Keeps Ready) (exec c).
Proof.
  destruct c; simpl;
    preserve_with
      ltac:(idtac; lazymatch goal with
            | |- preserves _ (destroyAll _) => apply Ready_destroyAll
            | |- preserves _ (setBindGroupsFrom _ _ _) =>
                apply Ready_setBindGroupsFrom
            | |- preserves _ (setVertexBuffersFrom _ _ _ _ _) =>
                apply Ready_setVertexBuffersFrom
            end)
      ready_leaf.
Qed.

Lemma Ready_steps cs s : Ready s -> Ready (steps cs s).
Proof. apply (preserves_steps (Keeps Ready) Ready_exec cs). Qed.

(** * After the end of a frame *)

(** What [endFrame] leaves in place. *)
Lemma endFrame_leaves s u r c :
  is_Some (device s) ->
  uploadEncoder s = Some u ->
  renderEncoder s = Some r ->
  computeEncoder s = Some c ->
  length (commandBuffers s) = 3%nat ->
  ∃ s',
    endFrame s = Ok tt s' ∧
    device s' = device s ∧
    uploadEncoder s' = Some u ∧ renderEncoder s' = Some r ∧
    computeEncoder s' = Some c ∧
    length (commandBuffers s') = 3%nat ∧
    nextHandle s' = S (S (S (nextHandle s))) ∧
    currentRenderPass s' = None ∧
    currentComputePass s' =
      (if supportCompute (options s) then None else currentComputePass s) ∧
    bundleEncoder s' = bundleEncoder s ∧
    options s' = options s ∧
    tempBuffers s' = [].
Proof.
  intros [d Hd] Hu Hr Hc Hlen.
  destruct (commandBuffers s) as [|c0 [|c1 [|c2 [|]]]] eqn:Hcb;
    try discriminate.
  unfold endFrame, endRenderPass, endComputePass, finishInto.
  eng_run.
  repeat (first [rewrite destroyAll_run | eng_case]; eng_fields).
  all: eexists; split; [reflexivity |]; eng_fields; rewrite ?Hcb.
  all: rewrite ?js_array_set_three; use_eqs; split_and!; reflexivity.
Qed.

(** X15.  In a frame, after any calls, [endFrame] returns with no render
    pass and no compute pass open, in the engine and in the log of GPU
    calls alike; a bundle being recorded is left open. *)
Theorem endFrame_leaves_no_pass_open s0 s1 cs :
  reachable s0 ->
  beginFrame s0 = Ok tt s1 ->
  let s := steps cs s1 in
  ∃ s',
    endFrame s = Ok tt s' ∧
    currentRenderPass s' = None ∧ currentComputePass s' = None ∧
    openRenderPasses (gpuLog s') = [] ∧
    openComputePasses (gpuLog s') = [] ∧
    bundleEncoder s' = bundleEncoder s.
Proof.
  intros Hreach Hbegin s.
  assert (Hrs : reachable s)
    by (apply reachable_steps, (reachable_beginFrame s0); assumption).
  assert (Hopen : FrameOpen s)
    by (apply FrameOpen_steps, (beginFrame_opens s0), Hbegin).
  destruct Hopen as (Hd & [u Hu] & [r Hr] & [c Hc]).
  destruct (reachable_WF s Hrs) as (Hlen & _).
  destruct (endFrame_leaves s u r c Hd Hu Hr Hc Hlen)
    as (s' & He & _ & _ & _ & _ & _ & _ & Hrp & Hcp & Hb & _).
  assert (Hrs' : reachable s').
  { replace s' with (steps [CEndFrame] s)
      by (unfold steps, step; simpl; rewrite He; reflexivity).
    apply reachable_steps, Hrs. }
  destruct (reachable_WF s' Hrs') as (_ & _ & Ho & _).
  destruct (reachable_ComputeInv s' Hrs') as [Hco _].
  destruct (reachable_ComputeInv s Hrs) as [_ Hnone].
  assert (Hcp' : currentComputePass s' = None).
  { rewrite Hcp. destruct (supportCompute (options s)); auto. }
  rewrite Hrp in Ho. rewrite Hcp' in Hco.
  exists s'. split_and!; auto.
Qed.

Lemma endFrame_leaves_no_pass_open_witness :
  ∃ s',
    endFrame
      (steps [CClear opaqueBlack true true None; CStartRecordBundle]
         sampleFrame) = Ok tt s' ∧
    currentRenderPass s' = None ∧ currentComputePass s' = None ∧
    bundleEncoder s' = Some 15%nat.
Proof.
  assert (Hbegin : beginFrame sampleReady = Ok tt sampleFrame)
    by (vm_compute; reflexivity).
  assert (Hb : bundleEncoder
                 (steps [CClear opaqueBlack true true None;
                         CStartRecordBundle] sampleFrame)
               = Some 15%nat) by (vm_compute; reflexivity).
  destruct (endFrame_leaves_no_pass_open sampleReady sampleFrame
              [CClear opaqueBlack true true None; CStartRecordBundle]
              sampleReady_reachable Hbegin)
    as (s' & He & Hr & Hc & _ & _ & Hbe).
  rewrite Hb in Hbe.
  exists s'. split_and!; assumption.
Defined.

(** X16.  [endFrame] keeps the three encoders of the frame: called a second
    time without a [beginFrame] in between, it returns again, finishes the
    same three encoders once more and submits again. *)
Theorem endFrame_twice_finishes_the_same_encoders s0 s1 cs :
  reachable s0 ->
  beginFrame s0 = Ok tt s1 ->
  let s := steps cs s1 in
  ∃ u r c s' s'', let n := nextHandle s' in
    uploadEncoder s = Some u ∧ renderEncoder s = Some r ∧
    computeEncoder s = Some c ∧
    endFrame s = Ok tt s' ∧
    endFrame s' = Ok tt s'' ∧
    gpuLog s'' =
      gpuLog s' ++
      [EvFinish u n; EvFinish r (S n); EvFinish c (S (S n));
       EvSubmit [Some n; Some (S n); Some (S (S n))]].
Proof.
  intros Hreach Hbegin s.
  assert (Hrs : reachable s)
    by (apply reachable_steps, (reachable_beginFrame s0); assumption).
  assert (Hopen : FrameOpen s)
    by (apply FrameOpen_steps, (beginFrame_opens s0), Hbegin).
  destruct Hopen as (Hd & [u Hu] & [r Hr] & [c Hc]).
  destruct (reachable_WF s Hrs) as (Hlen & _).
  destruct (endFrame_leaves s u r c Hd Hu Hr Hc Hlen)
    as (s' & He & Hd' & Hu' & Hr' & Hc' & Hlen' & _ & Hrp & Hcp & _ & Ho & Ht).
  assert (Hd2 : is_Some (device s')) by (rewrite Hd'; exact Hd).
  destruct (endFrame_run s' u r c Hd2 Hu' Hr' Hc' Hlen')
    as (s'' & He' & Hl & _).
  exists u, r, c, s', s''. cbv zeta. split_and!; auto.
  rewrite Hl, Ht. unfold closingEvents. rewrite Hrp, Hcp, Ho.
  destruct (supportCompute (options s)); simpl; rewrite ?app_nil_r;
    reflexivity.
Qed.

Lemma endFrame_twice_finishes_the_same_encoders_witness :
  ∃ s' s'',
    endFrame sampleFrame = Ok tt s' ∧ endFrame s' = Ok tt s'' ∧
    gpuLog s'' =
      gpuLog s' ++
      [EvFinish 8%nat (nextHandle s'); EvFinish 9%nat (S (nextHandle s'));
       EvFinish 10%nat (S (S (nextHandle s')));
       EvSubmit [Some (nextHandle s'); Some (S (nextHandle s'));
                 Some (S (S (nextHandle s')))]].
Proof.
  assert (Hbegin : beginFrame sampleReady = Ok tt sampleFrame)
    by (vm_compute; reflexivity).
  assert (Hs : steps [] sampleFrame = sampleFrame) by reflexivity.
  assert (Hu : uploadEncoder sampleFrame = Some 8%nat)
    by (vm_compute; reflexivity).
  assert (Hr : renderEncoder sampleFrame = Some 9%nat)
    by (vm_compute; reflexivity).
  assert (Hc : computeEncoder sampleFrame = Some 10%nat)
    by (vm_compute; reflexivity).
  destruct (endFrame_twice_finishes_the_same_encoders
              sampleReady sampleFrame [] sampleReady_reachable Hbegin)
    as (u & r & c & s' & s'' & Hu' & Hr' & Hc' & He & He' & Hl).
  rewrite Hs in Hu', Hr', Hc', He.
  rewrite Hu in Hu'. rewrite Hr in Hr'. rewrite Hc in Hc'.
  injection Hu' as <-. injection Hr' as <-. injection Hc' as <-.
  exists s', s''. split_and!; assumption.
Defined.

(** * Opening the main render pass *)

(** What [startMainRenderPass] does, whether a pass is open or not. *)
Lemma startMainRenderPass_run s sc e a rest :
  swapChain s = Some sc ->
  renderEncoder s = Some e ->
  mainColorAttachments s = Some (a :: rest) ->
  let n := nextHandle s in
  let a' :=
    if antialiasing (options s)
    then {| attachment := attachment a; resolveTarget := Some (S n);
            loadValue := loadValue a; storeOp := storeOp a |}
    else {| attachment := S n; resolveTarget := resolveTarget a;
            loadValue := loadValue a; storeOp := storeOp a |} in
  ∃ s',
    startMainRenderPass s = Ok tt s' ∧
    gpuLog s' =
      gpuLog s ++ option_list (EvEndPass <$> currentRenderPass s) ++
      [EvGetCurrentTexture sc n; EvCreateView n (S n);
       EvBeginRenderPass e (a' :: rest) (mainDepthAttachment s) (S (S n))] ∧
    currentRenderPass s' = Some (S (S n)) ∧
    mainColorAttachments s' = Some (a' :: rest) ∧
    nextHandle s' = S (S (S n)) ∧
    canvas s' = canvas s.
Proof.
  intros Hsc He Ha n a'. subst n a'.
  unfold startMainRenderPass, endRenderPass, firstColorAttachment,
    currentTextureView.
  eng_run.
  destruct (currentRenderPass s) as [q|] eqn:Hp; eng_fields;
    rewrite ?Hp; eng_fields.
  all: destruct (antialiasing (options s)); eng_fields.
  all: rewrite Ha; eng_fields; rewrite Hsc; eng_fields; rewrite He;
    eng_fields.
  all: eexists; split; [reflexivity |]; eng_fields.
  all: unfold option_list; simpl; rewrite <- ?app_assoc; simpl.
  all: split_and!; reflexivity.
Qed.

(** X17.  [startMainRenderPass] ends the open render pass, if any, takes
    the current texture of the swap chain and begins the pass on the first
    colour attachment updated with its view: with antialiasing the view
    becomes the resolve target and the attachment stays the multisampled
    texture, without antialiasing the view becomes the attachment.  The
    load value and the store operation are kept, and the updated
    attachment is stored back. *)
Theorem startMainRenderPass_resolves_when_antialiasing s sc e a rest :
  swapChain s = Some sc ->
  renderEncoder s = Some e ->
  mainColorAttachments s = Some (a :: rest) ->
  ∃ a' s', let n := nextHandle s in
    startMainRenderPass s = Ok tt s' ∧
    gpuLog s' =
      gpuLog s ++ option_list (EvEndPass <$> currentRenderPass s) ++
      [EvGetCurrentTexture sc n; EvCreateView n (S n);
       EvBeginRenderPass e (a' :: rest) (mainDepthAttachment s) (S (S n))] ∧
    mainColorAttachments s' = Some (a' :: rest) ∧
    loadValue a' = loadValue a ∧ storeOp a' = storeOp a ∧
    if antialiasing (options s)
    then attachment a' = attachment a ∧ resolveTarget a' = Some (S n)
    else attachment a' = S n ∧ resolveTarget a' = resolveTarget a.
Proof.
  intros Hsc He Ha.
  destruct (startMainRenderPass_run s sc e a rest Hsc He Ha)
    as (s' & Hrun & Hlog & _ & Hatt & _).
  eexists. exists s'. cbv zeta. split; [exact Hrun |].
  split; [exact Hlog |]. split; [exact Hatt |].
  destruct (antialiasing (options s)); simpl; auto.
Qed.

Lemma startMainRenderPass_resolves_when_antialiasing_witness :
  ∃ a' s', startMainRenderPass sampleFrame = Ok tt s' ∧
           mainColorAttachments s' = Some [a'] ∧
           attachment a' = 5%nat ∧ resolveTarget a' = Some 12%nat.
Proof.
  assert (Hp : currentRenderPass sampleFrame = None)
    by (vm_compute; reflexivity).
  assert (Hsc : swapChain sampleFrame = Some 3%nat)
    by (vm_compute; reflexivity).
  assert (He : renderEncoder sampleFrame = Some 9%nat)
    by (vm_compute; reflexivity).
  assert (Ha : mainColorAttachments sampleFrame =
               Some [ {| attachment := 5%nat; resolveTarget := None;
                         loadValue := ClearColor opaqueBlack;
                         storeOp := "store" |} ])
    by (vm_compute; reflexivity).
  assert (Haa : antialiasing (options sampleFrame) = true)
    by (vm_compute; reflexivity).
  assert (Hn : nextHandle sampleFrame = 11%nat) by (vm_compute; reflexivity).
  destruct (startMainRenderPass_resolves_when_antialiasing
              sampleFrame 3%nat 9%nat _ [] Hsc He Ha)
    as (a' & s' & Hrun & _ & Hatt & _ & _ & Hres).
  rewrite Haa, Hn in Hres. destruct Hres as [H1 H2].
  exists a', s'. split_and!; assumption.
Defined.

(** * Commands that open the pass on demand *)

(** The pass a command records on, and what opens it: nothing when a pass
    is open, the three calls of [startMainRenderPass] otherwise. *)
Lemma pass_on_demand s sc e a rest :
  swapChain s = Some sc ->
  renderEncoder s = Some e ->
  mainColorAttachments s = Some (a :: rest) ->
  ∃ p opening s1,
    (gets currentRenderPass
     ≫= fun q => when (negb (truthy q)) startMainRenderPass) s = Ok tt s1 ∧
    currentRenderPass s1 = Some p ∧
    gpuLog s1 = gpuLog s ++ opening ∧
    canvas s1 = canvas s ∧
    match currentRenderPass s with
    | Some q => p = q ∧ opening = []
    | None =>
        p = S (S (nextHandle s)) ∧
        ∃ colors,
          opening =
            [EvGetCurrentTexture sc (nextHandle s);
             EvCreateView (nextHandle s) (S (nextHandle s));
             EvBeginRenderPass e colors (mainDepthAttachment s) p]
    end.
Proof.
  intros Hsc He Ha. unfold mbind at 1, Eng_bind, gets.
  destruct (currentRenderPass s) as [q|] eqn:Hp; cbn [truthy negb when].
  - exists q, [], s. rewrite app_nil_r. unfold when. eng_run.
    split_and!; auto.
  - destruct (startMainRenderPass_run s sc e a rest Hsc He Ha)
      as (s1 & Hrun & Hlog & Hcur & _ & _ & Hcv).
    rewrite Hp in Hlog.
    eexists _, _, s1. unfold when. split; [exact Hrun |].
    split; [exact Hcur |].
    split; [exact Hlog |]. split; [exact Hcv |]. eauto.
Qed.

(** X18.  [enableScissor], [disableScissor] and [executeBundles] record on
    the open render pass and open the main render pass first when there is
    none.  [disableScissor] sets the scissor rectangle to the whole canvas,
    at the size the canvas has at the call. *)
Theorem scissor_and_bundles_open_the_pass_on_demand
    s sc e a rest x y w h bundles :
  swapChain s = Some sc ->
  renderEncoder s = Some e ->
  mainColorAttachments s = Some (a :: rest) ->
  ∃ p opening, 
    match currentRenderPass s with
    | Some q => p = q ∧ opening = []
    | None =>
        p = S (S (nextHandle s)) ∧
        ∃ colors,
          opening =
            [EvGetCurrentTexture sc (nextHandle s);
             EvCreateView (nextHandle s) (S (nextHandle s));
             EvBeginRenderPass e colors (mainDepthAttachment s) p]
    end ∧
    (∃ s', enableScissor x y w h s = Ok tt s' ∧
           currentRenderPass s' = Some p ∧
           gpuLog s' = gpuLog s ++ opening ++ [EvSetScissorRect p x y w h]) ∧
    (∃ s', disableScissor s = Ok tt s' ∧
           currentRenderPass s' = Some p ∧
           gpuLog s' =
             gpuLog s ++ opening ++
             [EvSetScissorRect p 0 0 (width (canvas s)) (height (canvas s))]) ∧
    (∃ s', executeBundles bundles s = Ok tt s' ∧
           currentRenderPass s' = Some p ∧
           gpuLog s' = gpuLog s ++ opening ++ [EvExecuteBundles p bundles]).
Proof.
  intros Hsc He Ha.
  destruct (pass_on_demand s sc e a rest Hsc He Ha)
    as (p & opening & s1 & Hrun & Hcur & Hlog & Hcv & Hcase).
  unfold mbind at 1, Eng_bind, gets in Hrun.
  exists p, opening. split; [exact Hcase |].
  split; [| split].
  - unfold enableScissor. unfold mbind at 1, Eng_bind, gets.
    unfold mbind at 1, Eng_bind. rewrite Hrun. eng_run. rewrite Hcur.
    eng_fields. eexists. split; [reflexivity |]. eng_fields.
    rewrite Hlog, <- app_assoc. auto.
  - unfold disableScissor. unfold mbind at 1, Eng_bind, gets.
    unfold mbind at 1, Eng_bind. rewrite Hrun. eng_run. rewrite Hcur.
    eng_fields. eexists. split; [reflexivity |]. eng_fields.
    rewrite Hlog, Hcv, <- app_assoc. auto.
  - unfold executeBundles. unfold mbind at 1, Eng_bind, gets.
    unfold mbind at 1, Eng_bind. rewrite Hrun. eng_run. rewrite Hcur.
    eng_fields. eexists. split; [reflexivity |]. eng_fields.
    rewrite Hlog, <- app_assoc. auto.
Qed.

Lemma scissor_and_bundles_open_the_pass_on_demand_witness :
  ∃ colors s',
    disableScissor sampleFrame = Ok tt s' ∧
    currentRenderPass s' = Some 13%nat ∧
    gpuLog s' =
      gpuLog sampleFrame ++
      [EvGetCurrentTexture 3%nat 11%nat; EvCreateView 11%nat 12%nat;
       EvBeginRenderPass 9%nat colors (mainDepthAttachment sampleFrame)
         13%nat] ++
      [EvSetScissorRect 13%nat 0 0 800 600].
Proof.
  assert (Hp : currentRenderPass sampleFrame = None)
    by (vm_compute; reflexivity).
  assert (Hsc : swapChain sampleFrame = Some 3%nat)
    by (vm_compute; reflexivity).
  assert (He : renderEncoder sampleFrame = Some 9%nat)
    by (vm_compute; reflexivity).
  assert (Ha : mainColorAttachments sampleFrame =
               Some [ {| attachment := 5%nat; resolveTarget := None;
                         loadValue := ClearColor opaqueBlack;
                         storeOp := "store" |} ])
    by (vm_compute; reflexivity).
  assert (Hn : nextHandle sampleFrame = 11%nat) by (vm_compute; reflexivity).
  assert (Hw : width (canvas sampleFrame) = 800) by (vm_compute; reflexivity).
  assert (Hh : height (canvas sampleFrame) = 600)
    by (vm_compute; reflexivity).
  destruct (scissor_and_bundles_open_the_pass_on_demand
              sampleFrame 3%nat 9%nat _ [] 0 0 1 1 [] Hsc He Ha)
    as (p & opening & Hcase & _ & (s' & Hrun & Hcur & Hlog) & _).
  rewrite Hp in Hcase. destruct Hcase as (-> & colors & ->).
  rewrite Hn in Hcur, Hlog. rewrite Hw, Hh in Hlog.
  exists colors, s'. split_and!; assumption.
Defined.

(** * Clear *)

Lemma clear_run s sc e ce a rest d
    (color : GPUColor) (backBuffer depth : bool) (stencil : option bool) :
  swapChain s = Some sc ->
  renderEncoder s = Some e ->
  computeEncoder s = Some ce ->
  mainColorAttachments s = Some (a :: rest) ->
  mainDepthAttachment s = Some d ->
  let n := nextHandle s in
  let a' :=
    {| attachment := if antialiasing (options s) then attachment a else S n;
       resolveTarget :=
         if antialiasing (options s) then Some (S n) else resolveTarget a;
       loadValue := if backBuffer then ClearColor color
                    else ColorLoadOp WebGPUConstants.LoadOp.Load;
       storeOp := storeOp a |} in
  let d' :=
    {| ds_attachment := ds_attachment d;
       depthLoadValue := if depth then ClearNum clearDepthValue
                         else NumLoadOp WebGPUConstants.LoadOp.Load;
       depthStoreOp := depthStoreOp d;
       stencilLoadValue := if default false stencil
                           then ClearNum clearStencilValue
                           else NumLoadOp WebGPUConstants.LoadOp.Load;
       stencilStoreOp := stencilStoreOp d |} in
  ∃ s',
    clear color backBuffer depth stencil s = Ok tt s' ∧
    gpuLog s' =
      gpuLog s ++ option_list (EvEndPass <$> currentRenderPass s) ++
      [EvGetCurrentTexture sc n; EvCreateView n (S n);
       EvBeginRenderPass e (a' :: rest) (Some d') (S (S n))] ++
      (if supportCompute (options s)
       then option_list (EvComputeEndPass <$> currentComputePass s) ++
            [EvBeginComputePass ce (S (S (S n)))]
       else []) ∧
    currentRenderPass s' = Some (S (S n)) ∧
    currentComputePass s' =
      (if supportCompute (options s) then Some (S (S (S n)))
       else currentComputePass s) ∧
    mainColorAttachments s' = Some (a' :: rest) ∧
    mainDepthAttachment s' = Some d' ∧
    device s' = device s ∧
    uploadEncoder s' = uploadEncoder s ∧
    renderEncoder s' = Some e ∧ computeEncoder s' = Some ce ∧
    commandBuffers s' = commandBuffers s.
Proof.
  intros Hsc He Hce Ha Hd n a' d'. subst n a' d'.
  unfold clear, startMainRenderPass, startComputePass, endRenderPass,
    endComputePass, firstColorAttachment, currentTextureView.
  cbv zeta. eng_run.
  rewrite Ha; eng_fields; rewrite Hd; eng_fields.
  destruct (currentRenderPass s) as [q|] eqn:Hp; eng_fields;
    rewrite ?Hp; eng_fields.
  all: destruct (antialiasing (options s)); eng_fields.
  all: rewrite ?Hsc; eng_fields; rewrite ?He; eng_fields.
  all: destruct (supportCompute (options s)); eng_fields.
  all: destruct (currentComputePass s) as [c|] eqn:Hc; eng_fields;
    rewrite ?Hc; eng_fields; rewrite ?Hce; eng_fields.
  all: eexists; split; [reflexivity |]; eng_fields.
  all: unfold option_list; simpl; rewrite <- ?app_assoc; simpl.
  all: split_and!; auto.
Qed.

(** X19.  [clear] stores the load values in the attachments of the main
    pass and begins the pass with them: the colour or the load operation
    for the first colour attachment, the clear depth 1 or load for depth,
    and the clear stencil 0 only when the stencil argument is given and
    true.  The store operations and the view of the depth attachment are
    kept.  The colour attachment takes the view of the swap chain's
    current texture, as its resolve target with antialiasing, where the
    view it had stays the attachment, and as the attachment itself
    without.  A compute pass is begun after the render pass exactly when
    [supportCompute] is set. *)
Theorem clear_sets_the_load_values_of_the_pass_it_begins
    s sc e ce a rest d
    (color : GPUColor) (backBuffer depth : bool) (stencil : option bool) :
  swapChain s = Some sc ->
  renderEncoder s = Some e ->
  computeEncoder s = Some ce ->
  mainColorAttachments s = Some (a :: rest) ->
  mainDepthAttachment s = Some d ->
  ∃ a' d' s', let n := nextHandle s in
    clear color backBuffer depth stencil s = Ok tt s' ∧
    gpuLog s' =
      gpuLog s ++ option_list (EvEndPass <$> currentRenderPass s) ++
      [EvGetCurrentTexture sc n; EvCreateView n (S n);
       EvBeginRenderPass e (a' :: rest) (Some d') (S (S n))] ++
      (if supportCompute (options s)
       then option_list (EvComputeEndPass <$> currentComputePass s) ++
            [EvBeginComputePass ce (S (S (S n)))]
       else []) ∧
    mainColorAttachments s' = Some (a' :: rest) ∧
    mainDepthAttachment s' = Some d' ∧
    loadValue a' = (if backBuffer then ClearColor color
                    else ColorLoadOp "load") ∧
    storeOp a' = storeOp a ∧
    (if antialiasing (options s)
     then attachment a' = attachment a ∧ resolveTarget a' = Some (S n)
     else attachment a' = S n ∧ resolveTarget a' = resolveTarget a) ∧
    depthLoadValue d' = (if depth then ClearNum 1 else NumLoadOp "load") ∧
    stencilLoadValue d' =
      match stencil with
      | Some true => ClearNum 0
      | _ => NumLoadOp "load"
      end ∧
    ds_attachment d' = ds_attachment d ∧
    depthStoreOp d' = depthStoreOp d ∧ stencilStoreOp d' = stencilStoreOp d.
Proof.
  intros Hsc He Hce Ha Hd.
  destruct (clear_run s sc e ce a rest d color backBuffer depth stencil
              Hsc He Hce Ha Hd)
    as (s' & Hrun & Hlog & _ & _ & Hatt & Hdepth & _).
  eexists _, _, s'. cbv zeta.
  split; [exact Hrun |]. split; [exact Hlog |].
  split; [exact Hatt |]. split; [exact Hdepth |].
  simpl. split_and!; try reflexivity.
  - destruct (antialiasing (options s)); split; reflexivity.
  - destruct stencil as [[|]|]; reflexivity.
Qed.

Lemma clear_sets_the_load_values_of_the_pass_it_begins_witness :
  ∃ a' d' s',
    clear opaqueBlack false true None sampleFrame = Ok tt s' ∧
    mainColorAttachments s' = Some [a'] ∧
    mainDepthAttachment s' = Some d' ∧
    loadValue a' = ColorLoadOp "load" ∧
    attachment a' = 5%nat ∧ resolveTarget a' = Some 12%nat ∧
    depthLoadValue d' = ClearNum 1 ∧
    stencilLoadValue d' = NumLoadOp "load" ∧
    ds_attachment d' = 7%nat.
Proof.
  assert (Hsc : swapChain sampleFrame = Some 3%nat)
    by (vm_compute; reflexivity).
  assert (He : renderEncoder sampleFrame = Some 9%nat)
    by (vm_compute; reflexivity).
  assert (Hce : computeEncoder sampleFrame = Some 10%nat)
    by (vm_compute; reflexivity).
  assert (Ha : mainColorAttachments sampleFrame =
               Some [ {| attachment := 5%nat; resolveTarget := None;
                         loadValue := ClearColor opaqueBlack;
                         storeOp := "store" |} ])
    by (vm_compute; reflexivity).
  assert (Hd : mainDepthAttachment sampleFrame =
               Some {| ds_attachment := 7%nat;
                       depthLoadValue := ClearNum 1;
                       depthStoreOp := "store";
                       stencilLoadValue := ClearNum 0;
                       stencilStoreOp := "store" |})
    by (vm_compute; reflexivity).
  destruct (clear_sets_the_load_values_of_the_pass_it_begins
              sampleFrame 3%nat 9%nat 10%nat _ [] _
              opaqueBlack false true None Hsc He Hce Ha Hd)
    as (a' & d' & s' & Hrun & _ & Hatt & Hdepth & Hl & _ & Hview & Hdl &
        Hsl & Hdv & _).
  assert (Haa : antialiasing (options sampleFrame) = true)
    by (vm_compute; reflexivity).
  assert (Hn : nextHandle sampleFrame = 11%nat) by (vm_compute; reflexivity).
  rewrite Haa, Hn in Hview. destruct Hview as [Hv1 Hv2].
  exists a', d', s'. split_and!; assumption.
Defined.

(** * Initialisation *)

(** X20.  Where [navigator.gpu] is absent, [init] throws a TypeError at
    the request for a device, before any GPU call: the adapter is left
    absent and the device, context, swap chain and attachments are what
    they were. *)
Theorem init_without_gpu_throws_TypeError b s :
  navigatorGpu s = false ->
  ∃ s',
    init b s = Throw TypeError s' ∧
    adapter s' = None ∧
    gpuLog s' = gpuLog s ∧ nextHandle s' = nextHandle s ∧
    device s' = device s ∧ context s' = context s ∧
    swapChain s' = swapChain s ∧
    mainColorAttachments s' = mainColorAttachments s ∧
    mainDepthAttachment s' = mainDepthAttachment s.
Proof.
  intros Hg. unfold init, initGlslang. eng_run. rewrite Hg. eng_fields.
  eexists. split; [reflexivity |]. eng_fields. split_and!; reflexivity.
Qed.

Lemma init_without_gpu_throws_TypeError_witness :
  ∃ s', init cooperative sampleNoGpu = Throw TypeError s' ∧
        gpuLog s' = [] ∧ device s' = None.
Proof.
  assert (Hg : navigatorGpu sampleNoGpu = false) by reflexivity.
  assert (Hl : gpuLog sampleNoGpu = []) by reflexivity.
  assert (Hd : device sampleNoGpu = None) by reflexivity.
  destruct (init_without_gpu_throws_TypeError cooperative sampleNoGpu Hg)
    as (s' & Hrun & _ & Hlog & _ & Hdev & _).
  rewrite Hl in Hlog. rewrite Hd in Hdev.
  exists s'. split_and!; assumption.
Defined.

Lemma initGlslang_run b s :
  navigatorGpu s = true ->
  adapterFound b = true ->
  deviceAnswer b = DeviceGranted ->
  ∃ s', let n := nextHandle s in
    initGlslang b s = Ok tt s' ∧
    adapter s' = Some n ∧ device s' = Some (S n) ∧
    gpuLog s' =
      gpuLog s ++ [EvRequestAdapter (Some n); EvRequestDevice n (Some (S n))] ∧
    nextHandle s' = S (S n) ∧
    canvas s' = canvas s ∧
    pipelines s' = pipelines s ∧
    computePipelines s' = computePipelines s ∧
    swapChain s' = swapChain s ∧
    mainColorAttachments s' = mainColorAttachments s ∧
    mainDepthAttachment s' = mainDepthAttachment s.
Proof.
  intros Hg Ha Hd. unfold initGlslang. rewrite Ha, Hd. eng_run.
  rewrite Hg. eng_fields.
  eexists. split; [reflexivity |]. eng_fields.
  rewrite <- app_assoc. split_and!; reflexivity.
Qed.

Lemma initContextAndSwapChain_run b s :
  contextFound b = true ->
  ∃ s',
    initContextAndSwapChain b s = Ok tt s' ∧ is_Some (swapChain s') ∧
    device s' = device s ∧ canvas s' = canvas s ∧
    pipelines s' = pipelines s ∧
    computePipelines s' = computePipelines s.
Proof.
  intros Hc. unfold initContextAndSwapChain. rewrite Hc. eng_run.
  eexists. split; [reflexivity |]. eng_fields.
  split_and!; first [reflexivity | eexists; reflexivity].
Qed.

Lemma initMainAttachments_run s :
  is_Some (device s) ->
  is_Some (swapChain s) ->
  ∃ s',
    initMainAttachments s = Ok tt s' ∧ Ready s' ∧
    mainTextureExtends s' = Some (canvasExtent s) ∧
    pipelines s' = pipelines s ∧
    computePipelines s' = computePipelines s.
Proof.
  intros [d Hd] [sc Hsc].
  unfold initMainAttachments, currentTextureView, destroyTexture.
  cbv zeta. eng_run.
  destruct (antialiasing (options s)); eng_fields.
  all: destruct (mainTexture s) eqn:Hm, (depthTexture s) eqn:Hz; eng_fields.
  all: repeat (progress rewrite ?Hm, ?Hz, ?Hd, ?Hsc; eng_fields).
  all: eexists; split; [reflexivity |]; unfold Ready; eng_fields.
  all: rewrite ?Hd, ?Hsc.
  all: split_and!;
    first [ reflexivity | eexists; reflexivity
          | do 2 eexists; reflexivity ].
Qed.

Lemma init_run b s :
  navigatorGpu s = true ->
  adapterFound b = true ->
  deviceAnswer b = DeviceGranted ->
  contextFound b = true ->
  ∃ s',
    init b s = Ok tt s' ∧ Ready s' ∧
    mainTextureExtends s' = Some (canvasExtent s) ∧
    pipelines s' = pipelines s ∧
    computePipelines s' = computePipelines s.
Proof.
  intros Hg Ha Hd Hc.
  destruct (initGlslang_run b s Hg Ha Hd)
    as (s1 & H1 & _ & Hd1 & _ & _ & Hc1 & Hp1 & Hq1 & _).
  destruct (initContextAndSwapChain_run b s1 Hc)
    as (s2 & H2 & Hs2 & Hd2 & Hc2 & Hp2 & Hq2).
  assert (Hdev : is_Some (device s2)) by (rewrite Hd2, Hd1; eauto).
  destruct (initMainAttachments_run s2 Hdev Hs2)
    as (s3 & H3 & Hr3 & He3 & Hp3 & Hq3).
  exists s3. unfold init, mbind, Eng_bind. rewrite H1, H2, H3.
  split; [reflexivity |]. split; [exact Hr3 |].
  split; [| split; congruence].
  rewrite He3. unfold canvasExtent. rewrite Hc2, Hc1. reflexivity.
Qed.

(** X21.  Where [navigator.gpu] is present and the browser grants what
    [init] asks for -- [requestAdapter()] resolves to an adapter,
    [requestDevice()] to a device and [getContext('gpupresent')] returns a
    context -- [init] returns, sizes the main pass by the canvas and keeps
    both pipeline caches; from then on the device, the swap chain and the
    attachments of the main pass exist, whatever calls follow, [dispose]
    and a later [init] that fails included. *)
Theorem init_makes_the_engine_ready_for_good b s cs :
  navigatorGpu s = true ->
  adapterFound b = true ->
  deviceAnswer b = DeviceGranted ->
  contextFound b = true ->
  ∃ s',
    init b s = Ok tt s' ∧
    mainTextureExtends s' = Some (canvasExtent s) ∧
    pipelines s' = pipelines s ∧
    computePipelines s' = computePipelines s ∧
    Ready (steps cs s').
Proof.
  intros Hg Ha Hd Hc.
  destruct (init_run b s Hg Ha Hd Hc) as (s' & Hrun & Hr & He & Hp & Hq).
  exists s'. split_and!; auto. apply Ready_steps, Hr.
Qed.

Lemma init_makes_the_engine_ready_for_good_witness :
  ∃ s',
    init cooperative sampleNew = Ok tt s' ∧
    Ready (steps [CBeginFrame; CDispose; CInit noContext; CEndFrame] s').
Proof.
  assert (Hg : navigatorGpu sampleNew = true) by reflexivity.
  destruct (init_makes_the_engine_ready_for_good cooperative
              sampleNew [CBeginFrame; CDispose; CInit noContext; CEndFrame]
              Hg eq_refl eq_refl eq_refl)
    as (s' & Hrun & _ & _ & _ & Hr).
  exists s'. split; assumption.
Defined.

(** X24.  Where [navigator.gpu] is present but the browser refuses,
    [init] fails part of the way.  When [requestAdapter()] resolves to
    [null], the call for a device on it throws a TypeError.  When
    [requestDevice()] is rejected, [init] throws the reason of the
    rejection and the device is what it was.  When both are granted and
    [getContext('gpupresent')] returns [null], the new device is stored,
    then configuring the swap chain throws a TypeError.  In all three
    cases the swap chain and the attachments are what they were, and the
    log holds the calls made so far. *)
Theorem init_fails_where_the_browser_refuses b s :
  navigatorGpu s = true ->
  let n := nextHandle s in
  let kept s' :=
    swapChain s' = swapChain s ∧
    mainColorAttachments s' = mainColorAttachments s ∧
    mainDepthAttachment s' = mainDepthAttachment s in
  (adapterFound b = false ->
   ∃ s', init b s = Throw TypeError s' ∧
         gpuLog s' = gpuLog s ++ [EvRequestAdapter None] ∧
         adapter s' = None ∧ device s' = device s ∧
         context s' = context s ∧ kept s') ∧
  (∀ reason,
     adapterFound b = true ->
     deviceAnswer b = DeviceRejected reason ->
     ∃ s', init b s = Throw reason s' ∧
           gpuLog s' =
             gpuLog s ++ [EvRequestAdapter (Some n); EvRequestDevice n None] ∧
           adapter s' = Some n ∧ device s' = device s ∧
           context s' = context s ∧ kept s') ∧
  (adapterFound b = true ->
   deviceAnswer b = DeviceGranted ->
   contextFound b = false ->
   ∃ s', init b s = Throw TypeError s' ∧
         gpuLog s' =
           gpuLog s ++
           [EvRequestAdapter (Some n); EvRequestDevice n (Some (S n));
            EvGetContext None] ∧
         adapter s' = Some n ∧ device s' = Some (S n) ∧
         context s' = None ∧ kept s').
Proof.
  intros Hg n kept. subst n kept. cbv beta. split_and!.
  - intros Ha. unfold init, initGlslang. rewrite Ha. eng_run.
    rewrite Hg. eng_fields.
    eexists. split; [reflexivity |]. eng_fields. split_and!; reflexivity.
  - intros reason Ha Hd. unfold init, initGlslang. rewrite Ha, Hd. eng_run.
    rewrite Hg. eng_fields.
    eexists. split; [reflexivity |]. eng_fields.
    rewrite <- app_assoc. split_and!; reflexivity.
  - intros Ha Hd Hc.
    destruct (initGlslang_run b s Hg Ha Hd)
      as (s1 & H1 & Ha1 & Hd1 & Hl1 & Hn1 & _ & _ & _ & Hs1 & Hm1 & Hz1).
    cbv zeta in *.
    unfold init. unfold mbind at 1, Eng_bind. rewrite H1.
    unfold initContextAndSwapChain. rewrite Hc. eng_run.
    eexists. split; [reflexivity |]. eng_fields.
    rewrite Hl1, Ha1, Hd1, Hs1, Hm1, Hz1, <- app_assoc.
    split_and!; reflexivity.
Qed.

Lemma init_fails_where_the_browser_refuses_witness :
  ∃ s', init noContext sampleNew = Throw TypeError s' ∧
        gpuLog s' =
          [EvRequestAdapter (Some 0%nat);
           EvRequestDevice 0%nat (Some 1%nat); EvGetContext None] ∧
        device s' = Some 1%nat ∧ swapChain s' = None.
Proof.
  assert (Hg : navigatorGpu sampleNew = true) by reflexivity.
  assert (Hs : swapChain sampleNew = None) by reflexivity.
  destruct (init_fails_where_the_browser_refuses noContext sampleNew Hg)
    as (_ & _ & Hctx).
  destruct (Hctx eq_refl eq_refl eq_refl)
    as (s' & Hrun & Hlog & _ & Hdev & _ & Hsc & _).
  rewrite Hs in Hsc.
  exists s'. split_and!; assumption.
Defined.

(** * A whole frame *)

Lemma beginFrame_leaves s :
  is_Some (device s) ->
  ∃ s', let n := nextHandle s in
    beginFrame s = Ok tt s' ∧
    uploadEncoder s' = Some n ∧ renderEncoder s' = Some (S n) ∧
    computeEncoder s' = Some (S (S n)) ∧
    device s' = device s ∧ swapChain s' = swapChain s ∧
    mainColorAttachments s' = mainColorAttachments s ∧
    mainDepthAttachment s' = mainDepthAttachment s ∧
    commandBuffers s' = commandBuffers s.
Proof.
  intros [d Hd]. unfold beginFrame, createCommandEncoder. eng_run.
  rewrite Hd. eng_fields. rewrite Hd. eng_fields. rewrite Hd. eng_fields.
  eexists. split; [reflexivity |]. eng_fields. rewrite Hd.
  split_and!; reflexivity.
Qed.

(** X22.  On a reachable, initialised engine a whole frame returns without
    an error: [beginFrame], then [clear] with any arguments, which leaves a
    render pass open, then [endFrame], which leaves none open and no
    staging buffer registered. *)
Theorem a_frame_on_an_initialised_engine_returns
    s (color : GPUColor) (backBuffer depth : bool) (stencil : option bool) :
  reachable s ->
  Ready s ->
  ∃ s1 s2 s3,
    beginFrame s = Ok tt s1 ∧
    clear color backBuffer depth stencil s1 = Ok tt s2 ∧
    is_Some (currentRenderPass s2) ∧
    endFrame s2 = Ok tt s3 ∧
    currentRenderPass s3 = None ∧ tempBuffers s3 = [].
Proof.
  intros Hreach (Hdev & [sc Hsc] & (a & rest & Ha) & [d Hd]).
  pose proof (reachable_WF s Hreach) as (Hlen & _).
  destruct (beginFrame_leaves s Hdev)
    as (s1 & Hb & Hu1 & Hr1 & Hc1 & Hd1 & Hs1 & Ha1 & Hz1 & Hcb1).
  cbv zeta in *.
  rewrite Hsc in Hs1. rewrite Ha in Ha1. rewrite Hd in Hz1.
  destruct (clear_run s1 sc _ _ a rest d color backBuffer depth stencil
              Hs1 Hr1 Hc1 Ha1 Hz1)
    as (s2 & Hcl & _ & Hp2 & _ & _ & _ & Hd2 & Hu2 & Hr2 & Hc2 & Hcb2).
  rewrite Hu1 in Hu2. rewrite Hd1 in Hd2. rewrite Hcb1 in Hcb2.
  assert (Hdev2 : is_Some (device s2)) by (rewrite Hd2; exact Hdev).
  assert (Hlen2 : length (commandBuffers s2) = 3%nat)
    by (rewrite Hcb2; exact Hlen).
  destruct (endFrame_leaves s2 _ _ _ Hdev2 Hu2 Hr2 Hc2 Hlen2)
    as (s3 & He & _ & _ & _ & _ & _ & _ & Hp3 & _ & _ & _ & Ht3).
  exists s1, s2, s3. split_and!; eauto.
Qed.

Lemma a_frame_on_an_initialised_engine_returns_witness :
  ∃ s1 s2 s3,
    beginFrame sampleReady = Ok tt s1 ∧
    clear opaqueBlack true true None s1 = Ok tt s2 ∧
    endFrame s2 = Ok tt s3 ∧ currentRenderPass s3 = None.
Proof.
  assert (Hr : Ready sampleReady)
    by (vm_compute; split_and!; eauto).
  destruct (a_frame_on_an_initialised_engine_returns
              sampleReady opaqueBlack true true None
              sampleReady_reachable Hr)
    as (s1 & s2 & s3 & Hb & Hc & _ & He & Hp & _).
  exists s1, s2, s3. split_and!; assumption.
Defined.

(** * Draw calls with a cached pipeline *)

(** X23.  With a bundle or render pass to record on and the pipeline name
    already cached, [drawArraysType] and [drawElementsType] make exactly
    two GPU calls, [setPipeline] with the cached pipeline and then the
    draw, with one instance when no count is given; the descriptor they
    are passed is ignored and nothing is compiled. *)
Theorem draw_with_cached_pipeline_binds_then_draws
    s t name h d (start count : Z) (instances : option Z) :
  renderTarget s = Some t ->
  pipelines s !! name = Some h ->
  (∃ s', drawArraysType name d start count instances s = Ok tt s' ∧
         gpuLog s' =
           gpuLog s ++
           [EvSetPipeline t (Own h);
            EvDraw t count (default 1 instances) start 0] ∧
         pipelines s' = pipelines s ∧ nextHandle s' = nextHandle s) ∧
  (∃ s', drawElementsType name d start count instances s = Ok tt s' ∧
         gpuLog s' =
           gpuLog s ++
           [EvSetPipeline t (Own h);
            EvDrawIndexed t count (default 1 instances) start 0 0] ∧
         pipelines s' = pipelines s ∧ nextHandle s' = nextHandle s).
Proof.
  intros Ht Hp.
  pose proof (getRenderPipeline_cached name d s (Own h)
                (js_get_own _ _ _ Hp)) as Hg.
  split.
  - unfold drawArraysType, setRenderPipeline. cbv zeta.
    unfold mbind at 1, Eng_bind, gets. rewrite Ht.
    unfold mbind at 1, Eng_bind. unfold mbind at 1, Eng_bind, gets.
    unfold mbind at 1, Eng_bind. rewrite Hg, Ht. eng_run.
    eexists. split; [reflexivity |]. eng_fields.
    rewrite <- app_assoc. auto.
  - unfold drawElementsType, setRenderPipeline. cbv zeta.
    unfold mbind at 1, Eng_bind, gets. rewrite Ht.
    unfold mbind at 1, Eng_bind. unfold mbind at 1, Eng_bind, gets.
    unfold mbind at 1, Eng_bind. rewrite Hg, Ht. eng_run.
    eexists. split; [reflexivity |]. eng_fields.
    rewrite <- app_assoc. auto.
Qed.

Lemma draw_with_cached_pipeline_binds_then_draws_witness :
  ∃ s',
    drawElementsType "basic" vertexOnlyArgs 0 6 (Some 2)
      (steps [CDrawArraysType "basic" fullArgs 0 3 None] sampleDrawing)
    = Ok tt s' ∧
    gpuLog s' =
      gpuLog
        (steps [CDrawArraysType "basic" fullArgs 0 3 None] sampleDrawing) ++
      [EvSetPipeline 13%nat (Own 15%nat); EvDrawIndexed 13%nat 6 2 0 0 0].
Proof.
  assert (Ht : renderTarget
                 (steps [CDrawArraysType "basic" fullArgs 0 3 None]
                    sampleDrawing) = Some 13%nat)
    by (vm_compute; reflexivity).
  assert (Hp : pipelines
                 (steps [CDrawArraysType "basic" fullArgs 0 3 None]
                    sampleDrawing) !! "basic" = Some 15%nat)
    by (vm_compute; reflexivity).
  destruct (draw_with_cached_pipeline_binds_then_draws
              _ 13%nat "basic" 15%nat vertexOnlyArgs 0 6 (Some 2) Ht Hp)
    as (_ & s' & Hrun & Hlog & _).
  exists s'. split; assumption.
Defined.
